(** * Amazing-Marvin-MCP: the store query path, the REST client and the
      batch / completed-items tools

    A shallow embedding of [amazing_marvin_mcp/api.py] (the REST and
    CouchDB client), [amazing_marvin_mcp/config.py] (the settings record)
    and of the tools of [amazing_marvin_mcp/main.py] that build selectors,
    project fields, group completed items and mark tasks done.

    Python values are JSON-like trees, dictionaries are insertion-ordered
    association lists, and every tool runs in a small monad that threads
    the log of HTTP requests sent so far and may raise a Python exception.
    The outside world is an arbitrary function from the history of requests
    and the current request to an outcome. *)

From Stdlib Require Import ZArith String Ascii List Lia.
From stdpp Require Import base option list strings gmap sorting.
Import ListNotations.
Local Open Scope string_scope.
Local Open Scope Z_scope.

Set Warnings "-register-all".

(** ** Python values *)

Module Py.

(** What [json.loads] produces and what [json=] accepts.  Non-integral
    numbers do not occur in any value the modelled code builds or
    inspects, so numbers are integers.  A [str] is held as the UTF-8
    encoding of its code points (a lone surrogate in its three-byte form):
    equality, concatenation, order and substring search on the bytes are
    those on the code points. *)
Inductive json : Type :=
| JNull
| JBool (b : bool)
| JInt (n : Z)
| JStr (s : string)
| JList (l : list json)
| JDict (d : list (string * json)).

(** A Python [dict] with string keys: insertion-ordered, one entry per key
    for every dictionary the code builds with [dict_set]. *)
Abbreviation dict := (list (string * json)).

(** [d.get(k)] as an option; the first entry of the key. *)
Fixpoint dict_get (d : dict) (k : string) : option json :=
  match d with
  | [] => None
  | (k', v) :: d' => if String.eqb k' k then Some v else dict_get d' k
  end.

(** [d.get(k, dflt)] *)
Definition dict_get_or (d : dict) (k : string) (dflt : json) : json :=
  match dict_get d k with Some v => v | None => dflt end.

(** [k in d] *)
Definition dict_mem (d : dict) (k : string) : bool :=
  match dict_get d k with Some _ => true | None => false end.

(** [d[k] = v]: overwrite in place when the key exists, append otherwise. *)
Fixpoint dict_set (d : dict) (k : string) (v : json) : dict :=
  match d with
  | [] => [(k, v)]
  | (k', v') :: d' =>
      if String.eqb k' k then (k', v) :: d' else (k', v') :: dict_set d' k v
  end.

(** Truth value of an optional string argument ([str | None]): [None] and
    the empty string are false. *)
Definition truthy (o : option string) : bool :=
  match o with
  | Some s => negb (String.eqb s "")
  | None => false
  end.

(** The string held by an optional argument, read after a truth test. *)
Definition the (o : option string) : string :=
  match o with Some s => s | None => "" end.

(** Truth value of an optional list argument ([list[str] | None]): [None]
    and the empty list are false. *)
Definition truthy_list {A} (o : option (list A)) : bool :=
  match o with
  | Some (_ :: _) => true
  | _ => false
  end.

Definition the_list {A} (o : option (list A)) : list A :=
  match o with Some l => l | None => [] end.

(** [x == s] for a value [x] and a string literal [s]. *)
Definition eq_str (x : json) (s : string) : bool :=
  match x with
  | JStr t => String.eqb t s
  | _ => false
  end.

(** [s.rstrip(c)] for a one-character [c]. *)
Fixpoint rstrip (c : ascii) (s : string) : string :=
  match s with
  | EmptyString => EmptyString
  | String a s' =>
      match rstrip c s' with
      | EmptyString => if Ascii.eqb a c then EmptyString else String a EmptyString
      | r => String a r
      end
  end.

(** The exceptions the modelled code raises or meets.  [HTTPError] carries
    [e.response.status_code]; it and [JSONDecodeError] are subclasses of
    [requests.exceptions.RequestException]; all are subclasses of
    [Exception]. *)
Inductive exn : Type :=
| ValueError (msg : string)
| HTTPError (status_code : Z)
| RequestException
| JSONDecodeError
| KeyError (k : string)
| AttributeError
| TypeError
| ValidationError.

Inductive result (A : Type) : Type :=
| Ok (a : A)
| Raise (e : exn).
Arguments Ok {A} a.
Arguments Raise {A} e.

(** [x[k]] on a value: [KeyError] on a missing key, [TypeError] when [x] is
    not a dictionary. *)
Definition subscript (x : json) (k : string) : result json :=
  match x with
  | JDict d => match dict_get d k with Some v => Ok v | None => Raise (KeyError k) end
  | _ => Raise TypeError
  end.

(** [x.get(k, dflt)] on a value: only dictionaries have [get]. *)
Definition get_or (x : json) (k : string) (dflt : json) : result json :=
  match x with
  | JDict d => Ok (dict_get_or d k dflt)
  | _ => Raise AttributeError
  end.

(** A continuation byte of a UTF-8 sequence: [10xxxxxx]. *)
Definition is_continuation (a : ascii) : bool :=
  match a with
  | Ascii _ _ _ _ _ _ b6 b7 => b7 && negb b6
  end.

(** The characters of a [str], each as a one-character string: every byte
    that is not a continuation byte starts a character and the continuation
    bytes after it belong to it. *)
Fixpoint utf8_chars (s : string) : list string :=
  match s with
  | EmptyString => []
  | String a s' =>
      let starts_inside :=
        match s' with
        | String b _ => is_continuation b
        | EmptyString => false
        end in
      match utf8_chars s' with
      | c :: cs =>
          if starts_inside then String a c :: cs
          else String a EmptyString :: c :: cs
      | [] => [String a EmptyString]
      end
  end.

(** The elements a [for] loop or a comprehension visits: the items of a
    list, the keys of a dictionary, the characters of a string. *)
Definition iter (x : json) : result (list json) :=
  match x with
  | JList l => Ok l
  | JDict d => Ok (map (fun kv => JStr (fst kv)) d)
  | JStr s => Ok (map JStr (utf8_chars s))
  | _ => Raise TypeError
  end.

(** [len(x)]: the number of items, of keys, of characters. *)
Definition len (x : json) : result Z :=
  match x with
  | JList l => Ok (Z.of_nat (length l))
  | JDict d => Ok (Z.of_nat (length d))
  | JStr s => Ok (Z.of_nat (length (utf8_chars s)))
  | _ => Raise TypeError
  end.

End Py.
Export Py.

(** ** HTTP transport and the effect monad *)

Inductive http_method : Type := GET | POST | PUT | DELETE.

(** One call of [requests.get/post/put/delete]. *)
Record request : Type := Request {
  req_method : http_method;
  req_url : string;
  req_headers : list (string * string);
  req_json : option json;
  req_auth : option (string * string)
}.

Inductive content : Type :=
| NoContent
| JsonContent (j : json)
| OtherContent.

Record response : Type := Response {
  status_code : Z;
  resp_content : content
}.

Inductive outcome : Type :=
| Responded (r : response)
| Failed.

(** A computation reads the log of requests already sent, may send more,
    and returns a value or raises.  The log survives an exception. *)
Definition M (A : Type) : Type := list request -> result A * list request.

Definition ret {A} (a : A) : M A := fun log => (Ok a, log).
Definition raise {A} (e : exn) : M A := fun log => (Raise e, log).
Definition bind {A B} (m : M A) (k : A -> M B) : M B :=
  fun log =>
    match m log with
    | (Ok a, log') => k a log'
    | (Raise e, log') => (Raise e, log')
    end.
(** [try: m  except Exception as e: h e] *)
Definition try_except {A} (m : M A) (h : exn -> M A) : M A :=
  fun log =>
    match m log with
    | (Ok a, log') => (Ok a, log')
    | (Raise e, log') => h e log'
    end.
Definition lift {A} (r : result A) : M A := fun log => (r, log).

Declare Scope py_scope.
Delimit Scope py_scope with py.
Notation "x <- m ;; k" := (bind m (fun x => k))
  (at level 100, m at next level, right associativity) : py_scope.
Local Open Scope py_scope.

(** ** Settings ([config.py]) and the API client ([api.py]) *)

Record Settings : Type := {
  amazing_marvin_api_key : string;
  amazing_marvin_full_access_token : string;
  amazing_marvin_db_uri : string;
  amazing_marvin_db_name : string;
  amazing_marvin_db_user : string;
  amazing_marvin_db_password : string
}.

Record MarvinAPIClient : Type := {
  api_key : string;
  full_access_token : string;
  base_url : string;
  headers : list (string * string);
  full_access_headers : list (string * string);
  _db_uri : string;
  _db_name : string;
  _db_user : string;
  _db_password : string
}.

(** [MarvinAPIClient.__init__] *)
Definition MarvinAPIClient_init
    (api_key full_access_token db_uri db_name db_user db_password : string)
    : MarvinAPIClient :=
  {| api_key := api_key;
     full_access_token := full_access_token;
     base_url := "https://serv.amazingmarvin.com/api";
     headers := [("X-API-Token", api_key)];
     full_access_headers := [("X-Full-Access-Token", full_access_token)];
     _db_uri := if negb (String.eqb db_uri "") then rstrip "/"%char db_uri else "";
     _db_name := db_name;
     _db_user := db_user;
     _db_password := db_password |}.

Definition nonempty (s : string) : bool := negb (String.eqb s "").

(** [MarvinAPIClient.has_couchdb]: [all] of the four credentials. *)
Definition has_couchdb (self : MarvinAPIClient) : bool :=
  forallb nonempty [_db_uri self; _db_name self; _db_user self; _db_password self].

(** [list(set(fields) | {"_id"})]: the order of iteration of a Python
    set is unspecified; [elements] fixes one. *)
Definition field_set (fields : list string) : gset string :=
  list_to_set fields ∪ {["_id"]}.

(** [response.raise_for_status()] *)
Definition raise_for_status (r : response) : M unit :=
  if (400 <=? status_code r) && (status_code r <? 600)
  then raise (HTTPError (status_code r))
  else ret tt.

(** [response.json()] *)
Definition response_json (r : response) : M json :=
  match resp_content r with
  | JsonContent j => ret j
  | NoContent | OtherContent => raise JSONDecodeError
  end.

(** Modelled from the spec: the response envelope (success / error
    wrapping) of [tool_converter.py], which is not among the sources.  A
    response records the arguments its constructor was called with; the
    clock reading [start_time] is left out. *)
Inductive StandardResponse (D : Type) : Type :=
| create_simple_response (data : D) (summary_text api_endpoint : string)
    (api_calls_made : json) (debug : bool)
| create_error_response (e : exn) (api_endpoint : string) (debug : bool).
Arguments create_simple_response {D} data summary_text api_endpoint api_calls_made debug.
Arguments create_error_response {D} e api_endpoint debug.

Section World.

(** The upstream services: the outcome of a request given the requests
    that preceded it. *)
Variable upstream : list request -> request -> outcome.

(** [Settings()], evaluated at each call of [get_settings]. *)
Variable get_settings : result Settings.

(** Python's [str.lower], [re.escape], [str(e)] for an exception and
    [str(x)] for a value inside an f-string. *)
Variable lower : string -> string.
Variable re_escape : string -> string.
Variable str_exn : exn -> string.
Variable str_json : json -> string.

(** [requests.<method>(url, ...)]: the request is logged, a transport
    failure raises [RequestException]. *)
Definition send (r : request) : M response :=
  fun log =>
    match upstream log r with
    | Responded resp => (Ok resp, (log ++ [r])%list)
    | Failed => (Raise RequestException, (log ++ [r])%list)
    end.

(** [create_api_client] *)
Definition create_api_client : M MarvinAPIClient :=
  settings <- lift get_settings ;;
  ret (MarvinAPIClient_init
         (amazing_marvin_api_key settings)
         (amazing_marvin_full_access_token settings)
         (amazing_marvin_db_uri settings)
         (amazing_marvin_db_name settings)
         (amazing_marvin_db_user settings)
         (amazing_marvin_db_password settings)).

Definition find_docs_error : string :=
  "CouchDB credentials not configured. " ++
  "Set AMAZING_MARVIN_DB_URI, _DB_NAME, _DB_USER, _DB_PASSWORD.".

(** [MarvinAPIClient.find_docs] *)
Definition find_docs (self : MarvinAPIClient) (selector : dict)
    (fields : option (list string)) (limit : Z) : M json :=
  if negb (has_couchdb self) then raise (ValueError find_docs_error)
  else
    let url := _db_uri self ++ "/" ++ _db_name self ++ "/_find" in
    let body := [("selector", JDict selector); ("limit", JInt limit)] in
    let body :=
      if truthy_list fields
      then dict_set body "fields"
             (JList (map JStr (elements (field_set (the_list fields)))))
      else body in
    response <- send {| req_method := POST; req_url := url; req_headers := [];
                        req_json := Some (JDict body);
                        req_auth := Some (_db_user self, _db_password self) |} ;;
    _ <- raise_for_status response ;;
    j <- response_json response ;;
    lift (subscript j "docs").

(** [MarvinAPIClient._make_request].  The callers pass the method as one of
    the literals the function compares [method.lower()] with; the two
    [except] clauses log and re-raise. *)
Definition _make_request (self : MarvinAPIClient) (method : http_method)
    (endpoint : string) (data : option json) : M json :=
  let url := base_url self ++ endpoint in
  response <-
    match method with
    | GET => send (Request GET url (headers self) None None)
    | POST => send (Request POST url (headers self) data None)
    | PUT => send (Request PUT url (headers self) data None)
    | DELETE => send (Request DELETE url (headers self) None None)
    end ;;
  _ <- raise_for_status response ;;
  if (status_code response =? 204)
     || match resp_content response with NoContent => true | _ => false end
  then ret (JDict [])
  else response_json response.

(** [MarvinAPIClient.get_labels] *)
Definition get_labels (self : MarvinAPIClient) : M json :=
  _make_request self GET "/labels" None.

(** [MarvinAPIClient.get_done_items] *)
Definition get_done_items (self : MarvinAPIClient) (date : option string) : M json :=
  let endpoint := "/doneItems" in
  let endpoint := if truthy date then endpoint ++ "?date=" ++ the date else endpoint in
  _make_request self GET endpoint None.

(** [MarvinAPIClient.get_children] *)
Definition get_children (self : MarvinAPIClient) (parent_id : string) : M json :=
  try_except
    (_make_request self GET ("/children?parentId=" ++ parent_id) None)
    (fun e =>
       match e with
       | HTTPError status =>
           let not_found_status := 404 in
           if status =? not_found_status then ret (JList []) else raise e
       | _ => raise e
       end).

(** [MarvinAPIClient.mark_task_done] *)
Definition mark_task_done (self : MarvinAPIClient) (item_id : string)
    (timezone_offset : Z) : M json :=
  _make_request self POST "/markDone"
    (Some (JDict [("itemId", JStr item_id); ("timeZoneOffset", JInt timezone_offset)])).

(** ** The tools of [main.py] *)

(** Truth value of a Python value. *)
Definition truthy_json (x : json) : bool :=
  match x with
  | JNull => false
  | JBool b => b
  | JInt n => negb (n =? 0)
  | JStr s => nonempty s
  | JList l => match l with [] => false | _ => true end
  | JDict d => match d with [] => false | _ => true end
  end.

(** Bytewise lexicographic order, the order of [sorted] on [str] (code
    point order, which UTF-8 preserves). *)
Definition str_le (a b : string) : Prop := String.leb a b = true.
#[local] Instance str_le_dec : RelDecision str_le :=
  fun a b => decide (String.leb a b = true).

(** [sorted(set(fields) | {"_id"})] *)
Definition sorted_fields (fields : list string) : list string :=
  merge_sort str_le (elements (field_set fields)).

(** *** [query_tasks] *)

Record query_args : Type := {
  label : option string;
  fields : option (list string);
  include_done : bool;
  contains : option string;
  due : option string;
  due_before : option string;
  due_after : option string;
  scheduled : option string;
  scheduled_before : option string;
  scheduled_after : option string;
  parent_id : option string;
  is_starred : option bool;
  debug : bool
}.

Definition query_tasks_error : string :=
  "CouchDB credentials not configured. " ++
  "Set AMAZING_MARVIN_DB_URI, _DB_NAME, _DB_USER, _DB_PASSWORD " ++
  "to use query_tasks. Use get_all_tasks as a fallback.".

(** [next((lb for lb in labels if lb.get("title", "").lower() ==
    label.lower()), None)]: the generator is consumed up to the first
    match, so a malformed entry after the match is never looked at. *)
Fixpoint next_label (labels : list json) (label : string) : result json :=
  match labels with
  | [] => Ok JNull
  | lb :: rest =>
      match get_or lb "title" (JStr "") with
      | Ok (JStr title) =>
          if String.eqb (lower title) (lower label) then Ok lb
          else next_label rest label
      | Ok _ => Raise AttributeError
      | Raise e => Raise e
      end
  end.

(** Lines 307-310: the base clause and the completion clause. *)
Definition selector_base (a : query_args) : dict :=
  let selector := [("db", JStr "Tasks")] in
  if negb (include_done a)
  then dict_set selector "done" (JDict [("$ne", JBool true)])
  else selector.

(** Lines 333-367: text search, due date, scheduled date, parent and
    starred clauses, added to the selector built so far. *)
Definition selector_filters (a : query_args) (selector : dict) : dict :=
  let selector :=
    if truthy (contains a) then
      let pattern := "(?i)" ++ re_escape (the (contains a)) in
      dict_set selector "$or"
        (JList [JDict [("title", JDict [("$regex", JStr pattern)])];
                JDict [("note", JDict [("$regex", JStr pattern)])]])
    else selector in
  let selector :=
    if truthy (due a) then dict_set selector "dueDate" (JStr (the (due a)))
    else if truthy (due_before a) || truthy (due_after a) then
      let due_filter : dict := [] in
      let due_filter :=
        if truthy (due_after a)
        then dict_set due_filter "$gte" (JStr (the (due_after a)))
        else due_filter in
      let due_filter :=
        if truthy (due_before a)
        then dict_set due_filter "$lte" (JStr (the (due_before a)))
        else due_filter in
      dict_set selector "dueDate" (JDict due_filter)
    else selector in
  let selector :=
    if truthy (scheduled a) then dict_set selector "day" (JStr (the (scheduled a)))
    else if truthy (scheduled_before a) || truthy (scheduled_after a) then
      let day_filter : dict := [] in
      let day_filter :=
        if truthy (scheduled_after a)
        then dict_set day_filter "$gte" (JStr (the (scheduled_after a)))
        else day_filter in
      let day_filter :=
        if truthy (scheduled_before a)
        then dict_set day_filter "$lte" (JStr (the (scheduled_before a)))
        else day_filter in
      dict_set selector "day" (JDict day_filter)
    else selector in
  let selector :=
    if truthy (parent_id a)
    then dict_set selector "parentId" (JStr (the (parent_id a)))
    else selector in
  match is_starred a with
  | Some b => dict_set selector "isStarred" (JInt (if b then 1 else 0))
  | None => selector
  end.

(** [[d for d in docs if d.get("type") not in ("project", "category")]] *)
Fixpoint filter_tasks (docs : list json) : result (list json) :=
  match docs with
  | [] => Ok []
  | d :: rest =>
      match get_or d "type" JNull with
      | Raise e => Raise e
      | Ok ty =>
          match filter_tasks rest with
          | Raise e => Raise e
          | Ok tasks =>
              if negb (eq_str ty "project" || eq_str ty "category")
              then Ok (d :: tasks) else Ok tasks
          end
      end
  end.

(** Lines 387-408: the description of the filters in the summary. *)
Definition filter_desc (a : query_args) : string :=
  let filters : list string :=
    ((if truthy (label a) then [("label='" ++ the (label a) ++ "'")%string] else []) ++
     (if truthy (contains a) then [("contains='" ++ the (contains a) ++ "'")%string] else []) ++
     (if truthy (due a) then [("due=" ++ the (due a))%string] else []) ++
     (if truthy (due_before a) then [("due<=" ++ the (due_before a))%string] else []) ++
     (if truthy (due_after a) then [("due>=" ++ the (due_after a))%string] else []) ++
     (if truthy (scheduled a) then [("scheduled=" ++ the (scheduled a))%string] else []) ++
     (if truthy (scheduled_before a)
      then [("scheduled<=" ++ the (scheduled_before a))%string] else []) ++
     (if truthy (scheduled_after a)
      then [("scheduled>=" ++ the (scheduled_after a))%string] else []) ++
     (if truthy (parent_id a) then [("parent=" ++ the (parent_id a))%string] else []) ++
     (match is_starred a with
      | Some b => [("starred=" ++ (if b then "yes" else "no"))%string]
      | None => []
      end))%list in
  match filters with
  | [] => ""
  | _ => " (" ++ String.concat ", " filters ++ ")"
  end.

(** Lines 377-385: the result dictionary. *)
Definition query_result (a : query_args) (tasks : list json) : dict :=
  let result : dict :=
    [("tasks", JList tasks);
     ("total_tasks", JInt (Z.of_nat (length tasks)));
     ("source", JStr "CouchDB _find query")] in
  let result :=
    if truthy_list (fields a)
    then dict_set result "fields_returned"
           (JList (map JStr (sorted_fields (the_list (fields a)))))
    else result in
  if truthy (label a)
  then dict_set result "label_filter" (JStr (the (label a)))
  else result.

(** Lines 333-418: the rest of [query_tasks] once the label is resolved. *)
Definition query_tasks_find (a : query_args) (api_client : MarvinAPIClient)
    (selector : dict) (api_calls : Z) : M (StandardResponse json) :=
  let selector := selector_filters a selector in
  docs <- find_docs api_client selector (fields a) 500 ;;
  let api_calls := api_calls + 1 in
  docs <- lift (iter docs) ;;
  tasks <- lift (filter_tasks docs) ;;
  let result := query_result a tasks in
  let summary_text :=
    "Retrieved " ++ str_json (JInt (Z.of_nat (length tasks))) ++
    " tasks via CouchDB" ++ filter_desc a in
  ret (create_simple_response (JDict result) summary_text "CouchDB _find"
         (JInt api_calls) (debug a)).

(** [query_tasks] *)
Definition query_tasks (a : query_args) : M (StandardResponse json) :=
  try_except
    (api_client <- create_api_client ;;
     if negb (has_couchdb api_client) then
       ret (create_error_response (ValueError query_tasks_error)
              "CouchDB _find" (debug a))
     else
       let selector := selector_base a in
       let api_calls := 0 in
       if truthy (label a) then
         labels <- get_labels api_client ;;
         let api_calls := api_calls + 1 in
         labels <- lift (iter labels) ;;
         label_match <- lift (next_label labels (the (label a))) ;;
         if truthy_json label_match then
           label_id <- lift (subscript label_match "_id") ;;
           let selector :=
             dict_set selector "labelIds"
               (JDict [("$elemMatch", JDict [("$eq", label_id)])]) in
           query_tasks_find a api_client selector api_calls
         else
           ret (create_simple_response
                  (JDict [("tasks", JList []); ("total_tasks", JInt 0)])
                  ("No label found matching '" ++ the (label a) ++ "'")
                  "CouchDB _find" (JInt api_calls) (debug a))
       else query_tasks_find a api_client selector api_calls)
    (fun e => ret (create_error_response e "CouchDB _find" (debug a))).

(** *** [get_all_tasks] *)

(** [tasks.get_all_tasks_impl] is not among the sources: any computation
    returning a dictionary. *)
Variable get_all_tasks_impl : MarvinAPIClient -> option string -> M dict.

(** [{k: v for k, v in task.items() if k in field_set}] *)
Definition project (fs : gset string) (task : dict) : dict :=
  filter (fun kv => fst kv ∈ fs) task.

(** The list comprehension over [result["tasks"]]: [task.items()] exists
    on dictionaries only. *)
Fixpoint project_tasks (fs : gset string) (tasks : list json) : result (list json) :=
  match tasks with
  | [] => Ok []
  | JDict task :: rest =>
      match project_tasks fs rest with
      | Ok rest' => Ok (JDict (project fs task) :: rest')
      | Raise e => Raise e
      end
  | _ :: _ => Raise AttributeError
  end.

(** Lines 221-228 of [get_all_tasks]: the projection of the result. *)
Definition project_result (fields : option (list string)) (result : dict)
    : Py.result dict :=
  if truthy_list fields && dict_mem result "tasks" then
    let fs := field_set (the_list fields) in
    match iter (dict_get_or result "tasks" JNull) with
    | Raise e => Raise e
    | Ok tasks =>
        match project_tasks fs tasks with
        | Raise e => Raise e
        | Ok tasks' =>
            let result := dict_set result "tasks" (JList tasks') in
            Ok (dict_set result "fields_returned"
                  (JList (map JStr (sorted_fields (the_list fields)))))
        end
    end
  else Ok result.

(** [get_all_tasks] *)
Definition get_all_tasks (label : option string) (fields : option (list string))
    (debug : bool) : M (StandardResponse json) :=
  try_except
    (api_client <- create_api_client ;;
     result <- get_all_tasks_impl api_client label ;;
     result <- lift (project_result fields result) ;;
     let estimated_api_calls := dict_get_or result "api_calls_made" (JInt 5) in
     ret (create_simple_response (JDict result)
            ("Retrieved " ++ str_json (dict_get_or result "total_tasks" (JInt 0)) ++
             " tasks across all projects" ++
             (if truthy label then " with label '" ++ the label ++ "'" else ""))
            "/categories + /children" estimated_api_calls debug))
    (fun e => ret (create_error_response e "/categories + /children" debug)).

(** *** [batch_mark_done] *)

(** The [for task_id in task_ids] loop with its inner [try]/[except]. *)
Fixpoint mark_each (api_client : MarvinAPIClient) (task_ids : list string)
    (completed_tasks failed_tasks : list json) : M (list json * list json) :=
  match task_ids with
  | [] => ret (completed_tasks, failed_tasks)
  | task_id :: rest =>
      lists <-
        try_except
          (completed_task <- mark_task_done api_client task_id 0 ;;
           ret ((completed_tasks ++ [completed_task])%list, failed_tasks))
          (fun e =>
             ret (completed_tasks,
                  (failed_tasks ++
                   [JDict [("task_id", JStr task_id); ("error", JStr (str_exn e))]])%list)) ;;
      mark_each api_client rest (fst lists) (snd lists)
  end.

(** [batch_mark_done] *)
Definition batch_mark_done (task_ids : list string) (debug : bool)
    : M (StandardResponse json) :=
  try_except
    (api_client <- create_api_client ;;
     lists <- mark_each api_client task_ids [] [] ;;
     let completed_tasks := fst lists in
     let failed_tasks := snd lists in
     let result : dict :=
       [("completed_tasks", JList completed_tasks);
        ("failed_tasks", JList failed_tasks);
        ("success_count", JInt (Z.of_nat (length completed_tasks)));
        ("failure_count", JInt (Z.of_nat (length failed_tasks)));
        ("total_requested", JInt (Z.of_nat (length task_ids)))] in
     ret (create_simple_response (JDict result)
            ("Marked " ++ str_json (JInt (Z.of_nat (length completed_tasks))) ++
             " of " ++ str_json (JInt (Z.of_nat (length task_ids))) ++
             " tasks as done")
            "/markDone" (JInt (Z.of_nat (length task_ids))) debug))
    (fun e => ret (create_error_response e "/markDone" debug)).

(** *** [get_completed_tasks_for_date] *)

(** The numeric value of a key that compares as a number ([True == 1]). *)
Definition key_num (k : json) : option Z :=
  match k with
  | JBool b => Some (if b then 1 else 0)
  | JInt n => Some n
  | _ => None
  end.

(** [==] between two hashable values, as the dictionary compares keys. *)
Definition key_eqb (a b : json) : bool :=
  match a, b with
  | JNull, JNull => true
  | JStr s, JStr t => String.eqb s t
  | _, _ =>
      match key_num a, key_num b with
      | Some m, Some n => m =? n
      | _, _ => false
      end
  end.

(** Lists and dictionaries are unhashable. *)
Definition hashable (k : json) : bool :=
  match k with
  | JList _ | JDict _ => false
  | _ => true
  end.

(** [by_project]: a dictionary keyed by parent identifiers, in insertion
    order. *)
Abbreviation groups := (list (json * list json)).

(** Lines 1233-1235: create the group of the key when it is new, then
    append the item to it. *)
Fixpoint group_append (by_project : groups) (parent_id item : json) : groups :=
  match by_project with
  | [] => [(parent_id, [item])]
  | (k, l) :: rest =>
      if key_eqb k parent_id then (k, (l ++ [item])%list) :: rest
      else (k, l) :: group_append rest parent_id item
  end.

(** Lines 1227-1235: the grouping loop. *)
Fixpoint group_items (completed_items : list json) (by_project : groups)
    (unassigned : list json) : result (groups * list json) :=
  match completed_items with
  | [] => Ok (by_project, unassigned)
  | item :: rest =>
      match get_or item "parentId" (JStr "unassigned") with
      | Raise e => Raise e
      | Ok parent_id =>
          if eq_str parent_id "unassigned"
          then group_items rest by_project (unassigned ++ [item])%list
          else if hashable parent_id
          then group_items rest (group_append by_project parent_id item) unassigned
          else Raise TypeError
      end
  end.

Record completed_result : Type := {
  date : string;
  total_completed : Z;
  completed_by_project : groups;
  unassigned_completed : list json;
  project_count : Z;
  unassigned_count : Z;
  all_completed : json;
  source : string
}.

(** [get_completed_tasks_for_date] *)
Definition get_completed_tasks_for_date (date : string) (debug : bool)
    : M (StandardResponse completed_result) :=
  try_except
    (api_client <- create_api_client ;;
     completed_items <- get_done_items api_client (Some date) ;;
     items <- lift (iter completed_items) ;;
     grouped <- lift (group_items items [] []) ;;
     let by_project := fst grouped in
     let unassigned := snd grouped in
     n <- lift (len completed_items) ;;
     let result :=
       {| date := date;
          total_completed := n;
          completed_by_project := by_project;
          unassigned_completed := unassigned;
          project_count := Z.of_nat (length by_project);
          unassigned_count := Z.of_nat (length unassigned);
          all_completed := completed_items;
          source := "Efficiently filtered from /doneItems?date=" ++ date |} in
     ret (create_simple_response result
            ("Retrieved " ++ str_json (JInt n) ++ " completed tasks for " ++ date)
            "/doneItems" (JInt 1) debug))
    (fun e => ret (create_error_response e "/doneItems" debug)).

(** ** Vocabulary of the statements *)

(** The arguments with the due-date bounds replaced. *)
Definition with_due_bounds (a : query_args) (before after : option string)
    : query_args :=
  {| label := label a; fields := fields a; include_done := include_done a;
     contains := contains a; due := due a;
     due_before := before; due_after := after;
     scheduled := scheduled a; scheduled_before := scheduled_before a;
     scheduled_after := scheduled_after a; parent_id := parent_id a;
     is_starred := is_starred a; debug := debug a |}.

(** The arguments with the scheduled-date bounds replaced. *)
Definition with_scheduled_bounds (a : query_args) (before after : option string)
    : query_args :=
  {| label := label a; fields := fields a; include_done := include_done a;
     contains := contains a; due := due a;
     due_before := due_before a; due_after := due_after a;
     scheduled := scheduled a; scheduled_before := before;
     scheduled_after := after; parent_id := parent_id a;
     is_starred := is_starred a; debug := debug a |}.

(** The range clause for a pair of bounds: [$gte] from the lower bound,
    [$lte] from the upper bound, each only when the bound is given. *)
Definition range_clause (before after : option string) : json :=
  JDict ((if truthy after then [("$gte", JStr (the after))] else []) ++
         (if truthy before then [("$lte", JStr (the before))] else []))%list.

(** The selector a request carries in its JSON body, if any. *)
Definition sent_selector (r : request) : option dict :=
  match req_json r with
  | Some (JDict body) =>
      match dict_get body "selector" with
      | Some (JDict sel) => Some sel
      | _ => None
      end
  | _ => None
  end.

(** The field list a request carries in its JSON body, if any. *)
Definition sent_fields (r : request) : option json :=
  match req_json r with
  | Some (JDict body) => dict_get body "fields"
  | _ => None
  end.

(** The request [find_docs] posts. *)
Definition find_request (self : MarvinAPIClient) (selector : dict)
    (fields : option (list string)) (limit : Z) : request :=
  {| req_method := POST;
     req_url := _db_uri self ++ "/" ++ _db_name self ++ "/_find";
     req_headers := [];
     req_json :=
       Some (JDict
         ([("selector", JDict selector); ("limit", JInt limit)] ++
          (if truthy_list fields
           then [("fields", JList (map JStr (elements (field_set (the_list fields)))))]
           else []))%list);
     req_auth := Some (_db_user self, _db_password self) |}.

(** The request [_make_request] sends. *)
Definition api_request (self : MarvinAPIClient) (method : http_method)
    (endpoint : string) (data : option json) : request :=
  {| req_method := method;
     req_url := base_url self ++ endpoint;
     req_headers := headers self;
     req_json := match method with POST | PUT => data | GET | DELETE => None end;
     req_auth := None |}.

(** The client built from a settings record. *)
Definition client_of (s : Settings) : MarvinAPIClient :=
  MarvinAPIClient_init
    (amazing_marvin_api_key s) (amazing_marvin_full_access_token s)
    (amazing_marvin_db_uri s) (amazing_marvin_db_name s)
    (amazing_marvin_db_user s) (amazing_marvin_db_password s).

(** A container document: a dictionary whose [type] is ["project"] or
    ["category"]. *)
Definition is_container (d : json) : Prop :=
  exists o, d = JDict o /\
    (dict_get o "type" = Some (JStr "project") \/
     dict_get o "type" = Some (JStr "category")).

(** How the label argument was handled before the store is queried: the
    requests sent so far, the selector built so far, the calls counted. *)
Inductive label_stage (a : query_args) (client : MarvinAPIClient)
    : list request -> dict -> Z -> Prop :=
| NoLabelArg :
    truthy (label a) = false ->
    label_stage a client [] (selector_base a) 0
| LabelResolved (label_id : json) :
    truthy (label a) = true ->
    label_stage a client [api_request client GET "/labels" None]
      (dict_set (selector_base a) "labelIds"
         (JDict [("$elemMatch", JDict [("$eq", label_id)])])) 1.

(** The runs of [query_tasks]: the response returned and the requests
    sent, in order. *)
Inductive query_run (a : query_args) : StandardResponse json -> list request -> Prop :=
| RunNoSettings e :
    get_settings = Raise e ->
    query_run a (create_error_response e "CouchDB _find" (debug a)) []
| RunUnconfigured s :
    get_settings = Ok s ->
    has_couchdb (client_of s) = false ->
    query_run a
      (create_error_response (ValueError query_tasks_error) "CouchDB _find" (debug a)) []
| RunLabelsFailed s e :
    get_settings = Ok s ->
    has_couchdb (client_of s) = true ->
    truthy (label a) = true ->
    query_run a (create_error_response e "CouchDB _find" (debug a))
      [api_request (client_of s) GET "/labels" None]
| RunNoLabel s :
    get_settings = Ok s ->
    has_couchdb (client_of s) = true ->
    truthy (label a) = true ->
    query_run a
      (create_simple_response
         (JDict [("tasks", JList []); ("total_tasks", JInt 0)])
         ("No label found matching '" ++ the (label a) ++ "'")
         "CouchDB _find" (JInt 1) (debug a))
      [api_request (client_of s) GET "/labels" None]
| RunFindFailed s pre sel0 n e :
    get_settings = Ok s ->
    has_couchdb (client_of s) = true ->
    label_stage a (client_of s) pre sel0 n ->
    query_run a (create_error_response e "CouchDB _find" (debug a))
      (pre ++ [find_request (client_of s) (selector_filters a sel0) (fields a) 500])%list
| RunFound s pre sel0 n docs tasks :
    get_settings = Ok s ->
    has_couchdb (client_of s) = true ->
    label_stage a (client_of s) pre sel0 n ->
    filter_tasks docs = Ok tasks ->
    query_run a
      (create_simple_response (JDict (query_result a tasks))
         ("Retrieved " ++ str_json (JInt (Z.of_nat (length tasks))) ++
          " tasks via CouchDB" ++ filter_desc a)
         "CouchDB _find" (JInt (n + 1)) (debug a))
      (pre ++ [find_request (client_of s) (selector_filters a sel0) (fields a) 500])%list.

(** A label entry that does not match the label name: a dictionary whose
    title (the empty string when absent) is a string that differs from the
    name once both are lower-cased. *)
Definition no_match (label : string) (lb : json) : Prop :=
  exists d title, lb = JDict d /\
    dict_get_or d "title" (JStr "") = JStr title /\
    lower title <> lower label.

(** [p in s] for strings. *)
Fixpoint is_infix (p s : string) : bool :=
  String.prefix p s ||
  match s with
  | EmptyString => false
  | String _ s' => is_infix p s'
  end.

(** The four store credentials, the value each has in the settings and the
    name under which the error messages mention it. *)
Inductive credential : Type := DB_URI | DB_NAME | DB_USER | DB_PASSWORD.

Definition credential_value (s : Settings) (c : credential) : string :=
  match c with
  | DB_URI => amazing_marvin_db_uri s
  | DB_NAME => amazing_marvin_db_name s
  | DB_USER => amazing_marvin_db_user s
  | DB_PASSWORD => amazing_marvin_db_password s
  end.

Definition setting_name (c : credential) : string :=
  match c with
  | DB_URI => "AMAZING_MARVIN_DB_URI"
  | DB_NAME => "_DB_NAME"
  | DB_USER => "_DB_USER"
  | DB_PASSWORD => "_DB_PASSWORD"
  end.

Definition names_setting (msg : string) (c : credential) : bool :=
  is_infix (setting_name c) msg.

(** The arguments with the field projection replaced. *)
Definition with_fields (a : query_args) (f : option (list string)) : query_args :=
  {| label := label a; fields := f; include_done := include_done a;
     contains := contains a; due := due a;
     due_before := due_before a; due_after := due_after a;
     scheduled := scheduled a; scheduled_before := scheduled_before a;
     scheduled_after := scheduled_after a; parent_id := parent_id a;
     is_starred := is_starred a; debug := debug a |}.


(** The request [mark_task_done] sends for an identifier. *)
Definition mark_request (self : MarvinAPIClient) (item_id : string) : request :=
  api_request self POST "/markDone"
    (Some (JDict [("itemId", JStr item_id); ("timeZoneOffset", JInt 0)])).

(** The outcome of marking each identifier in turn, each attempt made
    after the requests of the attempts before it. *)
Fixpoint attempts (self : MarvinAPIClient) (task_ids : list string)
    (log : list request) : list (string * result json) :=
  match task_ids with
  | [] => []
  | task_id :: rest =>
      (task_id, fst (mark_task_done self task_id 0 log))
      :: attempts self rest (snd (mark_task_done self task_id 0 log))
  end.

(** The answers of the attempts that succeeded, in order. *)
Definition completed_of (outcomes : list (string * result json)) : list json :=
  flat_map (fun o => match snd o with Ok j => [j] | Raise _ => [] end) outcomes.

(** The failure records of the attempts that raised, in order. *)
Definition failed_of (outcomes : list (string * result json)) : list json :=
  flat_map
    (fun o =>
       match snd o with
       | Ok _ => []
       | Raise e => [JDict [("task_id", JStr (fst o)); ("error", JStr (str_exn e))]]
       end) outcomes.

(** The parent identifier the grouping loop reads from an item. *)
Definition parent_of (item : json) : json :=
  match item with
  | JDict d => dict_get_or d "parentId" (JStr "unassigned")
  | _ => JNull
  end.

(** An item with no [parentId] entry or with the ["unassigned"] one. *)
Definition is_unassigned (item : json) : bool := eq_str (parent_of item) "unassigned".

(** A completed item as the service sends it: a dictionary whose parent
    identifier, when present, can be a dictionary key. *)
Definition well_formed_item (item : json) : Prop :=
  (exists d, item = JDict d) /\ hashable (parent_of item) = true.

(** The items of a parent identifier, in their order. *)
Definition group_of (k : json) (items : list json) : list json :=
  List.filter (fun item => negb (is_unassigned item) && key_eqb k (parent_of item)) items.

(** [by_project.get(k, [])] *)
Fixpoint glookup (by_project : groups) (k : json) : list json :=
  match by_project with
  | [] => []
  | (k', l) :: rest => if key_eqb k' k then l else glookup rest k
  end.

(** The sum of the sizes of the groups. *)
Definition sizes (by_project : groups) : nat :=
  list_sum (map (fun e => length (snd e)) by_project).

(** No two entries under keys that compare equal. *)
Fixpoint distinct_keys (by_project : groups) : Prop :=
  match by_project with
  | [] => True
  | (k, _) :: rest =>
      Forall (fun e => key_eqb k (fst e) = false) rest /\ distinct_keys rest
  end.

(** ** The rest of the client ([api.py]) *)

Definition full_access_error : string :=
  "Full access token not configured. Set AMAZING_MARVIN_FULL_ACCESS_TOKEN.".

(** [MarvinAPIClient._make_full_access_request].  Only [get] and [post]
    are supported; the [ValueError] for another method is raised inside the
    [try] and caught by neither [except] clause. *)
Definition _make_full_access_request (self : MarvinAPIClient) (method : http_method)
    (endpoint : string) (data : option json) : M json :=
  if negb (nonempty (full_access_token self)) then raise (ValueError full_access_error)
  else
    let url := base_url self ++ endpoint in
    response <-
      match method with
      | GET => send (Request GET url (full_access_headers self) None None)
      | POST => send (Request POST url (full_access_headers self) data None)
      | PUT => raise (ValueError "Unsupported HTTP method: put")
      | DELETE => raise (ValueError "Unsupported HTTP method: delete")
      end ;;
    _ <- raise_for_status response ;;
    if (status_code response =? 204)
       || match resp_content response with NoContent => true | _ => false end
    then ret (JDict [])
    else response_json response.

(** [MarvinAPIClient.get_tasks] *)
Definition get_tasks (self : MarvinAPIClient) (date : option string) : M json :=
  let endpoint := "/todayItems" in
  let endpoint := if truthy date then endpoint ++ "?date=" ++ the date else endpoint in
  _make_request self GET endpoint None.

(** [MarvinAPIClient.read_doc] *)
Definition read_doc (self : MarvinAPIClient) (item_id : string) : M json :=
  _make_full_access_request self GET ("/doc?id=" ++ item_id) None.

(** [MarvinAPIClient.get_categories] *)
Definition get_categories (self : MarvinAPIClient) : M json :=
  _make_request self GET "/categories" None.

(** [[cat for cat in categories if cat.get("type") == "project"]] *)
Fixpoint only_projects (categories : list json) : result (list json) :=
  match categories with
  | [] => Ok []
  | cat :: rest =>
      match get_or cat "type" JNull with
      | Raise e => Raise e
      | Ok ty =>
          match only_projects rest with
          | Raise e => Raise e
          | Ok projects => if eq_str ty "project" then Ok (cat :: projects) else Ok projects
          end
      end
  end.

(** [MarvinAPIClient.get_projects] *)
Definition get_projects (self : MarvinAPIClient) : M (list json) :=
  categories <- get_categories self ;;
  categories <- lift (iter categories) ;;
  lift (only_projects categories).

(** [MarvinAPIClient.get_all_tasks_for_date]: [result.extend(today_items)]
    on an empty list, any exception answered by the empty list. *)
Definition get_all_tasks_for_date (self : MarvinAPIClient) (date : string)
    : M (list json) :=
  try_except
    (today_items <- _make_request self GET ("/todayItems?date=" ++ date) None ;;
     lift (iter today_items))
    (fun e => ret []).

(** [MarvinAPIClient.create_task] *)
Definition api_create_task (self : MarvinAPIClient) (task_data : dict) : M json :=
  _make_request self POST "/addTask" (Some (JDict task_data)).

Definition no_tracked_item : json :=
  JDict [("message", JStr "No item currently being tracked")].

(** [MarvinAPIClient.get_currently_tracked_item] *)
Definition api_get_currently_tracked_item (self : MarvinAPIClient) : M json :=
  result <- _make_request self GET "/trackedItem" None ;;
  if negb (truthy_json result) then ret no_tracked_item else ret result.

(** [MarvinAPIClient.create_doc] *)
Definition create_doc (self : MarvinAPIClient) (doc_data : json) : M json :=
  _make_full_access_request self POST "/doc/create" (Some doc_data).

(** [MarvinAPIClient.update_doc]: the identifier is whatever value the
    caller holds; [create_task] passes the [_id] it read from a response. *)
Definition update_doc (self : MarvinAPIClient) (item_id : json) (setters : json)
    : M json :=
  _make_full_access_request self POST "/doc/update"
    (Some (JDict [("itemId", item_id); ("setters", setters)])).

(** [MarvinAPIClient.delete_doc] *)
Definition delete_doc (self : MarvinAPIClient) (item_id : string) : M json :=
  _make_full_access_request self POST "/doc/delete"
    (Some (JDict [("itemId", JStr item_id)])).

(** ** More tools of [main.py] *)

(** [tasks.get_child_tasks_recursive] is not among the sources: any
    computation returning a dictionary. *)
Variable get_child_tasks_recursive : MarvinAPIClient -> string -> M dict.

(** [[item for item in children if item.get("type") != "project"]] and
    [[item for item in children if item.get("type") == "project"]] *)
Fixpoint not_projects (children : list json) : result (list json) :=
  match children with
  | [] => Ok []
  | item :: rest =>
      match get_or item "type" JNull with
      | Raise e => Raise e
      | Ok ty =>
          match not_projects rest with
          | Raise e => Raise e
          | Ok tasks => if negb (eq_str ty "project") then Ok (item :: tasks) else Ok tasks
          end
      end
  end.

(** The tool [get_child_tasks] *)
Definition get_child_tasks (parent_id : string) (recursive debug : bool)
    : M (StandardResponse json) :=
  try_except
    (api_client <- create_api_client ;;
     result_calls <-
       (if recursive then
          result <- get_child_tasks_recursive api_client parent_id ;;
          ret (result, dict_get_or result "api_calls_made" (JInt 3))
        else
          children <- get_children api_client parent_id ;;
          items <- lift (iter children) ;;
          tasks <- lift (not_projects items) ;;
          projects <- lift (only_projects items) ;;
          total <- lift (len children) ;;
          ret ([("parent_id", JStr parent_id);
                ("total_children", JInt total);
                ("tasks", JList tasks);
                ("projects", JList projects);
                ("task_count", JInt (Z.of_nat (length tasks)));
                ("project_count", JInt (Z.of_nat (length projects)));
                ("all_children", children);
                ("recursive", JBool false)], JInt 1)) ;;
     let result : dict := fst result_calls in
     ret (create_simple_response (JDict result)
            ("Retrieved " ++ str_json (dict_get_or result "total_children" (JInt 0)) ++
             " child items for parent " ++ parent_id)
            "/children" (snd result_calls) debug))
    (fun e => ret (create_error_response e "/children" debug)).

(** ["message" not in x] *)
Definition lacks_message (x : json) : result bool :=
  match x with
  | JDict d => Ok (negb (dict_mem d "message"))
  | JList l => Ok (negb (existsb (fun y => eq_str y "message") l))
  | JStr s => Ok (negb (is_infix "message" s))
  | _ => Raise TypeError
  end.

(** [tracked_item and "message" not in tracked_item]: the left operand
    when it is false, else the truth value of the right one. *)
Definition is_tracking_of (tracked_item : json) : result json :=
  if truthy_json tracked_item then
    match lacks_message tracked_item with
    | Ok b => Ok (JBool b)
    | Raise e => Raise e
    end
  else Ok tracked_item.

(** The tool [get_currently_tracked_item] *)
Definition get_currently_tracked_item (debug : bool) : M (StandardResponse json) :=
  try_except
    (api_client <- create_api_client ;;
     tracked_item <- api_get_currently_tracked_item api_client ;;
     is_tracking <- lift (is_tracking_of tracked_item) ;;
     ret (create_simple_response (JDict [("tracked_item", tracked_item)])
            (if truthy_json is_tracking then "Currently tracking a task"
             else "No task currently being tracked")
            "/me/currentlyTrackedItem" (JInt 1) debug))
    (fun e => ret (create_error_response e "/me/currentlyTrackedItem" debug)).

(** Lines 549-565 of the tool [create_task]: the repair of the parent and
    the response. *)
Definition create_task_finish (title : string) (project_id category_id : option string)
    (debug : bool) (api_client : MarvinAPIClient) (created_task : json)
    : M (StandardResponse json) :=
  let parent_id := if truthy project_id then project_id else category_id in
  task_id <- lift (get_or created_task "_id" JNull) ;;
  created_task <-
    (if truthy parent_id && truthy_json task_id then
       current <- lift (get_or created_task "parentId" JNull) ;;
       if negb (eq_str current (the parent_id)) then
         _ <- update_doc api_client task_id
                (JList [JDict [("key", JStr "parentId");
                               ("val", JStr (the parent_id))]]) ;;
         match created_task with
         | JDict d => ret (JDict (dict_set d "parentId" (JStr (the parent_id))))
         | _ => raise TypeError
         end
       else ret created_task
     else ret created_task) ;;
  let api_calls := if truthy parent_id && truthy_json task_id then 2 else 1 in
  ret (create_simple_response (JDict [("created_task", created_task)])
         ("Created task: " ++ title) "/addTask" (JInt api_calls) debug).

(** The tool [create_task] *)
Definition create_task (title : string)
    (project_id category_id due_date note : option string) (debug : bool)
    : M (StandardResponse json) :=
  try_except
    (api_client <- create_api_client ;;
     let task_data : dict := [("title", JStr title)] in
     let task_data :=
       if truthy project_id
       then dict_set task_data "parentId" (JStr (the project_id)) else task_data in
     let task_data :=
       if truthy category_id
       then dict_set task_data "categoryId" (JStr (the category_id)) else task_data in
     let task_data :=
       if truthy due_date
       then dict_set task_data "dueDate" (JStr (the due_date)) else task_data in
     let task_data :=
       if truthy note then dict_set task_data "note" (JStr (the note)) else task_data in
     created_task <- api_create_task api_client task_data ;;
     create_task_finish title project_id category_id debug api_client created_task)
    (fun e => ret (create_error_response e "/addTask" debug)).

(** The tools [read_doc], [update_doc], [create_doc] and [delete_doc] *)
Definition read_doc_tool (item_id : string) (debug : bool) : M (StandardResponse json) :=
  try_except
    (api_client <- create_api_client ;;
     doc <- read_doc api_client item_id ;;
     ret (create_simple_response doc ("Read document " ++ item_id) "/doc" (JInt 1) debug))
    (fun e => ret (create_error_response e "/doc" debug)).

Definition update_doc_tool (item_id : string) (setters : list json) (debug : bool)
    : M (StandardResponse json) :=
  try_except
    (api_client <- create_api_client ;;
     result <- update_doc api_client (JStr item_id) (JList setters) ;;
     ret (create_simple_response result ("Updated document " ++ item_id)
            "/doc/update" (JInt 1) debug))
    (fun e => ret (create_error_response e "/doc/update" debug)).

Definition create_doc_tool (doc_data : dict) (debug : bool) : M (StandardResponse json) :=
  try_except
    (api_client <- create_api_client ;;
     result <- create_doc api_client (JDict doc_data) ;;
     ret (create_simple_response result "Created document" "/doc/create" (JInt 1) debug))
    (fun e => ret (create_error_response e "/doc/create" debug)).

Definition delete_doc_tool (item_id : string) (debug : bool) : M (StandardResponse json) :=
  try_except
    (api_client <- create_api_client ;;
     result <- delete_doc api_client item_id ;;
     ret (create_simple_response result ("Deleted document " ++ item_id)
            "/doc/delete" (JInt 1) debug))
    (fun e => ret (create_error_response e "/doc/delete" debug)).

(** The request [_make_full_access_request] sends. *)
Definition full_access_request (self : MarvinAPIClient) (method : http_method)
    (endpoint : string) (data : option json) : request :=
  {| req_method := method;
     req_url := base_url self ++ endpoint;
     req_headers := full_access_headers self;
     req_json := match method with POST => data | _ => None end;
     req_auth := None |}.

(** ** Vocabulary of the further statements *)

(** A value that is a dictionary. *)
Definition is_dict (x : json) : Prop := exists d, x = JDict d.

(** The [type] entry of a document, [None] when absent. *)
Definition type_of (x : json) : json :=
  match x with
  | JDict d => dict_get_or d "type" JNull
  | _ => JNull
  end.

Definition is_project (x : json) : bool := eq_str (type_of x) "project".

(** The body [create_task] posts: the title, then one entry per argument
    that is given, in the order of the arguments. *)
Definition task_data_of (title : string)
    (project_id category_id due_date note : option string) : dict :=
  ([("title", JStr title)] ++
   (if truthy project_id then [("parentId", JStr (the project_id))] else []) ++
   (if truthy category_id then [("categoryId", JStr (the category_id))] else []) ++
   (if truthy due_date then [("dueDate", JStr (the due_date))] else []) ++
   (if truthy note then [("note", JStr (the note))] else []))%list.

(** The parent [create_task] assigns: the project when given, else the
    category. *)
Definition parent_arg (project_id category_id : option string) : option string :=
  if truthy project_id then project_id else category_id.

(** The request by which [create_task] repairs the parent of a task. *)
Definition fix_parent_request (self : MarvinAPIClient) (task_id : json)
    (parent : string) : request :=
  full_access_request self POST "/doc/update"
    (Some (JDict [("itemId", task_id);
                  ("setters",
                   JList [JDict [("key", JStr "parentId"); ("val", JStr parent)]])])).

(** What a store that honours the field list of a [_find] request sends
    back for the documents [stored] that match the selector: each document
    reduced to the fields the request lists, which are those of [fl] and
    ["_id"]. *)
Definition projected (fl : list string) (stored : list dict) : list json :=
  map (fun d => JDict (project (field_set fl) d)) stored.

(** The groups built so far: distinct hashable keys, no empty group. *)
Definition groups_ok (bp : groups) : Prop :=
  distinct_keys bp /\ Forall (fun e => hashable (fst e) = true /\ snd e <> []) bp.

(** ** A sample world *)

(** One configured account, with a trailing slash on the store URI. *)
Definition sample_settings : Settings :=
  {| amazing_marvin_api_key := "key";
     amazing_marvin_full_access_token := "";
     amazing_marvin_db_uri := "https://db.example/";
     amazing_marvin_db_name := "marvin";
     amazing_marvin_db_user := "user";
     amazing_marvin_db_password := "secret" |}.

(** The same account with the password left out. *)
Definition sample_settings_no_password : Settings :=
  {| amazing_marvin_api_key := "key";
     amazing_marvin_full_access_token := "";
     amazing_marvin_db_uri := "https://db.example/";
     amazing_marvin_db_name := "marvin";
     amazing_marvin_db_user := "user";
     amazing_marvin_db_password := "" |}.

Definition sample_task : json :=
  JDict [("_id", JStr "t1"); ("title", JStr "Pay rent"); ("type", JStr "task");
         ("parentId", JStr "p1"); ("dueDate", JStr "2025-06-13")].
Definition sample_done_task : json :=
  JDict [("_id", JStr "t2"); ("title", JStr "Call bank"); ("done", JBool true);
         ("parentId", JStr "p1")].
Definition sample_inbox_task : json :=
  JDict [("_id", JStr "t3"); ("title", JStr "Buy milk"); ("done", JBool true)].
Definition sample_unassigned_task : json :=
  JDict [("_id", JStr "t4"); ("parentId", JStr "unassigned"); ("done", JBool true)].
Definition sample_other_task : json :=
  JDict [("_id", JStr "t5"); ("parentId", JStr "p2"); ("done", JBool true)].
Definition sample_project : json :=
  JDict [("_id", JStr "p1"); ("title", JStr "Home"); ("type", JStr "project");
         ("db", JStr "Tasks")].

(** The services of the sample world: one label, three documents in the
    store, a category without children endpoint, a project whose children
    request fails, one identifier that cannot be marked done, and four
    items completed on 2025-06-13. *)
Definition sample_upstream (log : list request) (r : request) : outcome :=
  let api := "https://serv.amazingmarvin.com/api" in
  if String.eqb (req_url r) (api ++ "/labels") then
    Responded (Response 200
      (JsonContent (JList [JDict [("_id", JStr "l1"); ("title", JStr "Work")]])))
  else if String.eqb (req_url r) "https://db.example/marvin/_find" then
    Responded (Response 200
      (JsonContent (JDict [("docs", JList [sample_task; sample_project; sample_done_task])])))
  else if String.eqb (req_url r) (api ++ "/children?parentId=cat1") then
    Responded (Response 404 NoContent)
  else if String.eqb (req_url r) (api ++ "/children?parentId=p1") then
    Responded (Response 500 NoContent)
  else if String.eqb (req_url r) (api ++ "/markDone") then
    match req_json r with
    | Some (JDict [("itemId", JStr "bad"); _]) => Responded (Response 500 NoContent)
    | Some (JDict (("itemId", item_id) :: _)) =>
        Responded (Response 200
          (JsonContent (JDict [("_id", item_id); ("done", JBool true)])))
    | _ => Responded (Response 400 NoContent)
    end
  else if String.eqb (req_url r) (api ++ "/doneItems?date=2025-06-13") then
    Responded (Response 200
      (JsonContent (JList [sample_done_task; sample_inbox_task;
                           sample_unassigned_task; sample_other_task])))
  else Failed.

(** Lower-casing of the ASCII letters. *)
Definition ascii_lower (a : ascii) : ascii :=
  let n := nat_of_ascii a in
  if ((65 <=? n) && (n <=? 90))%nat then ascii_of_nat (n + 32) else a.

Fixpoint sample_lower (s : string) : string :=
  match s with
  | EmptyString => EmptyString
  | String a s' => String (ascii_lower a) (sample_lower s')
  end.

Definition sample_str_exn (e : exn) : string :=
  match e with
  | ValueError msg => msg
  | HTTPError _ => "HTTPError"
  | _ => "error"
  end.

Definition sample_str_json (x : json) : string :=
  match x with
  | JInt 0 => "0"
  | JInt 1 => "1"
  | JInt 2 => "2"
  | JInt 3 => "3"
  | JStr s => s
  | _ => "?"
  end.

Definition sample_impl (self : MarvinAPIClient) (label : option string) : M dict :=
  ret [("tasks", JList [sample_task; sample_done_task]); ("total_tasks", JInt 2)].

Definition sample_client : MarvinAPIClient := client_of sample_settings.

(** An escape function that has nothing to escape. *)
Definition sample_re_escape (s : string) : string := s.

(** No filter at all. *)
Definition no_filter : query_args :=
  {| label := None; fields := None; include_done := false; contains := None;
     due := None; due_before := None; due_after := None;
     scheduled := None; scheduled_before := None; scheduled_after := None;
     parent_id := None; is_starred := None; debug := false |}.

(** An exact due date together with an upper due bound, and a scheduled
    range. *)
Definition sample_due_query : query_args :=
  {| label := None; fields := None; include_done := false; contains := None;
     due := Some "2025-06-13"; due_before := Some "2025-06-30"; due_after := None;
     scheduled := None; scheduled_before := Some "2025-07-01";
     scheduled_after := Some "2025-06-01";
     parent_id := None; is_starred := None; debug := false |}.

Definition sample_due_selector : dict :=
  [("db", JStr "Tasks"); ("done", JDict [("$ne", JBool true)]);
   ("dueDate", JStr "2025-06-13");
   ("day", JDict [("$gte", JStr "2025-06-01"); ("$lte", JStr "2025-07-01")])].

(** Completed tasks included. *)
Definition sample_done_query : query_args :=
  {| label := None; fields := None; include_done := true; contains := None;
     due := None; due_before := None; due_after := None;
     scheduled := None; scheduled_before := None; scheduled_after := None;
     parent_id := None; is_starred := None; debug := false |}.

(** A label nobody has. *)
Definition sample_label_query : query_args :=
  {| label := Some "Errands"; fields := None; include_done := false; contains := None;
     due := None; due_before := None; due_after := None;
     scheduled := None; scheduled_before := None; scheduled_after := None;
     parent_id := None; is_starred := None; debug := false |}.

Definition sample_labels : list json :=
  [JDict [("_id", JStr "l1"); ("title", JStr "Work")]].

(** What the store path answers in the sample world when nothing is
    filtered: the project document is gone. *)
Definition sample_response : StandardResponse json :=
  create_simple_response
    (JDict [("tasks", JList [sample_task; sample_done_task]);
            ("total_tasks", JInt 2);
            ("source", JStr "CouchDB _find query")])
    "Retrieved 2 tasks via CouchDB" "CouchDB _find" (JInt 1) false.

Definition sample_done_items : list json :=
  [sample_done_task; sample_inbox_task; sample_unassigned_task; sample_other_task].

Definition sample_batch_response : StandardResponse json :=
  create_simple_response
    (JDict [("completed_tasks",
             JList [JDict [("_id", JStr "t1"); ("done", JBool true)];
                    JDict [("_id", JStr "t3"); ("done", JBool true)]]);
            ("failed_tasks",
             JList [JDict [("task_id", JStr "bad"); ("error", JStr "HTTPError")]]);
            ("success_count", JInt 2);
            ("failure_count", JInt 1);
            ("total_requested", JInt 3)])
    "Marked 2 of 3 tasks as done" "/markDone" (JInt 3) false.

(** ** More of the sample world *)

(** The account with a full-access token. *)
Definition sample_settings_full : Settings :=
  {| amazing_marvin_api_key := "key";
     amazing_marvin_full_access_token := "full";
     amazing_marvin_db_uri := "https://db.example/";
     amazing_marvin_db_name := "marvin";
     amazing_marvin_db_user := "user";
     amazing_marvin_db_password := "secret" |}.

(** The account pointed at a database the store does not serve. *)
Definition sample_settings_broken : Settings :=
  {| amazing_marvin_api_key := "key";
     amazing_marvin_full_access_token := "";
     amazing_marvin_db_uri := "https://db.example";
     amazing_marvin_db_name := "broken";
     amazing_marvin_db_user := "user";
     amazing_marvin_db_password := "secret" |}.

Definition sample_category : json :=
  JDict [("_id", JStr "c1"); ("title", JStr "Errands"); ("type", JStr "category")].

Definition sample_created : dict :=
  [("_id", JStr "new1"); ("title", JStr "Buy milk"); ("parentId", JStr "unassigned")].

Definition sample_odd_item : json :=
  JDict [("_id", JStr "t9"); ("parentId", JList [JStr "p1"])].

(** The services of the sample world, with more of them answering: a task
    is created in the inbox whatever parent is asked for, the label list
    starts with a label that has no identifier, nothing is tracked, and
    the store does not serve the database [broken]. *)
Definition sample_upstream2 (log : list request) (r : request) : outcome :=
  let api := "https://serv.amazingmarvin.com/api" in
  if String.eqb (req_url r) (api ++ "/addTask") then
    Responded (Response 200 (JsonContent (JDict sample_created)))
  else if String.eqb (req_url r) (api ++ "/doc/update") then
    Responded (Response 200 (JsonContent (JDict [("ok", JBool true)])))
  else if String.eqb (req_url r) (api ++ "/categories") then
    Responded (Response 200 (JsonContent (JList [sample_project; sample_category])))
  else if String.eqb (req_url r) (api ++ "/trackedItem") then
    Responded (Response 204 NoContent)
  else if String.eqb (req_url r) (api ++ "/children?parentId=root") then
    Responded (Response 200
      (JsonContent (JList [sample_task; sample_project; sample_category])))
  else if String.eqb (req_url r) (api ++ "/labels") then
    Responded (Response 200
      (JsonContent (JList [JDict [("title", JStr "Home")];
                           JDict [("_id", JStr "l1"); ("title", JStr "Work")]])))
  else if String.eqb (req_url r) (api ++ "/doneItems?date=2025-06-14") then
    Responded (Response 200 NoContent)
  else if String.eqb (req_url r) (api ++ "/doneItems?date=2025-06-15") then
    Responded (Response 200 (JsonContent (JList [sample_done_task; sample_odd_item])))
  else if String.eqb (req_url r) "https://db.example/broken/_find" then
    Responded (Response 503 NoContent)
  else sample_upstream log r.

Definition sample_client_full : MarvinAPIClient := client_of sample_settings_full.

Definition sample_recursive (self : MarvinAPIClient) (parent_id : string) : M dict :=
  ret [("total_children", JInt 0)].

(** A label given in another case. *)
Definition sample_work_query : query_args :=
  {| label := Some "work"; fields := None; include_done := false; contains := None;
     due := None; due_before := None; due_after := None;
     scheduled := None; scheduled_before := None; scheduled_after := None;
     parent_id := None; is_starred := None; debug := false |}.

Definition sample_home_query : query_args :=
  {| label := Some "home"; fields := None; include_done := false; contains := None;
     due := None; due_before := None; due_after := None;
     scheduled := None; scheduled_before := None; scheduled_after := None;
     parent_id := None; is_starred := None; debug := false |}.

(** Starred tasks of a project that mention the rent. *)
Definition sample_starred_query : query_args :=
  {| label := None; fields := None; include_done := false; contains := Some "rent";
     due := None; due_before := None; due_after := None;
     scheduled := None; scheduled_before := None; scheduled_after := None;
     parent_id := Some "p1"; is_starred := Some true; debug := false |}.

Definition sample_starred_selector : dict :=
  [("db", JStr "Tasks"); ("done", JDict [("$ne", JBool true)]);
   ("$or", JList [JDict [("title", JDict [("$regex", JStr "(?i)rent")])];
                  JDict [("note", JDict [("$regex", JStr "(?i)rent")])]]);
   ("parentId", JStr "p1"); ("isStarred", JInt 1)].

Definition sample_work_selector : dict :=
  [("db", JStr "Tasks"); ("done", JDict [("$ne", JBool true)]);
   ("labelIds", JDict [("$elemMatch", JDict [("$eq", JStr "l1")])])].

(** A store that honours the field list of a [_find] request: it answers
    with the documents it holds, each reduced to the listed fields when
    the request lists fields.  It does not interpret the selector: it is
    asked only with selectors that all of its documents match. *)
Definition store_find (stored : list dict) (r : request) : json :=
  let docs :=
    match sent_fields r with
    | Some (JList names) =>
        map (fun d : dict =>
               JDict (List.filter
                        (fun kv => existsb (fun n => eq_str n (fst kv)) names) d))
            stored
    | _ => map JDict stored
    end in
  JDict [("docs", JList docs)].

(** An open task and an open project of the collection [Tasks]. *)
Definition sample_stored : list dict :=
  [[("_id", JStr "t1"); ("db", JStr "Tasks"); ("title", JStr "Pay rent");
    ("type", JStr "task"); ("done", JBool false)];
   [("_id", JStr "p1"); ("db", JStr "Tasks"); ("title", JStr "Home");
    ("type", JStr "project"); ("done", JBool false)]].

(** The sample services with the store above behind the [_find] URL. *)
Definition sample_upstream3 (log : list request) (r : request) : outcome :=
  if String.eqb (req_url r) "https://db.example/marvin/_find" then
    Responded (Response 200 (JsonContent (store_find sample_stored r)))
  else sample_upstream log r.

(** The titles only. *)
Definition sample_title_query : query_args :=
  {| label := None; fields := Some ["title"]; include_done := false; contains := None;
     due := None; due_before := None; due_after := None;
     scheduled := None; scheduled_before := None; scheduled_after := None;
     parent_id := None; is_starred := None; debug := false |}.

(** ** Dictionaries *)

Lemma dict_get_set_eq (d : dict) k v : dict_get (dict_set d k v) k = Some v.
Proof.
  induction d as [|[k' v'] d IH]; simpl.
  - now rewrite String.eqb_refl.
  - destruct (String.eqb k' k) eqn:E; simpl; rewrite E; auto.
Qed.

Lemma dict_get_set_ne (d : dict) k k' v :
  k <> k' -> dict_get (dict_set d k v) k' = dict_get d k'.
Proof.
  intros Hne. induction d as [|[k0 v0] d IH]; simpl.
  - destruct (String.eqb_spec k k'); congruence.
  - destruct (String.eqb_spec k0 k) as [->|Hk]; simpl.
    + destruct (String.eqb_spec k k'); congruence.
    + now rewrite IH.
Qed.

Lemma truthy_Some s : s <> "" -> truthy (Some s) = true.
Proof. intros H. simpl. now destruct (String.eqb_spec s ""). Qed.

(** ** The selector built by [query_tasks] *)

Ltac dict_lookup :=
  repeat first
    [ rewrite dict_get_set_eq
    | rewrite dict_get_set_ne by discriminate ].

Lemma selector_filters_dueDate a sel :
  dict_get (selector_filters a sel) "dueDate" =
    if truthy (due a) then Some (JStr (the (due a)))
    else if truthy (due_before a) || truthy (due_after a)
         then Some (range_clause (due_before a) (due_after a))
         else dict_get sel "dueDate".
Proof.
  unfold selector_filters, range_clause.
  destruct (is_starred a), (truthy (parent_id a)), (truthy (scheduled a)),
    (truthy (scheduled_before a) || truthy (scheduled_after a)),
    (truthy (due a)), (truthy (due_before a)), (truthy (due_after a)),
    (truthy (contains a)); simpl; dict_lookup; reflexivity.
Qed.

Lemma selector_filters_day a sel :
  dict_get (selector_filters a sel) "day" =
    if truthy (scheduled a) then Some (JStr (the (scheduled a)))
    else if truthy (scheduled_before a) || truthy (scheduled_after a)
         then Some (range_clause (scheduled_before a) (scheduled_after a))
         else dict_get sel "day".
Proof.
  unfold selector_filters, range_clause.
  destruct (is_starred a), (truthy (parent_id a)), (truthy (scheduled a)),
    (truthy (scheduled_before a)), (truthy (scheduled_after a)),
    (truthy (due a)), (truthy (due_before a) || truthy (due_after a)),
    (truthy (contains a)); simpl; dict_lookup; reflexivity.
Qed.

Lemma selector_filters_done a sel :
  dict_get (selector_filters a sel) "done" = dict_get sel "done".
Proof.
  unfold selector_filters.
  destruct (is_starred a), (truthy (parent_id a)), (truthy (scheduled a)),
    (truthy (scheduled_before a) || truthy (scheduled_after a)),
    (truthy (due a)), (truthy (due_before a) || truthy (due_after a)),
    (truthy (contains a)); simpl; dict_lookup; reflexivity.
Qed.

Lemma selector_ignores_due_bounds a sel before after :
  truthy (due a) = true ->
  selector_filters (with_due_bounds a before after) sel = selector_filters a sel.
Proof. intros H. unfold selector_filters. simpl. now rewrite H. Qed.

Lemma selector_ignores_scheduled_bounds a sel before after :
  truthy (scheduled a) = true ->
  selector_filters (with_scheduled_bounds a before after) sel = selector_filters a sel.
Proof. intros H. unfold selector_filters. simpl. now rewrite H. Qed.

(** ** Requests sent by the client *)

Lemma make_request_run self method endpoint data log :
  exists r, _make_request self method endpoint data log =
            (r, (log ++ [api_request self method endpoint data])%list).
Proof.
  unfold _make_request, bind, send, api_request.
  destruct method; simpl;
    (match goal with |- context [upstream log ?r] => destruct (upstream log r) as [resp|] end;
     [|eexists; reflexivity]);
    unfold raise_for_status, raise, ret, response_json;
    destruct ((400 <=? status_code resp) && (status_code resp <? 600));
    try (eexists; reflexivity);
    destruct (status_code resp =? 204); simpl; try (eexists; reflexivity);
    destruct (resp_content resp); eexists; reflexivity.
Qed.

Lemma find_docs_unconfigured self selector fields limit log :
  has_couchdb self = false ->
  find_docs self selector fields limit log = (Raise (ValueError find_docs_error), log).
Proof. intros H. unfold find_docs. now rewrite H. Qed.

Lemma find_docs_run self selector fields limit log :
  has_couchdb self = true ->
  exists r, find_docs self selector fields limit log =
            (r, (log ++ [find_request self selector fields limit])%list).
Proof.
  intros H. unfold find_docs, find_request. rewrite H. simpl.
  unfold bind, send.
  destruct (truthy_list fields); simpl;
    (match goal with |- context [upstream log ?r] => destruct (upstream log r) as [resp|] end;
     [|eexists; reflexivity]);
    unfold raise_for_status, raise, ret, response_json, lift;
    destruct ((400 <=? status_code resp) && (status_code resp <? 600));
    try (eexists; reflexivity);
    destruct (resp_content resp); eexists; reflexivity.
Qed.

Lemma find_docs_eval self selector fields limit log :
  has_couchdb self = true ->
  let req := find_request self selector fields limit in
  find_docs self selector fields limit log =
    match upstream log req with
    | Failed => (Raise RequestException, (log ++ [req])%list)
    | Responded resp =>
        if (400 <=? status_code resp) && (status_code resp <? 600)
        then (Raise (HTTPError (status_code resp)), (log ++ [req])%list)
        else match resp_content resp with
             | JsonContent j => (subscript j "docs", (log ++ [req])%list)
             | _ => (Raise JSONDecodeError, (log ++ [req])%list)
             end
    end.
Proof.
  intros H req. unfold req, find_docs, find_request. rewrite H. simpl.
  unfold bind, send.
  destruct (truthy_list fields); simpl;
    (match goal with |- context [upstream log ?r] => destruct (upstream log r) as [resp|] end;
     [|reflexivity]);
    unfold raise_for_status, raise, ret, response_json, lift;
    destruct ((400 <=? status_code resp) && (status_code resp <? 600));
    try reflexivity; now destruct (resp_content resp).
Qed.

(** ** The runs of [query_tasks] *)

Lemma try_except_bind {A B} (m : M A) (k : A -> M B) h log :
  try_except (x <- m ;; k x) h log =
    match m log with
    | (Ok a, log') => try_except (k a) h log'
    | (Raise e, log') => h e log'
    end.
Proof. unfold try_except, bind. now destruct (m log) as [[x|e] log']. Qed.

Lemma query_tasks_find_run a s pre sel0 n log :
  get_settings = Ok s ->
  has_couchdb (client_of s) = true ->
  label_stage a (client_of s) pre sel0 n ->
  let req := find_request (client_of s) (selector_filters a sel0) (fields a) 500 in
  exists resp,
    try_except (query_tasks_find a (client_of s) sel0 n)
      (fun e => ret (create_error_response e "CouchDB _find" (debug a))) log =
      (Ok resp, (log ++ [req])%list) /\
    query_run a resp (pre ++ [req])%list.
Proof.
  intros Hs Hc Hl req. unfold query_tasks_find.
  rewrite try_except_bind.
  destruct (find_docs_run (client_of s) (selector_filters a sel0) (fields a) 500 log Hc)
    as [r Hr].
  rewrite Hr. destruct r as [docs|e].
  2:{ eexists; split; [reflexivity|]. eapply RunFindFailed; eauto. }
  rewrite try_except_bind. unfold lift at 1.
  destruct (iter docs) as [ds|e].
  2:{ eexists; split; [reflexivity|]. eapply RunFindFailed; eauto. }
  rewrite try_except_bind. unfold lift at 1.
  destruct (filter_tasks ds) as [tasks|e] eqn:Hf.
  2:{ eexists; split; [reflexivity|]. eapply RunFindFailed; eauto. }
  eexists; split; [reflexivity|]. eapply RunFound; eauto.
Qed.

(** [query_tasks] always returns a response, never raises, and each of its
    runs is one of [query_run]. *)
Lemma query_tasks_run a log :
  exists resp new,
    query_tasks a log = (Ok resp, (log ++ new)%list) /\ query_run a resp new.
Proof.
  unfold query_tasks. rewrite try_except_bind.
  unfold create_api_client at 1, bind at 1, lift at 1.
  destruct get_settings as [s|e] eqn:Hs.
  2:{ exists (create_error_response e "CouchDB _find" (debug a)), [].
      rewrite app_nil_r. split; [reflexivity|]. now apply RunNoSettings. }
  unfold ret at 1. fold (client_of s).
  destruct (has_couchdb (client_of s)) eqn:Hc; simpl negb; cbv iota.
  2:{ eexists _, []. rewrite app_nil_r. split; [reflexivity|].
      eapply RunUnconfigured; eauto. }
  destruct (truthy (label a)) eqn:Hl.
  2:{ destruct (query_tasks_find_run a s [] (selector_base a) 0 log Hs Hc) as [resp [H1 H2]].
      { now constructor. }
      eexists _, _. split; [exact H1|exact H2]. }
  set (lreq := api_request (client_of s) GET "/labels" None).
  rewrite try_except_bind. unfold get_labels.
  destruct (make_request_run (client_of s) GET "/labels" None log) as [r Hr].
  rewrite Hr. fold lreq. destruct r as [labels|e].
  2:{ eexists _, [lreq]. split; [reflexivity|]. eapply RunLabelsFailed; eauto. }
  rewrite try_except_bind. unfold lift at 1.
  destruct (iter labels) as [lbs|e].
  2:{ eexists _, [lreq]. split; [reflexivity|]. eapply RunLabelsFailed; eauto. }
  rewrite try_except_bind. unfold lift at 1.
  destruct (next_label lbs (the (label a))) as [label_match|e].
  2:{ eexists _, [lreq]. split; [reflexivity|]. eapply RunLabelsFailed; eauto. }
  destruct (truthy_json label_match).
  2:{ eexists _, [lreq]. split; [reflexivity|]. eapply RunNoLabel; eauto. }
  rewrite try_except_bind. unfold lift at 1.
  destruct (subscript label_match "_id") as [label_id|e].
  2:{ eexists _, [lreq]. split; [reflexivity|]. eapply RunLabelsFailed; eauto. }
  simpl Z.add.
  destruct (query_tasks_find_run a s [lreq] _ 1 (log ++ [lreq])%list Hs Hc
              (LabelResolved a (client_of s) label_id Hl)) as [resp [H1 H2]].
  eexists _, _. split; [|exact H2].
  change (0 + 1) with 1. rewrite H1. now rewrite <- app_assoc.
Qed.

Lemma query_tasks_inv a log r log' :
  query_tasks a log = (r, log') ->
  exists resp new, r = Ok resp /\ log' = (log ++ new)%list /\ query_run a resp new.
Proof.
  intros H. destruct (query_tasks_run a log) as (resp & new & H1 & H2).
  rewrite H1 in H. inversion H; subst. eauto.
Qed.

Lemma sent_selector_find self selector fields limit :
  sent_selector (find_request self selector fields limit) = Some selector.
Proof. reflexivity. Qed.

Lemma label_stage_inv a client pre sel0 n req :
  label_stage a client pre sel0 n ->
  (In req pre -> sent_selector req = None /\ sent_fields req = None) /\
  dict_get sel0 "done" = dict_get (selector_base a) "done" /\
  dict_get sel0 "dueDate" = None /\ dict_get sel0 "day" = None.
Proof.
  assert (Hb : dict_get (selector_base a) "dueDate" = None /\
               dict_get (selector_base a) "day" = None).
  { unfold selector_base. now destruct (include_done a). }
  destruct Hb as [Hb1 Hb2].
  destruct 1.
  - split; [intros []|auto].
  - rewrite !dict_get_set_ne by discriminate.
    split; [intros [<-|[]]; split; reflexivity|auto].
Qed.

(** Every selector [query_tasks] sends is [selector_filters] applied to a
    selector with the base clauses only. *)
Lemma query_run_selector a resp new req sel :
  query_run a resp new ->
  In req new -> sent_selector req = Some sel ->
  exists sel0,
    sel = selector_filters a sel0 /\
    dict_get sel0 "done" = dict_get (selector_base a) "done" /\
    dict_get sel0 "dueDate" = None /\ dict_get sel0 "day" = None.
Proof.
  intros Hrun Hin Hsel.
  assert (Hstage : forall client pre sel0 n,
             label_stage a client pre sel0 n ->
             In req (pre ++ [find_request client (selector_filters a sel0) (fields a) 500]) ->
             exists sel0,
               sel = selector_filters a sel0 /\
               dict_get sel0 "done" = dict_get (selector_base a) "done" /\
               dict_get sel0 "dueDate" = None /\ dict_get sel0 "day" = None).
  { intros client pre sel0 n Hst Hi.
    destruct (label_stage_inv _ _ _ _ _ req Hst) as (Hp & H1 & H2 & H3).
    apply in_app_or in Hi. destruct Hi as [Hi|[<-|[]]].
    - destruct (Hp Hi) as [Hn _]. congruence.
    - rewrite sent_selector_find in Hsel. inversion Hsel; subst. eauto. }
  destruct Hrun; eauto.
  - destruct Hin.
  - destruct Hin.
  - destruct Hin as [<-|[]]. discriminate Hsel.
  - destruct Hin as [<-|[]]. discriminate Hsel.
Qed.

(** ** C1 *)

(** C1. In every request [query_tasks] sends to the store, the selector's
    due-date clause is the exact due date when one is given (a non-empty
    string), whatever the [due_before] / [due_after] bounds are: the
    selector built from any other bounds is the same selector.  When no
    exact due date is given and at least one bound is, the clause is the
    range with [$gte] taken from [due_after] and [$lte] from [due_before].
    The scheduled date ([day]) follows the same rule on its own three
    arguments. *)
Theorem query_tasks_date_clauses a log r log' :
  query_tasks a log = (r, log') ->
  exists new, log' = (log ++ new)%list /\
    forall req sel, In req new -> sent_selector req = Some sel ->
    exists sel0, sel = selector_filters a sel0 /\
      (forall d, due a = Some d -> d <> "" ->
         dict_get sel "dueDate" = Some (JStr d) /\
         forall before after,
           selector_filters (with_due_bounds a before after) sel0 = sel) /\
      (truthy (due a) = false ->
       truthy (due_before a) || truthy (due_after a) = true ->
         dict_get sel "dueDate" = Some (range_clause (due_before a) (due_after a))) /\
      (forall d, scheduled a = Some d -> d <> "" ->
         dict_get sel "day" = Some (JStr d) /\
         forall before after,
           selector_filters (with_scheduled_bounds a before after) sel0 = sel) /\
      (truthy (scheduled a) = false ->
       truthy (scheduled_before a) || truthy (scheduled_after a) = true ->
         dict_get sel "day" =
           Some (range_clause (scheduled_before a) (scheduled_after a))).
Proof.
  intros H. apply query_tasks_inv in H as (resp & new & -> & -> & Hrun).
  exists new. split; [reflexivity|]. intros req sel Hin Hsel.
  destruct (query_run_selector a resp new req sel Hrun Hin Hsel)
    as (sel0 & -> & _ & Hd & Hy).
  exists sel0. split; [reflexivity|].
  repeat split.
  - rewrite selector_filters_dueDate, H. now rewrite truthy_Some.
  - intros. apply selector_ignores_due_bounds. rewrite H. now apply truthy_Some.
  - intros H1 H2. now rewrite selector_filters_dueDate, H1, H2.
  - rewrite selector_filters_day, H. now rewrite truthy_Some.
  - intros. apply selector_ignores_scheduled_bounds. rewrite H. now apply truthy_Some.
  - intros H1 H2. now rewrite selector_filters_day, H1, H2.
Qed.

(** ** C6: completion clause and post-filter *)

Lemma eq_str_true x t : eq_str x t = true <-> x = JStr t.
Proof.
  destruct x; simpl; try (split; [discriminate|intros [=]]).
  destruct (String.eqb_spec s t); split; intros; congruence.
Qed.

Lemma is_container_type o :
  is_container (JDict o) <->
  eq_str (dict_get_or o "type" JNull) "project"
  || eq_str (dict_get_or o "type" JNull) "category" = true.
Proof.
  unfold is_container, dict_get_or. rewrite orb_true_iff, !eq_str_true. split.
  - intros (o' & [= <-] & [H|H]); rewrite H; auto.
  - destruct (dict_get o "type") as [v|] eqn:E; intros [H|H]; try discriminate;
      subst; exists o; auto.
Qed.

(** The post-filter keeps exactly the documents that are not containers,
    in their order, and fails only on an entry that is not a dictionary. *)
Lemma filter_tasks_spec docs tasks :
  filter_tasks docs = Ok tasks ->
  Forall (fun d => ~ is_container d) tasks /\
  forall d, In d tasks <-> In d docs /\ ~ is_container d.
Proof.
  revert tasks. induction docs as [|d docs IH]; simpl; intros tasks H.
  - inversion H; subst. split; [constructor|]. simpl. tauto.
  - destruct d as [| | | | |o]; simpl in H; try discriminate.
    destruct (filter_tasks docs) as [ts|] eqn:E; [|discriminate].
    destruct (IH ts eq_refl) as [IH1 IH2].
    pose proof (is_container_type o) as Hc.
    destruct (eq_str (dict_get_or o "type" JNull) "project"
              || eq_str (dict_get_or o "type" JNull) "category") eqn:Ht;
      simpl in H; inversion H; subst; clear H.
    + split; [exact IH1|]. intros d. rewrite IH2. split.
      * intros [H1 H2]. auto.
      * intros [[<-|H1] H2]; [|auto]. exfalso. apply H2, Hc. reflexivity.
    + assert (Hn : ~ is_container (JDict o)).
      { intros Hx. apply Hc in Hx. discriminate. }
      split; [constructor; auto|]. intros d. simpl. rewrite IH2. split.
      * intros [<-|[H1 H2]]; auto.
      * intros [[<-|H1] H2]; auto.
Qed.

Lemma query_result_tasks a tasks :
  dict_get (query_result a tasks) "tasks" = Some (JList tasks).
Proof.
  unfold query_result.
  destruct (truthy (label a)), (truthy_list (fields a)); simpl; dict_lookup; reflexivity.
Qed.

Lemma query_result_total a tasks :
  dict_get (query_result a tasks) "total_tasks" = Some (JInt (Z.of_nat (length tasks))).
Proof.
  unfold query_result.
  destruct (truthy (label a)), (truthy_list (fields a)); simpl; dict_lookup; reflexivity.
Qed.

Lemma query_result_fields_returned a tasks :
  dict_get (query_result a tasks) "fields_returned" =
    if truthy_list (fields a)
    then Some (JList (map JStr (sorted_fields (the_list (fields a)))))
    else None.
Proof.
  unfold query_result.
  destruct (truthy (label a)), (truthy_list (fields a)); simpl; dict_lookup; reflexivity.
Qed.

(** C6. In every request [query_tasks] sends to the store, the selector
    holds the clause [done: {$ne: true}] when [include_done] is not set and
    has no [done] clause when it is set; the client-side post-filter looks
    at the document type only, so a completed document the store returns is
    kept in the task list. *)
Theorem query_tasks_done_clause a log r log' :
  query_tasks a log = (r, log') ->
  (exists new, log' = (log ++ new)%list /\
     forall req sel, In req new -> sent_selector req = Some sel ->
       dict_get sel "done" =
         if include_done a then None else Some (JDict [("$ne", JBool true)])) /\
  (forall docs tasks o,
     filter_tasks docs = Ok tasks ->
     In (JDict o) docs -> dict_get o "done" = Some (JBool true) ->
     ~ is_container (JDict o) -> In (JDict o) tasks).
Proof.
  intros H. split.
  - apply query_tasks_inv in H as (resp & new & -> & -> & Hrun).
    exists new. split; [reflexivity|]. intros req sel Hin Hsel.
    destruct (query_run_selector a resp new req sel Hrun Hin Hsel)
      as (sel0 & -> & Hd & _).
    rewrite selector_filters_done, Hd. unfold selector_base.
    now destruct (include_done a).
  - intros docs tasks o Hf Hin _ Hn.
    apply (proj2 (filter_tasks_spec docs tasks Hf)). auto.
Qed.

(** The run of [query_tasks] without a label once the store has answered. *)
Lemma query_tasks_found a s docsj docs tasks log log1 :
  get_settings = Ok s ->
  has_couchdb (client_of s) = true ->
  truthy (label a) = false ->
  find_docs (client_of s) (selector_filters a (selector_base a)) (fields a) 500 log =
    (Ok docsj, log1) ->
  iter docsj = Ok docs ->
  filter_tasks docs = Ok tasks ->
  query_tasks a log =
    (Ok (create_simple_response (JDict (query_result a tasks))
           ("Retrieved " ++ str_json (JInt (Z.of_nat (length tasks))) ++
            " tasks via CouchDB" ++ filter_desc a)
           "CouchDB _find" (JInt 1) (debug a)), log1).
Proof.
  intros Hs Hc Hl Hf Hi Ht.
  unfold query_tasks. rewrite try_except_bind.
  unfold create_api_client at 1, bind at 1, lift at 1. rewrite Hs.
  unfold ret at 1. fold (client_of s). rewrite Hc, Hl. simpl negb. cbv iota.
  unfold query_tasks_find. rewrite try_except_bind, Hf, try_except_bind.
  unfold lift at 1. rewrite Hi, try_except_bind. unfold lift at 1. rewrite Ht.
  reflexivity.
Qed.

(** The post-filter reads the documents as the store sent them.  Whatever
    run of [query_tasks] produced a response, no entry of the task list
    carries the type ["project"] or ["category"]; and when the store answers
    a query without label with a list of documents, the task list is that
    list with exactly the documents that carry one of those two types left
    out. *)
Lemma query_tasks_filters_returned_types a log r log' :
  query_tasks a log = (r, log') ->
  (exists resp, r = Ok resp /\
     forall data summary endpoint calls dbg tasks,
       resp = create_simple_response (JDict data) summary endpoint calls dbg ->
       dict_get data "tasks" = Some tasks ->
       exists l, tasks = JList l /\ Forall (fun d => ~ is_container d) l) /\
  (forall s docsj docs tasks log1,
     get_settings = Ok s ->
     has_couchdb (client_of s) = true ->
     truthy (label a) = false ->
     find_docs (client_of s) (selector_filters a (selector_base a)) (fields a) 500 log =
       (Ok docsj, log1) ->
     iter docsj = Ok docs ->
     filter_tasks docs = Ok tasks ->
     exists data summary,
       r = Ok (create_simple_response (JDict data) summary "CouchDB _find"
                 (JInt 1) (debug a)) /\
       log' = log1 /\
       dict_get data "tasks" = Some (JList tasks) /\
       forall d, In d tasks <-> In d docs /\ ~ is_container d).
Proof.
  intros H. split.
  - apply query_tasks_inv in H as (resp & new & -> & -> & Hrun).
    exists resp. split; [reflexivity|].
    intros data summary endpoint calls dbg tasks -> Hget.
    inversion Hrun; subst.
    + simpl in Hget. inversion Hget; subst. exists []. split; [reflexivity|constructor].
    + rewrite query_result_tasks in Hget. inversion Hget; subst.
      eexists; split; [reflexivity|].
      match goal with Hf : filter_tasks _ = Ok _ |- _ =>
        apply (filter_tasks_spec _ _ Hf) end.
  - intros s docsj docs tasks log1 Hs Hc Hl Hf Hi Ht.
    rewrite (query_tasks_found a s docsj docs tasks log log1 Hs Hc Hl Hf Hi Ht) in H.
    inversion H; subst. eexists _, _. split; [reflexivity|]. split; [reflexivity|].
    split; [apply query_result_tasks|]. apply (filter_tasks_spec _ _ Ht).
Qed.

(** ** C2: a label name that matches no label *)

Lemma next_label_no_match lbs l :
  Forall (no_match l) lbs -> next_label lbs l = Ok JNull.
Proof.
  induction 1 as [|lb lbs (d & title & -> & Ht & Hne) _ IH]; simpl; [reflexivity|].
  rewrite Ht. destruct (String.eqb_spec (lower title) (lower l)); [contradiction|exact IH].
Qed.

(** C2. With the store configured and the label lookup answered by a
    collection of well-formed labels none of whose titles equals the label
    name up to case, [query_tasks] returns the empty task list with
    [total_tasks = 0] and the summary "No label found matching '<name>'",
    counts one call, and sends exactly one request, the [GET /labels]
    lookup: the [_find] query is not sent. *)
Theorem query_tasks_unknown_label a s l labels lbs log log1 :
  get_settings = Ok s ->
  has_couchdb (client_of s) = true ->
  label a = Some l -> l <> "" ->
  get_labels (client_of s) log = (Ok labels, log1) ->
  iter labels = Ok lbs ->
  Forall (no_match l) lbs ->
  query_tasks a log =
    (Ok (create_simple_response
           (JDict [("tasks", JList []); ("total_tasks", JInt 0)])
           ("No label found matching '" ++ l ++ "'")
           "CouchDB _find" (JInt 1) (debug a)),
     (log ++ [api_request (client_of s) GET "/labels" None])%list) /\
  sent_selector (api_request (client_of s) GET "/labels" None) = None /\
  req_url (api_request (client_of s) GET "/labels" None) =
    "https://serv.amazingmarvin.com/api/labels".
Proof.
  intros Hs Hc Hl Hne Hg Hi Hm. split; [|split; reflexivity].
  assert (Ht : truthy (label a) = true) by (rewrite Hl; now apply truthy_Some).
  assert (Hlog : log1 = (log ++ [api_request (client_of s) GET "/labels" None])%list).
  { unfold get_labels in Hg.
    destruct (make_request_run (client_of s) GET "/labels" None log) as [r Hr].
    rewrite Hr in Hg. now inversion Hg. }
  subst log1.
  unfold query_tasks. rewrite try_except_bind.
  unfold create_api_client at 1, bind at 1, lift at 1. rewrite Hs.
  unfold ret at 1. fold (client_of s). rewrite Hc. simpl negb. cbv iota.
  rewrite Ht, try_except_bind, Hg, try_except_bind.
  unfold lift at 1. rewrite Hi, try_except_bind. unfold lift at 1.
  rewrite Hl. simpl the. rewrite (next_label_no_match lbs l Hm). reflexivity.
Qed.

(** ** C4: the credentials precondition *)

Lemma has_couchdb_client_of s :
  has_couchdb (client_of s) = true <->
  rstrip "/"%char (amazing_marvin_db_uri s) <> "" /\
  amazing_marvin_db_name s <> "" /\
  amazing_marvin_db_user s <> "" /\
  amazing_marvin_db_password s <> "".
Proof.
  unfold client_of, has_couchdb, nonempty. simpl.
  generalize (amazing_marvin_db_uri s), (amazing_marvin_db_name s),
    (amazing_marvin_db_user s), (amazing_marvin_db_password s).
  intros uri nm usr pw.
  rewrite !andb_true_iff, !negb_true_iff.
  destruct (String.eqb_spec uri "") as [->|Hu]; simpl;
    destruct (String.eqb_spec nm ""), (String.eqb_spec usr ""),
      (String.eqb_spec pw ""); try destruct (String.eqb_spec (rstrip "/"%char uri) "");
    split; intros; try tauto; try (repeat split; congruence);
    try (exfalso; intuition congruence).
Qed.

Lemma has_couchdb_missing s :
  (exists c, credential_value s c = "") -> has_couchdb (client_of s) = false.
Proof.
  intros [c Hc]. destruct (has_couchdb (client_of s)) eqn:E; [|reflexivity].
  apply has_couchdb_client_of in E as (H1 & H2 & H3 & H4).
  destruct c; simpl in Hc; try congruence.
  rewrite Hc in H1. now contradiction H1.
Qed.

(** C4 (as the code has it). When any of the four store credentials is
    empty, [query_tasks] returns the configuration error without sending a
    request; the error text is fixed: it names all four settings, whichever
    of them are missing, and points to [get_all_tasks]; and [find_docs] on
    that client raises its configuration error without sending the HTTP
    request. *)
Theorem query_tasks_requires_credentials a s log :
  get_settings = Ok s ->
  (exists c, credential_value s c = "") ->
  query_tasks a log =
    (Ok (create_error_response (ValueError query_tasks_error)
           "CouchDB _find" (debug a)), log) /\
  (forall c, names_setting query_tasks_error c = true) /\
  is_infix "get_all_tasks" query_tasks_error = true /\
  (forall selector fields limit log0,
     find_docs (client_of s) selector fields limit log0 =
       (Raise (ValueError find_docs_error), log0)) /\
  (forall c, names_setting find_docs_error c = true).
Proof.
  intros Hs Hm. apply has_couchdb_missing in Hm.
  repeat split.
  - unfold query_tasks. rewrite try_except_bind.
    unfold create_api_client at 1, bind at 1, lift at 1. rewrite Hs.
    unfold ret at 1. fold (client_of s). now rewrite Hm.
  - now intros [].
  - intros. now apply find_docs_unconfigured.
  - now intros [].
Qed.

(** ** C5 and C9: field projection *)

#[local] Instance str_le_total : Total str_le.
Proof. intros a b. apply String.leb_total. Qed.





Lemma project_get fs task k :
  dict_get (project fs task) k = if decide (k ∈ fs) then dict_get task k else None.
Proof.
  unfold project. induction task as [|[k' v] task IH]; simpl.
  - now destruct (decide (k ∈ fs)).
  - rewrite filter_cons. simpl.
    destruct (decide (k' ∈ fs)) as [Hin|Hin]; simpl;
      destruct (String.eqb_spec k' k) as [->|Hne]; auto.
    + now destruct (decide (k ∈ fs)).
    + rewrite IH. now destruct (decide (k ∈ fs)).
Qed.

Lemma project_keeps_id fl task :
  dict_get (project (field_set fl) task) "_id" = dict_get task "_id".
Proof.
  rewrite project_get. destruct (decide ("_id" ∈ field_set fl)) as [|Hn]; [reflexivity|].
  exfalso. apply Hn. unfold field_set. set_solver.
Qed.



Lemma get_all_tasks_run label fields dbg log :
  get_all_tasks label fields dbg log =
    match get_settings with
    | Raise e => (Ok (create_error_response e "/categories + /children" dbg), log)
    | Ok s =>
        match get_all_tasks_impl (client_of s) label log with
        | (Raise e, log1) =>
            (Ok (create_error_response e "/categories + /children" dbg), log1)
        | (Ok result, log1) =>
            match project_result fields result with
            | Raise e =>
                (Ok (create_error_response e "/categories + /children" dbg), log1)
            | Ok result' =>
                (Ok (create_simple_response (JDict result')
                       ("Retrieved " ++
                        str_json (dict_get_or result' "total_tasks" (JInt 0)) ++
                        " tasks across all projects" ++
                        (if truthy label then " with label '" ++ the label ++ "'" else ""))
                       "/categories + /children"
                       (dict_get_or result' "api_calls_made" (JInt 5)) dbg), log1)
            end
        end
    end.
Proof.
  unfold get_all_tasks. rewrite try_except_bind.
  unfold create_api_client at 1, bind at 1, lift at 1.
  destruct get_settings as [s|e]; [|reflexivity].
  unfold ret at 1. fold (client_of s). rewrite try_except_bind.
  destruct (get_all_tasks_impl (client_of s) label log) as [[result|e] log1];
    [|reflexivity].
  rewrite try_except_bind. unfold lift at 1.
  now destruct (project_result fields result).
Qed.

Lemma field_set_member fl k : k ∈ field_set fl <-> In k fl \/ k = "_id".
Proof.
  unfold field_set. rewrite elem_of_union, elem_of_list_to_set, elem_of_singleton.
  now rewrite list_elem_of_In.
Qed.

Lemma project_tasks_dicts fs ts :
  project_tasks fs (map JDict ts) = Ok (map (fun t => JDict (project fs t)) ts).
Proof. induction ts as [|t ts IH]; simpl; [reflexivity|]. now rewrite IH. Qed.



(** ** C3: the post-filter after a projection *)

(** A projected document has a [type] entry only when [type] is among the
    requested fields, so the post-filter keeps all of them otherwise. *)
Lemma filter_tasks_projected fl stored :
  ~ In "type" fl ->
  filter_tasks (projected fl stored) = Ok (projected fl stored).
Proof.
  intros Hn. unfold projected.
  induction stored as [|d stored IH]; [reflexivity|].
  cbn [map filter_tasks get_or]. rewrite IH.
  unfold dict_get_or. rewrite project_get.
  destruct (decide ("type" ∈ field_set fl)) as [Hin|_]; [|reflexivity].
  apply field_set_member in Hin. destruct Hin as [Hin|Hin]; [contradiction|discriminate].
Qed.

(** C3 (the code does not do what the claim says).  The post-filter runs on
    the documents as the store sent them, after the projection.  When the
    field list does not name [type] and the store honours the field list,
    the reply has no [type] entry to filter on: [query_tasks] returns
    every document of the reply as a task, and each container document
    the store holds for the selector is in the task list under its
    identifier. *)
Theorem query_tasks_keeps_projected_containers a s fl stored log :
  get_settings = Ok s ->
  has_couchdb (client_of s) = true ->
  truthy (label a) = false ->
  fields a = Some fl -> fl <> [] -> ~ In "type" fl ->
  let req := find_request (client_of s) (selector_filters a (selector_base a))
               (Some fl) 500 in
  upstream log req =
    Responded (Response 200 (JsonContent (JDict [("docs", JList (projected fl stored))]))) ->
  exists data summary,
    query_tasks a log =
      (Ok (create_simple_response (JDict data) summary "CouchDB _find" (JInt 1) (debug a)),
       (log ++ [req])%list) /\
    dict_get data "tasks" = Some (JList (projected fl stored)) /\
    dict_get data "total_tasks" = Some (JInt (Z.of_nat (length stored))) /\
    forall d, In d stored -> is_container (JDict d) ->
      exists p, In (JDict p) (projected fl stored) /\
                dict_get p "_id" = dict_get d "_id" /\
                dict_get p "type" = None.
Proof.
  intros Hs Hc Hl Hf Hne Hty req Hu.
  assert (Hfind : find_docs (client_of s) (selector_filters a (selector_base a))
                    (fields a) 500 log =
                  (Ok (JList (projected fl stored)), (log ++ [req])%list)).
  { rewrite (find_docs_eval _ _ _ _ _ Hc), Hf. fold req. now rewrite Hu. }
  eexists _, _. split; [|split; [|split]].
  - apply (query_tasks_found a s _ _ _ log _ Hs Hc Hl Hfind eq_refl
             (filter_tasks_projected fl stored Hty)).
  - apply query_result_tasks.
  - rewrite query_result_total. unfold projected. now rewrite length_map.
  - intros d Hin _. exists (project (field_set fl) d). split; [|split].
    + unfold projected. apply (in_map (fun d => JDict (project (field_set fl) d))), Hin.
    + apply project_keeps_id.
    + rewrite project_get.
      destruct (decide ("type" ∈ field_set fl)) as [Hx|_]; [|reflexivity].
      apply field_set_member in Hx. destruct Hx as [Hx|Hx]; [contradiction|discriminate].
Qed.

(** C9. An empty field list is no projection: [find_docs] behaves as
    with no field list and posts a body with the selector and the limit
    only; [get_all_tasks] behaves as with no field list and leaves the
    result as it is; [query_tasks] behaves as with no field list and no
    response of it records [fields_returned]. *)
Theorem empty_fields_is_no_projection :
  (forall self selector limit log,
     find_docs self selector (Some []) limit log =
       find_docs self selector None limit log /\
     req_json (find_request self selector (Some []) limit) =
       Some (JDict [("selector", JDict selector); ("limit", JInt limit)]) /\
     sent_fields (find_request self selector (Some []) limit) = None /\
     (has_couchdb self = true ->
      exists r, find_docs self selector (Some []) limit log =
                  (r, (log ++ [find_request self selector (Some []) limit])%list))) /\
  (forall label dbg log,
     get_all_tasks label (Some []) dbg log = get_all_tasks label None dbg log /\
     forall result, project_result (Some []) result = Ok result) /\
  (forall a log,
     query_tasks (with_fields a (Some [])) log =
       query_tasks (with_fields a None) log /\
     exists resp log',
       query_tasks (with_fields a (Some [])) log = (Ok resp, log') /\
       forall data summary endpoint calls d,
         resp = create_simple_response (JDict data) summary endpoint calls d ->
         dict_get data "fields_returned" = None).
Proof.
  repeat apply conj.
  - intros self selector limit log. repeat apply conj; try reflexivity.
    apply find_docs_run.
  - intros label dbg log. split; reflexivity.
  - intros a log. split; [reflexivity|].
    destruct (query_tasks_run (with_fields a (Some [])) log) as (resp & new & H & Hrun).
    exists resp, (log ++ new)%list. split; [exact H|].
    intros data summary endpoint calls d ->.
    inversion Hrun; subst.
    + reflexivity.
    + now rewrite query_result_fields_returned.
Qed.

(** ** C8: [get_children] *)

(** C8. When the children request is answered with status 404,
    [get_children] returns the empty list; when it is answered with any
    other error status, the [HTTPError] is raised to the caller; and
    whatever other exception the request raises is raised to the caller
    as well. *)
Theorem get_children_not_found self parent_id log :
  let req := api_request self GET ("/children?parentId=" ++ parent_id) None in
  (forall c, upstream log req = Responded (Response 404 c) ->
     get_children self parent_id log = (Ok (JList []), (log ++ [req])%list)) /\
  (forall st c, upstream log req = Responded (Response st c) ->
     400 <= st < 600 -> st <> 404 ->
     get_children self parent_id log = (Raise (HTTPError st), (log ++ [req])%list)) /\
  (forall e log',
     _make_request self GET ("/children?parentId=" ++ parent_id) None log =
       (Raise e, log') ->
     get_children self parent_id log =
       if match e with HTTPError 404 => true | _ => false end
       then (Ok (JList []), log') else (Raise e, log')).
Proof.
  intros req. repeat apply conj.
  - intros c H. unfold get_children, try_except, _make_request, bind, send.
    fold (api_request self GET ("/children?parentId=" ++ parent_id) None).
    fold req. rewrite H. reflexivity.
  - intros st c H Hst Hne. unfold get_children, try_except, _make_request, bind, send.
    fold (api_request self GET ("/children?parentId=" ++ parent_id) None).
    fold req. rewrite H. unfold raise_for_status, raise. simpl.
    rewrite (proj2 (Z.leb_le 400 st)) by lia.
    rewrite (proj2 (Z.ltb_lt st 600)) by lia. simpl.
    now rewrite (proj2 (Z.eqb_neq st 404)).
  - intros e log' H. unfold get_children, try_except. rewrite H.
    destruct e as [|st| | | | | |]; try reflexivity.
    unfold ret, raise. destruct (Z.eqb_spec st 404) as [->|Hne]; [reflexivity|].
    destruct st as [|p|p]; try reflexivity.
    repeat (destruct p as [p|p|]; try reflexivity); contradiction.
Qed.

(** ** C10: [batch_mark_done] *)

Lemma mark_task_done_log self task_id log :
  snd (mark_task_done self task_id 0 log) = (log ++ [mark_request self task_id])%list.
Proof.
  unfold mark_task_done.
  destruct (make_request_run self POST "/markDone"
              (Some (JDict [("itemId", JStr task_id); ("timeZoneOffset", JInt 0)])) log)
    as [r Hr].
  now rewrite Hr.
Qed.

Lemma mark_each_spec self task_ids completed failed log :
  mark_each self task_ids completed failed log =
    (Ok ((completed ++ completed_of (attempts self task_ids log))%list,
         (failed ++ failed_of (attempts self task_ids log))%list),
     (log ++ map (mark_request self) task_ids)%list).
Proof.
  revert completed failed log.
  induction task_ids as [|task_id rest IH]; intros completed failed log; simpl.
  - unfold ret. now rewrite !app_nil_r.
  - pose proof (mark_task_done_log self task_id log) as Hlog.
    unfold bind at 1, try_except, bind at 1.
    destruct (mark_task_done self task_id 0 log) as [[j|e] log1] eqn:Hm;
      simpl in Hlog; subst log1; unfold ret; simpl fst; simpl snd;
      rewrite IH; unfold completed_of, failed_of; simpl;
      now rewrite <- !app_assoc.
Qed.

Lemma completed_failed_length outcomes :
  (length (completed_of outcomes) + length (failed_of outcomes))%nat = length outcomes.
Proof.
  induction outcomes as [|[task_id [j|e]] outcomes IH]; simpl; auto.
  unfold completed_of, failed_of in *. simpl. lia.
Qed.

Lemma attempts_ids self task_ids log :
  map fst (attempts self task_ids log) = task_ids.
Proof.
  revert log. induction task_ids as [|t rest IH]; intros log; simpl; [reflexivity|].
  now rewrite IH.
Qed.

(** C10. With the settings loaded, [batch_mark_done] sends one [markDone]
    request per identifier of the input, in the order of the input, whatever
    the outcomes; the attempts that succeed fill [completed_tasks], each
    attempt that raises leaves its record in [failed_tasks], and
    [success_count + failure_count = total_requested], the length of the
    input. *)
Theorem batch_mark_done_attempts_all task_ids dbg s log :
  get_settings = Ok s ->
  let outcomes := attempts (client_of s) task_ids log in
  let completed := completed_of outcomes in
  let failed := failed_of outcomes in
  batch_mark_done task_ids dbg log =
    (Ok (create_simple_response
           (JDict [("completed_tasks", JList completed);
                   ("failed_tasks", JList failed);
                   ("success_count", JInt (Z.of_nat (length completed)));
                   ("failure_count", JInt (Z.of_nat (length failed)));
                   ("total_requested", JInt (Z.of_nat (length task_ids)))])
           ("Marked " ++ str_json (JInt (Z.of_nat (length completed))) ++
            " of " ++ str_json (JInt (Z.of_nat (length task_ids))) ++
            " tasks as done")
           "/markDone" (JInt (Z.of_nat (length task_ids))) dbg),
     (log ++ map (mark_request (client_of s)) task_ids)%list) /\
  map fst outcomes = task_ids /\
  (forall task_id e, In (task_id, Raise e) outcomes ->
     In (JDict [("task_id", JStr task_id); ("error", JStr (str_exn e))]) failed) /\
  Z.of_nat (length completed) + Z.of_nat (length failed) = Z.of_nat (length task_ids).
Proof.
  intros Hs outcomes completed failed. repeat apply conj.
  - unfold batch_mark_done. rewrite try_except_bind.
    unfold create_api_client at 1, bind at 1, lift at 1. rewrite Hs.
    unfold ret at 1. fold (client_of s). rewrite try_except_bind.
    rewrite mark_each_spec. reflexivity.
  - apply attempts_ids.
  - intros task_id e Hin. unfold failed, failed_of. apply in_flat_map.
    exists (task_id, Raise e). split; [exact Hin|]. simpl. now left.
  - unfold completed, failed.
    pose proof (completed_failed_length outcomes) as H.
    assert (Hl : length outcomes = length task_ids).
    { unfold outcomes. rewrite <- (attempts_ids (client_of s) task_ids log) at 2.
      now rewrite length_map. }
    lia.
Qed.

(** ** C7: [get_completed_tasks_for_date] *)

Lemma key_eqb_refl k : hashable k = true -> key_eqb k k = true.
Proof.
  destruct k; simpl; try discriminate; intros _; auto using String.eqb_refl, Z.eqb_refl.
Qed.

Lemma key_eqb_sym a b : key_eqb a b = key_eqb b a.
Proof.
  destruct a, b; simpl; auto using String.eqb_sym, Z.eqb_sym.
Qed.

Lemma key_eqb_trans a b c :
  key_eqb a b = true -> key_eqb b c = true -> key_eqb a c = true.
Proof.
  destruct a, b, c; simpl; try discriminate; auto;
    rewrite ?Z.eqb_eq, ?String.eqb_eq; intros; congruence.
Qed.

Lemma key_eqb_congr a b c : key_eqb a b = true -> key_eqb a c = key_eqb b c.
Proof.
  intros H. destruct (key_eqb b c) eqn:E.
  - eauto using key_eqb_trans.
  - destruct (key_eqb a c) eqn:E'; [|reflexivity].
    rewrite key_eqb_sym in H. rewrite <- E. symmetry. eauto using key_eqb_trans.
Qed.

Lemma glookup_group_append bp p item k :
  glookup (group_append bp p item) k =
    (glookup bp k ++ if key_eqb k p then [item] else [])%list.
Proof.
  induction bp as [|[k' l] bp IH]; simpl.
  - now rewrite (key_eqb_sym p k).
  - destruct (key_eqb k' p) eqn:Hp; simpl.
    + rewrite (key_eqb_sym k p), <- (key_eqb_congr k' p k Hp).
      destruct (key_eqb k' k); [reflexivity|now rewrite app_nil_r].
    + destruct (key_eqb k' k) eqn:Hk; [|exact IH].
      rewrite <- (key_eqb_congr k' k p Hk), Hp. now rewrite app_nil_r.
Qed.

Lemma sizes_group_append bp p item :
  sizes (group_append bp p item) = S (sizes bp).
Proof.
  unfold sizes. induction bp as [|[k' l] bp IH]; simpl; [reflexivity|].
  destruct (key_eqb k' p); simpl.
  - rewrite length_app. simpl. lia.
  - rewrite IH. lia.
Qed.

Lemma group_append_keys bp p item e :
  In e (group_append bp p item) ->
  (exists e', In e' bp /\ fst e = fst e') \/
  (fst e = p /\ Forall (fun e' => key_eqb (fst e') p = false) bp).
Proof.
  induction bp as [|[k' l] bp IH]; simpl.
  - intros [<-|[]]. right. split; [reflexivity|constructor].
  - destruct (key_eqb k' p) eqn:Hp; simpl.
    + intros [<-|H]; left; [exists (k', l)|exists e]; auto.
    + intros [<-|H]; [left; exists (k', l); auto|].
      destruct (IH H) as [(e' & H1 & H2)|[H1 H2]]; [left; eauto|].
      right. split; [exact H1|]. constructor; auto.
Qed.

Lemma group_append_ok bp p item :
  hashable p = true -> groups_ok bp -> groups_ok (group_append bp p item).
Proof.
  intros Hh. induction bp as [|[k' l] bp IH]; intros [Hd Hf]; simpl.
  - split; [split; [constructor|exact I]|].
    constructor; [|constructor]. split; [exact Hh|discriminate].
  - simpl in Hd. destruct Hd as [Hd1 Hd2]. inversion Hf as [|? ? [Hk Hl] Hf']; subst.
    simpl in Hk, Hl.
    destruct (key_eqb k' p) eqn:Hp.
    + split; [split; assumption|]. constructor; [|assumption].
      split; [exact Hk|]. simpl. now destruct l.
    + destruct (IH (conj Hd2 Hf')) as [IH1 IH2].
      split; [split; [|exact IH1]|constructor; [split; assumption|exact IH2]].
      apply List.Forall_forall. intros e He.
      destruct (group_append_keys bp p item e He) as [(e' & H1 & H2)|[H1 H2]].
      * rewrite H2. rewrite List.Forall_forall in Hd1. now apply Hd1.
      * now rewrite H1.
Qed.

Lemma glookup_entry bp k l :
  groups_ok bp -> In (k, l) bp -> glookup bp k = l.
Proof.
  induction bp as [|[k' l'] bp IH]; simpl; intros [Hd Hf]; [intros []|].
  destruct Hd as [Hd1 Hd2]. inversion Hf as [|? ? [Hk Hl] Hf']; subst. simpl in Hk.
  intros [[= -> ->]|Hin].
  - now rewrite key_eqb_refl.
  - rewrite List.Forall_forall in Hd1. specialize (Hd1 (k, l) Hin). simpl in Hd1.
    rewrite Hd1. now apply IH.
Qed.

Lemma glookup_In bp k :
  glookup bp k <> [] -> exists k', In (k', glookup bp k) bp /\ key_eqb k' k = true.
Proof.
  induction bp as [|[k' l] bp IH]; simpl; [congruence|].
  destruct (key_eqb k' k) eqn:E; intros H.
  - exists k'. auto.
  - destruct (IH H) as (k'' & H1 & H2). exists k''. auto.
Qed.

Lemma group_items_spec items :
  Forall well_formed_item items ->
  forall bp un, groups_ok bp ->
  exists bp',
    group_items items bp un = Ok (bp', (un ++ List.filter is_unassigned items)%list) /\
    groups_ok bp' /\
    (forall k, glookup bp' k = (glookup bp k ++ group_of k items)%list) /\
    (sizes bp' + length (List.filter is_unassigned items) =
     sizes bp + length items)%nat.
Proof.
  induction 1 as [|item items [[d ->] Hh] _ IH]; intros bp un Hok.
  - exists bp. simpl. rewrite app_nil_r.
    split; [reflexivity|]. split; [exact Hok|]. split; [|lia].
    intros k. unfold group_of. simpl. now rewrite app_nil_r.
  - assert (Hg : forall k, group_of k (JDict d :: items) =
                   if negb (is_unassigned (JDict d)) && key_eqb k (parent_of (JDict d))
                   then JDict d :: group_of k items else group_of k items)
      by reflexivity.
    assert (Hf : List.filter is_unassigned (JDict d :: items) =
                 if is_unassigned (JDict d)
                 then JDict d :: List.filter is_unassigned items
                 else List.filter is_unassigned items) by reflexivity.
    assert (Hstep : group_items (JDict d :: items) bp un =
              if is_unassigned (JDict d)
              then group_items items bp (un ++ [JDict d])%list
              else if hashable (parent_of (JDict d))
                   then group_items items
                          (group_append bp (parent_of (JDict d)) (JDict d)) un
                   else Raise TypeError) by reflexivity.
    rewrite Hstep, Hf, Hh. clear Hstep Hf.
    destruct (is_unassigned (JDict d)) eqn:Hu.
    + destruct (IH bp (un ++ [JDict d])%list Hok) as (bp' & H1 & H2 & H3 & H4).
      exists bp'. rewrite H1, <- app_assoc.
      split; [reflexivity|]. split; [exact H2|]. split; [|simpl length; lia].
      intros k. now rewrite H3, Hg.
    + pose proof (group_append_ok bp _ (JDict d) Hh Hok) as Hok'.
      destruct (IH (group_append bp (parent_of (JDict d)) (JDict d)) un Hok')
        as (bp' & H1 & H2 & H3 & H4).
      exists bp'. rewrite H1.
      split; [reflexivity|]. split; [exact H2|]. split.
      * intros k. rewrite H3, glookup_group_append, <- app_assoc, Hg. f_equal.
        simpl. now destruct (key_eqb k _).
      * rewrite sizes_group_append in H4. simpl length. lia.
Qed.

(** C7. When the done-items request for the date is answered by a list of
    well-formed items, [get_completed_tasks_for_date] returns the flat list
    as received and the grouped form: the unassigned bucket holds exactly
    the items with no [parentId] or the ["unassigned"] one, every group
    holds exactly the other items whose parent identifier is its key, every
    other item is in the group of its parent identifier, no group is empty,
    and [total_completed] is the length of the flat list and equals
    [unassigned_count] plus the sum of the group sizes. *)
Theorem completed_tasks_partition date dbg s items log log1 :
  get_settings = Ok s ->
  get_done_items (client_of s) (Some date) log = (Ok (JList items), log1) ->
  Forall well_formed_item items ->
  exists res summary,
    get_completed_tasks_for_date date dbg log =
      (Ok (create_simple_response res summary "/doneItems" (JInt 1) dbg), log1) /\
    all_completed res = JList items /\
    unassigned_completed res = List.filter is_unassigned items /\
    (forall k l, In (k, l) (completed_by_project res) ->
       l <> [] /\ l = group_of k items) /\
    (forall item, In item items -> is_unassigned item = false ->
       exists k l, In (k, l) (completed_by_project res) /\
                   key_eqb k (parent_of item) = true /\ In item l) /\
    total_completed res = Z.of_nat (length items) /\
    unassigned_count res = Z.of_nat (length (unassigned_completed res)) /\
    project_count res = Z.of_nat (length (completed_by_project res)) /\
    total_completed res =
      unassigned_count res + Z.of_nat (sizes (completed_by_project res)).
Proof.
  intros Hs Hg Hwf.
  assert (Hok0 : groups_ok []) by (split; [exact I|constructor]).
  destruct (group_items_spec items Hwf [] [] Hok0) as (bp' & H1 & H2 & H3 & H4).
  simpl in H1, H3, H4.
  eexists _, _. split.
  { unfold get_completed_tasks_for_date. rewrite try_except_bind.
    unfold create_api_client at 1, bind at 1, lift at 1. rewrite Hs.
    unfold ret at 1. fold (client_of s). rewrite try_except_bind, Hg.
    rewrite try_except_bind. unfold lift at 1. cbn [iter].
    rewrite try_except_bind. unfold lift at 1. rewrite H1.
    rewrite try_except_bind. unfold lift at 1. cbn [len]. reflexivity. }
  simpl. repeat apply conj; try reflexivity.
  - intros k l Hin. pose proof (glookup_entry bp' k l H2 Hin) as Hl.
    rewrite H3 in Hl. subst l. split; [|reflexivity].
    rewrite <- H3. rewrite (glookup_entry bp' k _ H2 Hin).
    destruct H2 as [_ H2]. rewrite List.Forall_forall in H2.
    apply (H2 _ Hin).
  - intros item Hin Hu.
    assert (Hh : hashable (parent_of item) = true).
    { rewrite List.Forall_forall in Hwf. apply Hwf, Hin. }
    assert (Hm : In item (glookup bp' (parent_of item))).
    { rewrite H3. unfold group_of. apply filter_In. split; [exact Hin|].
      now rewrite Hu, key_eqb_refl. }
    destruct (glookup_In bp' (parent_of item)) as (k & Hk1 & Hk2).
    { intros E. rewrite E in Hm. destruct Hm. }
    eauto.
  - lia.
Qed.

(** ** Further properties: the client *)

(** The common start of every tool: the client is built from the settings. *)
Ltac start_tool Hs s :=
  rewrite try_except_bind;
  unfold create_api_client at 1, bind at 1, lift at 1; rewrite Hs;
  unfold ret at 1; fold (client_of s).

Lemma full_access_no_token self method endpoint data log :
  full_access_token self = "" ->
  _make_full_access_request self method endpoint data log =
    (Raise (ValueError full_access_error), log).
Proof. intros H. unfold _make_full_access_request, nonempty. now rewrite H. Qed.

Lemma full_access_run self method endpoint data log :
  full_access_token self <> "" ->
  method = GET \/ method = POST ->
  exists r, _make_full_access_request self method endpoint data log =
            (r, (log ++ [full_access_request self method endpoint data])%list).
Proof.
  intros Ht Hm. unfold _make_full_access_request, nonempty, full_access_request.
  destruct (String.eqb_spec (full_access_token self) ""); [contradiction|].
  simpl negb. cbv iota. unfold bind, send.
  destruct Hm as [-> | ->]; simpl;
    (match goal with |- context [upstream log ?r] => destruct (upstream log r) as [resp|] end;
     [|eexists; reflexivity]);
    unfold raise_for_status, raise, ret, response_json;
    destruct ((400 <=? status_code resp) && (status_code resp <? 600));
    try (eexists; reflexivity);
    destruct (status_code resp =? 204); simpl; try (eexists; reflexivity);
    destruct (resp_content resp); eexists; reflexivity.
Qed.

(** X1. Without a full-access token the four document tools answer with
    the configuration error and send nothing. *)
Theorem doc_tools_require_token s item_id setters doc_data dbg log :
  get_settings = Ok s ->
  amazing_marvin_full_access_token s = "" ->
  read_doc_tool item_id dbg log =
    (Ok (create_error_response (ValueError full_access_error) "/doc" dbg), log) /\
  update_doc_tool item_id setters dbg log =
    (Ok (create_error_response (ValueError full_access_error) "/doc/update" dbg), log) /\
  create_doc_tool doc_data dbg log =
    (Ok (create_error_response (ValueError full_access_error) "/doc/create" dbg), log) /\
  delete_doc_tool item_id dbg log =
    (Ok (create_error_response (ValueError full_access_error) "/doc/delete" dbg), log).
Proof.
  intros Hs Ht.
  assert (Hc : full_access_token (client_of s) = "") by exact Ht.
  repeat apply conj.
  - unfold read_doc_tool. start_tool Hs s. rewrite try_except_bind.
    unfold read_doc. now rewrite full_access_no_token.
  - unfold update_doc_tool. start_tool Hs s. rewrite try_except_bind.
    unfold update_doc. now rewrite full_access_no_token.
  - unfold create_doc_tool. start_tool Hs s. rewrite try_except_bind.
    unfold create_doc. now rewrite full_access_no_token.
  - unfold delete_doc_tool. start_tool Hs s. rewrite try_except_bind.
    unfold delete_doc. now rewrite full_access_no_token.
Qed.

(** X2. Each credential travels only with its own family of requests: a
    request of [_make_request] carries the API token header and nothing
    else, a request of [_make_full_access_request] carries the full-access
    token header and nothing else, and the request of [find_docs] carries
    no header and the store's user and password as basic authentication. *)
Theorem credentials_stay_apart s method endpoint data selector fields limit log :
  (exists r req,
     _make_request (client_of s) method endpoint data log = (r, (log ++ [req])%list) /\
     req_headers req = [("X-API-Token", amazing_marvin_api_key s)] /\
     req_auth req = None) /\
  (amazing_marvin_full_access_token s <> "" ->
   method = GET \/ method = POST ->
   exists r req,
     _make_full_access_request (client_of s) method endpoint data log =
       (r, (log ++ [req])%list) /\
     req_headers req = [("X-Full-Access-Token", amazing_marvin_full_access_token s)] /\
     req_auth req = None) /\
  (has_couchdb (client_of s) = true ->
   exists r req,
     find_docs (client_of s) selector fields limit log = (r, (log ++ [req])%list) /\
     req_headers req = [] /\
     req_auth req = Some (amazing_marvin_db_user s, amazing_marvin_db_password s)).
Proof.
  repeat apply conj.
  - destruct (make_request_run (client_of s) method endpoint data log) as [r Hr].
    eexists _, _. split; [exact Hr|]. split; reflexivity.
  - intros Ht Hm.
    destruct (full_access_run (client_of s) method endpoint data log Ht Hm) as [r Hr].
    eexists _, _. split; [exact Hr|]. split; reflexivity.
  - intros Hc.
    destruct (find_docs_run (client_of s) selector fields limit log Hc) as [r Hr].
    eexists _, _. split; [exact Hr|]. split; reflexivity.
Qed.

Lemma only_projects_spec items :
  Forall is_dict items -> only_projects items = Ok (List.filter is_project items).
Proof.
  induction 1 as [|x items [d ->] _ IH]; simpl; [reflexivity|].
  rewrite IH. unfold is_project. simpl type_of.
  now destruct (eq_str (dict_get_or d "type" JNull) "project").
Qed.

Lemma not_projects_spec items :
  Forall is_dict items ->
  not_projects items = Ok (List.filter (fun x => negb (is_project x)) items).
Proof.
  induction 1 as [|x items [d ->] _ IH]; simpl; [reflexivity|].
  rewrite IH. unfold is_project. simpl type_of.
  now destruct (eq_str (dict_get_or d "type" JNull) "project").
Qed.

Lemma only_projects_fail items :
  (exists x, In x items /\ ~ is_dict x) -> only_projects items = Raise AttributeError.
Proof.
  induction items as [|y items IH]; intros (x & Hin & Hx); [destruct Hin|].
  simpl. destruct y as [| | | | |d]; try reflexivity. simpl.
  destruct Hin as [<-|Hin]; [exfalso; apply Hx; now exists d|].
  now rewrite IH by eauto.
Qed.

(** X3. [get_projects] asks for the categories once and returns exactly
    those of type ["project"], in their order; an entry that is not a
    dictionary makes it raise [AttributeError]. *)
Theorem get_projects_spec self cats items log log1 :
  get_categories self log = (Ok cats, log1) ->
  iter cats = Ok items ->
  log1 = (log ++ [api_request self GET "/categories" None])%list /\
  (Forall is_dict items ->
   get_projects self log = (Ok (List.filter is_project items), log1)) /\
  ((exists x, In x items /\ ~ is_dict x) ->
   get_projects self log = (Raise AttributeError, log1)).
Proof.
  intros Hg Hi. repeat apply conj.
  - unfold get_categories in Hg.
    destruct (make_request_run self GET "/categories" None log) as [r Hr].
    rewrite Hr in Hg. now inversion Hg.
  - intros Hd. unfold get_projects, bind. rewrite Hg. unfold lift.
    now rewrite Hi, only_projects_spec.
  - intros Hx. unfold get_projects, bind. rewrite Hg. unfold lift.
    now rewrite Hi, only_projects_fail.
Qed.

(** The characters of a string, put together again, are the string. *)
Lemma utf8_chars_concat s : String.concat "" (utf8_chars s) = s.
Proof.
  induction s as [|a s IH]; [reflexivity|].
  cbn [utf8_chars]. destruct (utf8_chars s) as [|c cs] eqn:E.
  - simpl in *. now rewrite <- IH.
  - destruct s as [|b s']; [discriminate E|].
    destruct (is_continuation b); rewrite <- IH; simpl; destruct cs; reflexivity.
Qed.

(** A character outside ASCII is one element, whatever the number of its
    bytes. *)
Lemma iter_str_characters :
  iter (JStr "né €") = Ok [JStr "n"; JStr "é"; JStr " "; JStr "€"] /\
  len (JStr "né €") = Ok 4.
Proof. split; reflexivity. Qed.

(** X4. [get_all_tasks_for_date] never raises: it sends one request, with
    the date appended whatever it is, answers the items of the reply (the
    items of a list, the keys of an object, the characters of a string),
    and answers the empty list when the request fails or the reply is
    nothing to take items from. *)
Theorem get_all_tasks_for_date_never_raises self date log :
  exists l,
    get_all_tasks_for_date self date log =
      (Ok l, (log ++ [api_request self GET ("/todayItems?date=" ++ date) None])%list) /\
    (forall e log',
       _make_request self GET ("/todayItems?date=" ++ date) None log = (Raise e, log') ->
       l = []) /\
    (forall j log',
       _make_request self GET ("/todayItems?date=" ++ date) None log = (Ok j, log') ->
       l = match iter j with Ok items => items | Raise _ => [] end).
Proof.
  unfold get_all_tasks_for_date. 
  destruct (make_request_run self GET ("/todayItems?date=" ++ date) None log) as [r Hr].
  rewrite try_except_bind, Hr. destruct r as [j|e].
  - unfold try_except, lift. destruct (iter j) as [items|e] eqn:Hi.
    + exists items. split; [reflexivity|]. split; [discriminate|].
      intros j' log' [= <- _]. now rewrite Hi.
    + exists []. split; [reflexivity|]. split; [discriminate|].
      intros j' log' [= <- _]. now rewrite Hi.
  - exists []. split; [reflexivity|]. split; [reflexivity|discriminate].
Qed.

Lemma completed_for_date_run date dbg s log :
  get_settings = Ok s ->
  exists resp,
    get_completed_tasks_for_date date dbg log =
      (Ok resp,
       (log ++ [api_request (client_of s) GET
                  (if String.eqb date "" then "/doneItems"
                   else "/doneItems?date=" ++ date) None])%list).
Proof.
  intros Hs. unfold get_completed_tasks_for_date. start_tool Hs s.
  rewrite try_except_bind. unfold get_done_items. simpl truthy. simpl the.
  assert (He : (if negb (String.eqb date "") then "/doneItems" ++ "?date=" ++ date
                else "/doneItems") =
               (if String.eqb date "" then "/doneItems" else "/doneItems?date=" ++ date))
    by now destruct (String.eqb date "").
  rewrite He.
  destruct (make_request_run (client_of s) GET
              (if String.eqb date "" then "/doneItems" else "/doneItems?date=" ++ date)
              None log) as [r Hr].
  rewrite Hr. destruct r as [items|e]; [|eexists; reflexivity].
  rewrite try_except_bind. unfold lift at 1.
  destruct (iter items); [|eexists; reflexivity].
  rewrite try_except_bind. unfold lift at 1.
  destruct (group_items _ _ _); [|eexists; reflexivity].
  rewrite try_except_bind. unfold lift at 1.
  destruct (len items); eexists; reflexivity.
Qed.

(** X5. An empty date is no date for [get_tasks] and [get_done_items]: the
    request has no [date] parameter, so [get_completed_tasks_for_date] with
    the empty date asks for [/doneItems] as it stands. *)
Theorem empty_date_is_no_date self log :
  get_tasks self (Some "") log = get_tasks self None log /\
  get_done_items self (Some "") log = get_done_items self None log /\
  (exists r, get_tasks self (Some "") log =
             (r, (log ++ [api_request self GET "/todayItems" None])%list)) /\
  (exists r, get_done_items self (Some "") log =
             (r, (log ++ [api_request self GET "/doneItems" None])%list)) /\
  (forall s dbg,
     get_settings = Ok s ->
     exists resp,
       get_completed_tasks_for_date "" dbg log =
         (Ok resp, (log ++ [api_request (client_of s) GET "/doneItems" None])%list)).
Proof.
  repeat apply conj; try reflexivity.
  - apply make_request_run.
  - apply make_request_run.
  - intros s dbg Hs. apply (completed_for_date_run "" dbg s log Hs).
Qed.

(** X6. [get_currently_tracked_item] of the client never returns a false
    value: an empty answer of the service (no content, an empty object or
    list, [null], zero) becomes the message dictionary, any other answer is
    returned as it is. *)
Theorem tracked_item_never_false self log r log' :
  api_get_currently_tracked_item self log = (r, log') ->
  log' = (log ++ [api_request self GET "/trackedItem" None])%list /\
  (forall v, r = Ok v -> truthy_json v = true) /\
  (forall res,
     fst (_make_request self GET "/trackedItem" None log) = Ok res ->
     r = Ok (if truthy_json res then res else no_tracked_item)).
Proof.
  unfold api_get_currently_tracked_item, bind.
  destruct (make_request_run self GET "/trackedItem" None log) as [r0 Hr].
  rewrite Hr. destruct r0 as [res|e]; simpl.
  - destruct (truthy_json res) eqn:Ht; simpl; unfold ret; intros [= <- <-];
      (split; [reflexivity|]); split.
    + now intros v [= <-].
    + intros res' [= <-]. now rewrite Ht.
    + now intros v [= <-].
    + intros res' [= <-]. now rewrite Ht.
  - intros [= <- <-]. split; [reflexivity|]. split; discriminate.
Qed.

(** X7. The tool [get_currently_tracked_item]: an empty answer of the
    service is reported as not tracking, with the message dictionary as the
    item; a non-empty dictionary is reported as tracking exactly when it has
    no [message] entry; a non-zero number makes the tool answer with an
    error response. *)
Theorem tracked_item_summary s res log log1 dbg :
  get_settings = Ok s ->
  _make_request (client_of s) GET "/trackedItem" None log = (Ok res, log1) ->
  (truthy_json res = false ->
   get_currently_tracked_item dbg log =
     (Ok (create_simple_response (JDict [("tracked_item", no_tracked_item)])
            "No task currently being tracked" "/me/currentlyTrackedItem"
            (JInt 1) dbg), log1)) /\
  (forall d, res = JDict d -> d <> [] ->
   get_currently_tracked_item dbg log =
     (Ok (create_simple_response (JDict [("tracked_item", res)])
            (if dict_mem d "message" then "No task currently being tracked"
             else "Currently tracking a task")
            "/me/currentlyTrackedItem" (JInt 1) dbg), log1)) /\
  (forall n, res = JInt n -> n <> 0 ->
   get_currently_tracked_item dbg log =
     (Ok (create_error_response TypeError "/me/currentlyTrackedItem" dbg), log1)).
Proof.
  intros Hs Hr.
  assert (Hstart : forall v, (if negb (truthy_json res) then ret no_tracked_item else ret res)
                             log1 = (Ok v, log1) ->
             get_currently_tracked_item dbg log =
               match is_tracking_of v with
               | Ok t =>
                   (Ok (create_simple_response (JDict [("tracked_item", v)])
                          (if truthy_json t then "Currently tracking a task"
                           else "No task currently being tracked")
                          "/me/currentlyTrackedItem" (JInt 1) dbg), log1)
               | Raise e =>
                   (Ok (create_error_response e "/me/currentlyTrackedItem" dbg), log1)
               end).
  { intros v Hv. unfold get_currently_tracked_item. start_tool Hs s.
    rewrite try_except_bind. unfold api_get_currently_tracked_item, bind at 1.
    rewrite Hr, Hv. rewrite try_except_bind. unfold lift at 1.
    now destruct (is_tracking_of v). }
  repeat apply conj.
  - intros Ht. rewrite (Hstart no_tracked_item) by now rewrite Ht. reflexivity.
  - intros d -> Hd. rewrite (Hstart (JDict d)).
    + unfold is_tracking_of, lacks_message. simpl truthy_json.
      destruct d; [contradiction|]. now destruct (dict_mem _ "message").
    + simpl. now destruct d.
  - intros n -> Hn. rewrite (Hstart (JInt n)).
    + unfold is_tracking_of. simpl. now rewrite (proj2 (Z.eqb_neq n 0) Hn).
    + simpl. now rewrite (proj2 (Z.eqb_neq n 0) Hn).
Qed.

(** ** Further properties: [create_task] and [get_child_tasks] *)

Lemma create_task_unfold title p c d n dbg log :
  create_task title p c d n dbg log =
    match get_settings with
    | Raise e => (Ok (create_error_response e "/addTask" dbg), log)
    | Ok s =>
        match api_create_task (client_of s) (task_data_of title p c d n) log with
        | (Raise e, log1) => (Ok (create_error_response e "/addTask" dbg), log1)
        | (Ok created, log1) =>
            try_except (create_task_finish title p c dbg (client_of s) created)
              (fun e => ret (create_error_response e "/addTask" dbg)) log1
        end
    end.
Proof.
  unfold create_task. rewrite try_except_bind.
  unfold create_api_client at 1, bind at 1, lift at 1.
  destruct get_settings as [s|e]; [|reflexivity].
  unfold ret at 1. fold (client_of s). cbv zeta. unfold task_data_of.
  destruct (truthy p), (truthy c), (truthy d), (truthy n);
    rewrite try_except_bind; reflexivity.
Qed.

Lemma api_create_task_log self task_data log r log1 :
  api_create_task self task_data log = (r, log1) ->
  log1 = (log ++ [api_request self POST "/addTask" (Some (JDict task_data))])%list.
Proof.
  unfold api_create_task. intros H.
  destruct (make_request_run self POST "/addTask" (Some (JDict task_data)) log) as [r' Hr].
  rewrite Hr in H. now inversion H.
Qed.

(** X8. When the task the service created does not have the requested
    parent (the project when one is given, else the category),
    [create_task] sends a second request, [/doc/update] with the setter of
    [parentId] for the identifier it read, and answers with the created
    task carrying that parent and two calls counted. *)
Theorem create_task_fixes_parent title p c d n dbg s o task_id parent u log log1 log2 :
  get_settings = Ok s ->
  api_create_task (client_of s) (task_data_of title p c d n) log = (Ok (JDict o), log1) ->
  parent_arg p c = Some parent -> parent <> "" ->
  dict_get o "_id" = Some task_id -> truthy_json task_id = true ->
  dict_get_or o "parentId" JNull <> JStr parent ->
  update_doc (client_of s) task_id
    (JList [JDict [("key", JStr "parentId"); ("val", JStr parent)]]) log1 = (Ok u, log2) ->
  create_task title p c d n dbg log =
    (Ok (create_simple_response
           (JDict [("created_task", JDict (dict_set o "parentId" (JStr parent)))])
           ("Created task: " ++ title) "/addTask" (JInt 2) dbg), log2) /\
  log1 = (log ++ [api_request (client_of s) POST "/addTask"
                    (Some (JDict (task_data_of title p c d n)))])%list /\
  log2 = (log1 ++ [fix_parent_request (client_of s) task_id parent])%list.
Proof.
  intros Hs Hp Hpar Hne Hid Ht Hdiff Hu.
  assert (Hpt : truthy (if truthy p then p else c) = true).
  { unfold parent_arg in Hpar. rewrite Hpar. now apply truthy_Some. }
  assert (Hthe : the (if truthy p then p else c) = parent).
  { unfold parent_arg in Hpar. now rewrite Hpar. }
  assert (Heq : eq_str (dict_get_or o "parentId" JNull) parent = false).
  { destruct (eq_str (dict_get_or o "parentId" JNull) parent) eqn:E; [|reflexivity].
    apply eq_str_true in E. contradiction. }
  repeat apply conj.
  - rewrite create_task_unfold, Hs, Hp. unfold create_task_finish.
    rewrite try_except_bind. unfold lift at 1. simpl get_or.
    unfold dict_get_or at 1. rewrite Hid, Hpt, Ht. simpl andb. cbv iota.
    rewrite try_except_bind. unfold bind at 1, lift at 1.
    rewrite Hthe, Heq. cbn [negb]. unfold bind at 1. cbv beta iota.
    rewrite Hu. reflexivity.
  - apply (api_create_task_log _ _ _ _ _ Hp).
  - unfold update_doc in Hu.
    assert (Htok : full_access_token (client_of s) <> "").
    { intros E. rewrite full_access_no_token in Hu by exact E. discriminate. }
    destruct (full_access_run (client_of s) POST "/doc/update"
                (Some (JDict [("itemId", task_id);
                              ("setters", JList [JDict [("key", JStr "parentId");
                                                        ("val", JStr parent)]])]))
                log1 Htok (or_intror eq_refl)) as [r Hr].
    rewrite Hr in Hu. now inversion Hu.
Qed.

(** X9. [create_task] sends nothing after [/addTask] when no parent is
    requested, when the created task has no [_id], or when it already has
    the requested parent; it counts one call in the first two cases and two
    calls in the third, where one request was sent. *)
Theorem create_task_without_fix title p c d n dbg s o log log1 :
  get_settings = Ok s ->
  api_create_task (client_of s) (task_data_of title p c d n) log = (Ok (JDict o), log1) ->
  (truthy (parent_arg p c) = false \/ truthy_json (dict_get_or o "_id" JNull) = false ->
   create_task title p c d n dbg log =
     (Ok (create_simple_response (JDict [("created_task", JDict o)])
            ("Created task: " ++ title) "/addTask" (JInt 1) dbg), log1)) /\
  (forall parent,
     parent_arg p c = Some parent -> parent <> "" ->
     truthy_json (dict_get_or o "_id" JNull) = true ->
     dict_get_or o "parentId" JNull = JStr parent ->
     create_task title p c d n dbg log =
       (Ok (create_simple_response (JDict [("created_task", JDict o)])
              ("Created task: " ++ title) "/addTask" (JInt 2) dbg), log1)) /\
  log1 = (log ++ [api_request (client_of s) POST "/addTask"
                    (Some (JDict (task_data_of title p c d n)))])%list.
Proof.
  intros Hs Hp. repeat apply conj.
  - intros H. rewrite create_task_unfold, Hs, Hp. unfold create_task_finish.
    cbv zeta. change (if truthy p then p else c) with (parent_arg p c).
    rewrite try_except_bind. unfold lift at 1. cbn [get_or].
    assert (E : truthy (parent_arg p c) && truthy_json (dict_get_or o "_id" JNull) = false).
    { destruct H as [-> | ->]; [reflexivity|apply andb_false_r]. }
    rewrite E. reflexivity.
  - intros parent Hpar Hne Ht Hsame.
    rewrite create_task_unfold, Hs, Hp. unfold create_task_finish.
    cbv zeta. change (if truthy p then p else c) with (parent_arg p c).
    rewrite try_except_bind. unfold lift at 1. cbn [get_or].
    rewrite Hpar, Ht, (truthy_Some parent Hne).
    cbn [andb]. rewrite try_except_bind. unfold bind at 1, lift at 1.
    cbn [get_or the]. rewrite Hsame. cbn [eq_str]. rewrite String.eqb_refl.
    reflexivity.
  - apply (api_create_task_log _ _ _ _ _ Hp).
Qed.

(** X10. When the parent has to be repaired and no full-access token is
    configured, [create_task] answers with the configuration error although
    the [/addTask] request, the only one, has been sent. *)
Theorem create_task_fix_needs_token title p c d n dbg s o task_id parent log log1 :
  get_settings = Ok s ->
  amazing_marvin_full_access_token s = "" ->
  api_create_task (client_of s) (task_data_of title p c d n) log = (Ok (JDict o), log1) ->
  parent_arg p c = Some parent -> parent <> "" ->
  dict_get o "_id" = Some task_id -> truthy_json task_id = true ->
  dict_get_or o "parentId" JNull <> JStr parent ->
  create_task title p c d n dbg log =
    (Ok (create_error_response (ValueError full_access_error) "/addTask" dbg),
     (log ++ [api_request (client_of s) POST "/addTask"
                (Some (JDict (task_data_of title p c d n)))])%list).
Proof.
  intros Hs Htok Hp Hpar Hne Hid Ht Hdiff.
  assert (Hpt : truthy (if truthy p then p else c) = true).
  { unfold parent_arg in Hpar. rewrite Hpar. now apply truthy_Some. }
  assert (Hthe : the (if truthy p then p else c) = parent).
  { unfold parent_arg in Hpar. now rewrite Hpar. }
  assert (Heq : eq_str (dict_get_or o "parentId" JNull) parent = false).
  { destruct (eq_str (dict_get_or o "parentId" JNull) parent) eqn:E; [|reflexivity].
    apply eq_str_true in E. contradiction. }
  rewrite <- (api_create_task_log _ _ _ _ _ Hp).
  rewrite create_task_unfold, Hs, Hp. unfold create_task_finish.
  rewrite try_except_bind. unfold lift at 1. simpl get_or.
  unfold dict_get_or at 1. rewrite Hid, Hpt, Ht. simpl andb. cbv iota.
  rewrite try_except_bind. unfold bind at 1, lift at 1.
  rewrite Hthe, Heq. cbn [negb]. unfold bind at 1. cbv beta iota.
  unfold update_doc. rewrite full_access_no_token by exact Htok.
  reflexivity.
Qed.

Lemma filter_split_length {A} (f : A -> bool) (l : list A) :
  (length (List.filter (fun x => negb (f x)) l) + length (List.filter f l))%nat = length l.
Proof.
  induction l as [|x l IH]; simpl; [reflexivity|].
  destruct (f x); simpl; lia.
Qed.

(** X11. Without recursion, [get_child_tasks] splits the children of the
    parent, all dictionaries, into the projects (type ["project"]) and the
    rest, each in the order received; the two counts add up to
    [total_children], one call is counted, and a child of type
    ["category"] is listed among the tasks. *)
Theorem get_child_tasks_partition s parent_id dbg items log log1 :
  get_settings = Ok s ->
  get_children (client_of s) parent_id log = (Ok (JList items), log1) ->
  Forall is_dict items ->
  let tasks := List.filter (fun x => negb (is_project x)) items in
  let projects := List.filter is_project items in
  get_child_tasks parent_id false dbg log =
    (Ok (create_simple_response
           (JDict [("parent_id", JStr parent_id);
                   ("total_children", JInt (Z.of_nat (length items)));
                   ("tasks", JList tasks);
                   ("projects", JList projects);
                   ("task_count", JInt (Z.of_nat (length tasks)));
                   ("project_count", JInt (Z.of_nat (length projects)));
                   ("all_children", JList items);
                   ("recursive", JBool false)])
           ("Retrieved " ++ str_json (JInt (Z.of_nat (length items))) ++
            " child items for parent " ++ parent_id)
           "/children" (JInt 1) dbg), log1) /\
  Z.of_nat (length tasks) + Z.of_nat (length projects) = Z.of_nat (length items) /\
  (forall x, In x items -> type_of x = JStr "category" -> In x tasks).
Proof.
  intros Hs Hg Hd tasks projects. repeat apply conj.
  - unfold get_child_tasks. start_tool Hs s.
    rewrite try_except_bind. unfold bind at 1. rewrite Hg.
    unfold bind at 1, lift at 1. cbn [iter].
    unfold bind at 1, lift at 1. rewrite (not_projects_spec items Hd).
    unfold bind at 1, lift at 1. rewrite (only_projects_spec items Hd).
    unfold bind at 1, lift at 1. cbn [len]. reflexivity.
  - pose proof (filter_split_length is_project items). unfold tasks, projects. lia.
  - intros x Hin Hty. unfold tasks. apply filter_In. split; [exact Hin|].
    unfold is_project. now rewrite Hty.
Qed.

Lemma get_children_404_run self parent_id log c :
  upstream log (api_request self GET ("/children?parentId=" ++ parent_id) None) =
    Responded (Response 404 c) ->
  get_children self parent_id log =
    (Ok (JList []),
     (log ++ [api_request self GET ("/children?parentId=" ++ parent_id) None])%list).
Proof.
  intros H. unfold get_children, try_except, _make_request, bind, send.
  fold (api_request self GET ("/children?parentId=" ++ parent_id) None).
  now rewrite H.
Qed.

(** X12. When the children request is answered with status 404,
    [get_child_tasks] without recursion answers with a success response
    that reports no children. *)
Theorem get_child_tasks_not_found s parent_id dbg log c :
  get_settings = Ok s ->
  upstream log (api_request (client_of s) GET ("/children?parentId=" ++ parent_id) None) =
    Responded (Response 404 c) ->
  get_child_tasks parent_id false dbg log =
    (Ok (create_simple_response
           (JDict [("parent_id", JStr parent_id);
                   ("total_children", JInt 0);
                   ("tasks", JList []);
                   ("projects", JList []);
                   ("task_count", JInt 0);
                   ("project_count", JInt 0);
                   ("all_children", JList []);
                   ("recursive", JBool false)])
           ("Retrieved " ++ str_json (JInt 0) ++ " child items for parent " ++ parent_id)
           "/children" (JInt 1) dbg),
     (log ++ [api_request (client_of s) GET ("/children?parentId=" ++ parent_id) None])%list).
Proof.
  intros Hs H. unfold get_child_tasks. start_tool Hs s.
  rewrite try_except_bind. unfold bind at 1.
  now rewrite (get_children_404_run (client_of s) parent_id log c H).
Qed.

(** ** Further properties: [query_tasks] *)

Lemma next_label_match pre d title post l :
  Forall (no_match l) pre ->
  dict_get_or d "title" (JStr "") = JStr title ->
  lower title = lower l ->
  next_label (pre ++ JDict d :: post) l = Ok (JDict d).
Proof.
  intros Hpre Ht Hl.
  induction Hpre as [|lb pre (d' & t' & -> & Ht' & Hne) _ IH]; simpl.
  - rewrite Ht, Hl. now rewrite String.eqb_refl.
  - rewrite Ht'. destruct (String.eqb_spec (lower t') (lower l)); [contradiction|exact IH].
Qed.

Lemma selector_filters_other a sel k :
  k <> "$or" -> k <> "dueDate" -> k <> "day" -> k <> "parentId" -> k <> "isStarred" ->
  dict_get (selector_filters a sel) k = dict_get sel k.
Proof.
  intros H1 H2 H3 H4 H5. unfold selector_filters.
  destruct (is_starred a), (truthy (parent_id a)), (truthy (scheduled a)),
    (truthy (scheduled_before a) || truthy (scheduled_after a)),
    (truthy (due a)), (truthy (due_before a) || truthy (due_after a)),
    (truthy (contains a)); simpl;
    repeat (rewrite dict_get_set_ne by congruence); reflexivity.
Qed.

Lemma query_result_label_filter a tasks :
  dict_get (query_result a tasks) "label_filter" =
    if truthy (label a) then Some (JStr (the (label a))) else None.
Proof.
  unfold query_result.
  destruct (truthy (label a)), (truthy_list (fields a)); simpl; dict_lookup; reflexivity.
Qed.

(** The response of the store query once the label is resolved: an error
    response, or the result dictionary with one call more than counted. *)
Lemma query_tasks_find_shape a client sel0 n log resp log' :
  try_except (query_tasks_find a client sel0 n)
    (fun e => ret (create_error_response e "CouchDB _find" (debug a))) log =
    (Ok resp, log') ->
  (exists e, resp = create_error_response e "CouchDB _find" (debug a)) \/
  (exists tasks,
     resp = create_simple_response (JDict (query_result a tasks))
              ("Retrieved " ++ str_json (JInt (Z.of_nat (length tasks))) ++
               " tasks via CouchDB" ++ filter_desc a)
              "CouchDB _find" (JInt (n + 1)) (debug a)).
Proof.
  unfold query_tasks_find. rewrite try_except_bind.
  destruct (find_docs client (selector_filters a sel0) (fields a) 500 log)
    as [[docs|e] log1].
  2:{ intros [= <- _]. left. eauto. }
  rewrite try_except_bind. unfold lift at 1.
  destruct (iter docs) as [ds|e].
  2:{ intros [= <- _]. left. eauto. }
  rewrite try_except_bind. unfold lift at 1.
  destruct (filter_tasks ds) as [tasks|e].
  2:{ intros [= <- _]. left. eauto. }
  intros [= <- _]. right. eauto.
Qed.

(** X13. When the label name equals, up to case, the title of a label of
    the lookup, the first such label in the order of the lookup is taken:
    [query_tasks] sends the store query after the lookup, with the clause
    [labelIds: {$elemMatch: {$eq: id}}] for that label's [_id]; a success
    response counts two calls and records the label name as
    [label_filter]. *)
Theorem query_tasks_label_resolved a s l labels pre d title label_id post log log1 :
  get_settings = Ok s ->
  has_couchdb (client_of s) = true ->
  label a = Some l -> l <> "" ->
  get_labels (client_of s) log = (Ok labels, log1) ->
  iter labels = Ok (pre ++ JDict d :: post)%list ->
  Forall (no_match l) pre ->
  dict_get_or d "title" (JStr "") = JStr title ->
  lower title = lower l ->
  dict_get d "_id" = Some label_id ->
  let sel := selector_filters a
               (dict_set (selector_base a) "labelIds"
                  (JDict [("$elemMatch", JDict [("$eq", label_id)])])) in
  exists resp,
    query_tasks a log =
      (Ok resp, (log1 ++ [find_request (client_of s) sel (fields a) 500])%list) /\
    log1 = (log ++ [api_request (client_of s) GET "/labels" None])%list /\
    dict_get sel "labelIds" = Some (JDict [("$elemMatch", JDict [("$eq", label_id)])]) /\
    forall data summary endpoint calls dbg,
      resp = create_simple_response (JDict data) summary endpoint calls dbg ->
      calls = JInt 2 /\ dict_get data "label_filter" = Some (JStr l).
Proof.
  intros Hs Hc Hl Hne Hg Hi Hpre Ht Hlow Hid sel.
  assert (Htl : truthy (label a) = true) by (rewrite Hl; now apply truthy_Some).
  assert (Hlog : log1 = (log ++ [api_request (client_of s) GET "/labels" None])%list).
  { unfold get_labels in Hg.
    destruct (make_request_run (client_of s) GET "/labels" None log) as [r Hr].
    rewrite Hr in Hg. now inversion Hg. }
  assert (Hd : truthy_json (JDict d) = true).
  { destruct d; [discriminate Hid|reflexivity]. }
  destruct (query_tasks_find_run a s [api_request (client_of s) GET "/labels" None]
              _ 1 log1 Hs Hc (LabelResolved a (client_of s) label_id Htl))
    as (resp & Hrun & _).
  exists resp. split; [|split; [exact Hlog|split]].
  - unfold query_tasks. start_tool Hs s. rewrite Hc. cbn [negb].
    rewrite Htl, try_except_bind, Hg, try_except_bind.
    unfold lift at 1. rewrite Hi, try_except_bind. unfold lift at 1.
    rewrite Hl. cbn [the]. rewrite (next_label_match pre d title post l Hpre Ht Hlow).
    rewrite Hd, try_except_bind. unfold lift at 1. cbn [subscript]. rewrite Hid.
    change (0 + 1) with 1. exact Hrun.
  - unfold sel. rewrite selector_filters_other by discriminate.
    apply dict_get_set_eq.
  - intros data summary endpoint calls dbg ->.
    destruct (query_tasks_find_shape _ _ _ _ _ _ _ Hrun) as [[e He]|[tasks He]];
      [discriminate He|].
    inversion He; subst. split; [reflexivity|].
    now rewrite query_result_label_filter, Htl, Hl.
Qed.

(** X14. When the matching label has no [_id] entry, [query_tasks] answers
    with the error response for the missing key and sends nothing after the
    label lookup. *)
Theorem query_tasks_label_without_id a s l labels pre d title post log log1 :
  get_settings = Ok s ->
  has_couchdb (client_of s) = true ->
  label a = Some l -> l <> "" ->
  get_labels (client_of s) log = (Ok labels, log1) ->
  iter labels = Ok (pre ++ JDict d :: post)%list ->
  Forall (no_match l) pre ->
  dict_get d "title" = Some (JStr title) ->
  lower title = lower l ->
  dict_get d "_id" = None ->
  query_tasks a log =
    (Ok (create_error_response (KeyError "_id") "CouchDB _find" (debug a)), log1) /\
  log1 = (log ++ [api_request (client_of s) GET "/labels" None])%list.
Proof.
  intros Hs Hc Hl Hne Hg Hi Hpre Ht Hlow Hid.
  assert (Htl : truthy (label a) = true) by (rewrite Hl; now apply truthy_Some).
  assert (Hd : truthy_json (JDict d) = true).
  { destruct d; [discriminate Ht|reflexivity]. }
  assert (Ht' : dict_get_or d "title" (JStr "") = JStr title).
  { unfold dict_get_or. now rewrite Ht. }
  split.
  - unfold query_tasks. start_tool Hs s. rewrite Hc. cbn [negb].
    rewrite Htl, try_except_bind, Hg, try_except_bind.
    unfold lift at 1. rewrite Hi, try_except_bind. unfold lift at 1.
    rewrite Hl. cbn [the]. rewrite (next_label_match pre d title post l Hpre Ht' Hlow).
    rewrite Hd, try_except_bind. unfold lift at 1. cbn [subscript]. now rewrite Hid.
  - unfold get_labels in Hg.
    destruct (make_request_run (client_of s) GET "/labels" None log) as [r Hr].
    rewrite Hr in Hg. now inversion Hg.
Qed.

Lemma query_run_selector_base a resp new req sel :
  query_run a resp new ->
  In req new -> sent_selector req = Some sel ->
  exists sel0,
    sel = selector_filters a sel0 /\
    (sel0 = selector_base a \/
     exists label_id,
       sel0 = dict_set (selector_base a) "labelIds"
                (JDict [("$elemMatch", JDict [("$eq", label_id)])])).
Proof.
  intros Hrun Hin Hsel.
  assert (Hstage : forall client pre sel0 n,
             label_stage a client pre sel0 n ->
             In req (pre ++ [find_request client (selector_filters a sel0) (fields a) 500]) ->
             exists sel0,
               sel = selector_filters a sel0 /\
               (sel0 = selector_base a \/
                exists label_id,
                  sel0 = dict_set (selector_base a) "labelIds"
                           (JDict [("$elemMatch", JDict [("$eq", label_id)])]))).
  { intros client pre sel0 n Hst Hi.
    apply in_app_or in Hi. destruct Hi as [Hi|[<-|[]]].
    - destruct Hst; [destruct Hi|]. destruct Hi as [<-|[]]. discriminate Hsel.
    - rewrite sent_selector_find in Hsel. inversion Hsel; subst.
      exists sel0. split; [reflexivity|]. destruct Hst; eauto. }
  destruct Hrun; eauto.
  - destruct Hin.
  - destruct Hin.
  - destruct Hin as [<-|[]]. discriminate Hsel.
  - destruct Hin as [<-|[]]. discriminate Hsel.
Qed.

Lemma dict_get_single_ne k0 v k : k0 <> k -> dict_get [(k0, v)] k = None.
Proof. intros H. cbn [dict_get]. now destruct (String.eqb_spec k0 k). Qed.

Lemma selector_base_lookups a sel0 k :
  sel0 = selector_base a \/
  (exists label_id,
     sel0 = dict_set (selector_base a) "labelIds"
              (JDict [("$elemMatch", JDict [("$eq", label_id)])])) ->
  dict_get sel0 "db" = Some (JStr "Tasks") /\
  (k <> "db" -> k <> "done" -> k <> "labelIds" -> dict_get sel0 k = None).
Proof.
  assert (Hb : dict_get (selector_base a) "db" = Some (JStr "Tasks") /\
               (k <> "db" -> k <> "done" -> dict_get (selector_base a) k = None)).
  { unfold selector_base. destruct (include_done a); cbn [negb]; split.
    - reflexivity.
    - intros H1 H2. now apply dict_get_single_ne.
    - now rewrite dict_get_set_ne by discriminate.
    - intros H1 H2. rewrite dict_get_set_ne by congruence.
      now apply dict_get_single_ne. }
  destruct Hb as [Hb1 Hb2].
  intros [-> | [label_id ->]].
  - split; [exact Hb1|]. auto.
  - split; [now rewrite dict_get_set_ne by discriminate|].
    intros H1 H2 H3. rewrite dict_get_set_ne by congruence. auto.
Qed.

(** X15. Every selector [query_tasks] sends restricts the query to the
    collection ["Tasks"]; it holds the starred clause exactly when the
    argument is given, as the integer 1 or 0, the parent clause exactly
    when a parent is given, and the text clause exactly when a text is
    given: the case-insensitive pattern of the escaped text on the title or
    on the note. *)
Theorem query_tasks_selector_clauses a log r log' :
  query_tasks a log = (r, log') ->
  exists new, log' = (log ++ new)%list /\
    forall req sel, In req new -> sent_selector req = Some sel ->
      dict_get sel "db" = Some (JStr "Tasks") /\
      dict_get sel "isStarred" =
        match is_starred a with
        | Some b => Some (JInt (if b then 1 else 0))
        | None => None
        end /\
      dict_get sel "parentId" =
        (if truthy (parent_id a) then Some (JStr (the (parent_id a))) else None) /\
      dict_get sel "$or" =
        (if truthy (contains a)
         then Some (JList
                [JDict [("title",
                         JDict [("$regex", JStr ("(?i)" ++ re_escape (the (contains a))))])];
                 JDict [("note",
                         JDict [("$regex", JStr ("(?i)" ++ re_escape (the (contains a))))])]])
         else None).
Proof.
  intros H. apply query_tasks_inv in H as (resp & new & -> & -> & Hrun).
  exists new. split; [reflexivity|]. intros req sel Hin Hsel.
  destruct (query_run_selector_base a resp new req sel Hrun Hin Hsel) as (sel0 & -> & H0).
  pose proof (selector_base_lookups a sel0 "isStarred" H0) as [Hdb H1].
  pose proof (selector_base_lookups a sel0 "parentId" H0) as [_ H2].
  pose proof (selector_base_lookups a sel0 "$or" H0) as [_ H3].
  specialize (H1 ltac:(discriminate) ltac:(discriminate) ltac:(discriminate)).
  specialize (H2 ltac:(discriminate) ltac:(discriminate) ltac:(discriminate)).
  specialize (H3 ltac:(discriminate) ltac:(discriminate) ltac:(discriminate)).
  repeat apply conj.
  - now rewrite selector_filters_other by discriminate.
  - unfold selector_filters.
    destruct (is_starred a) as [b|]; [now rewrite dict_get_set_eq|].
    destruct (truthy (parent_id a)), (truthy (scheduled a)),
      (truthy (scheduled_before a) || truthy (scheduled_after a)),
      (truthy (due a)), (truthy (due_before a) || truthy (due_after a)),
      (truthy (contains a)); simpl;
      repeat (rewrite dict_get_set_ne by discriminate); exact H1.
  - unfold selector_filters.
    destruct (is_starred a), (truthy (parent_id a)), (truthy (scheduled a)),
      (truthy (scheduled_before a) || truthy (scheduled_after a)),
      (truthy (due a)), (truthy (due_before a) || truthy (due_after a)),
      (truthy (contains a)); simpl;
      repeat first [rewrite dict_get_set_eq | rewrite dict_get_set_ne by discriminate];
      first [reflexivity | exact H2].
  - unfold selector_filters.
    destruct (is_starred a), (truthy (parent_id a)), (truthy (scheduled a)),
      (truthy (scheduled_before a) || truthy (scheduled_after a)),
      (truthy (due a)), (truthy (due_before a) || truthy (due_after a)),
      (truthy (contains a)); simpl;
      repeat first [rewrite dict_get_set_eq | rewrite dict_get_set_ne by discriminate];
      first [reflexivity | exact H3].
Qed.

(** X16. In every success response of [query_tasks], [total_tasks] is the
    length of the task list. *)
Theorem query_tasks_total_is_length a log r log' :
  query_tasks a log = (r, log') ->
  forall data summary endpoint calls dbg,
    r = Ok (create_simple_response (JDict data) summary endpoint calls dbg) ->
    exists l,
      dict_get data "tasks" = Some (JList l) /\
      dict_get data "total_tasks" = Some (JInt (Z.of_nat (length l))).
Proof.
  intros H data summary endpoint calls dbg Hr.
  apply query_tasks_inv in H as (resp & new & -> & -> & Hrun).
  inversion Hr; subst. inversion Hrun; subst.
  - exists []. split; reflexivity.
  - eexists. split; [apply query_result_tasks|apply query_result_total].
Qed.

(** X17. With the settings loaded, [query_tasks] sends no request exactly
    when the store is not configured, that is when the database name, the
    user or the password is empty or the URI is empty once its trailing
    slashes are removed. *)
Theorem query_tasks_sends_iff_configured a s log r log' :
  get_settings = Ok s ->
  query_tasks a log = (r, log') ->
  (log' = log <-> has_couchdb (client_of s) = false) /\
  (has_couchdb (client_of s) = false <->
   rstrip "/"%char (amazing_marvin_db_uri s) = "" \/
   amazing_marvin_db_name s = "" \/
   amazing_marvin_db_user s = "" \/
   amazing_marvin_db_password s = "").
Proof.
  intros Hs H. split.
  - apply query_tasks_inv in H as (resp & new & -> & -> & Hrun).
    assert (Hnew : (log ++ new)%list = log <-> new = []).
    { split; [|intros ->; apply app_nil_r].
      intros E. rewrite <- (app_nil_r log) in E at 2. now apply app_inv_head in E. }
    rewrite Hnew.
    inversion Hrun as [e He | s0 He Hc0 | s0 e He Hc0 Ht | s0 He Hc0 Ht
                      | s0 pre sel0 n e He Hc0 Hst
                      | s0 pre sel0 n docs tasks He Hc0 Hst Hf];
      subst; rewrite Hs in He; inversion He; subst.
    + split; auto.
    + split; intros E; [discriminate E|congruence].
    + split; intros E; [discriminate E|congruence].
    + split; intros E; [destruct pre; discriminate E|congruence].
    + split; intros E; [destruct pre; discriminate E|congruence].
  - pose proof (has_couchdb_client_of s) as Hiff.
    destruct (has_couchdb (client_of s)).
    + split; [discriminate|]. intros E. exfalso.
      destruct (proj1 Hiff eq_refl) as (H1 & H2 & H3 & H4).
      destruct E as [E|[E|[E|E]]]; contradiction.
    + split; [|reflexivity]. intros _.
      destruct (String.eqb_spec (rstrip "/"%char (amazing_marvin_db_uri s)) ""); [auto|].
      destruct (String.eqb_spec (amazing_marvin_db_name s) ""); [auto|].
      destruct (String.eqb_spec (amazing_marvin_db_user s) ""); [auto|].
      destruct (String.eqb_spec (amazing_marvin_db_password s) ""); [auto|].
      exfalso. assert (false = true) by (apply Hiff; auto). discriminate.
Qed.

(** Either [query_tasks] answers before the store query, having sent at
    most the label lookup, or it goes on with the store query once the
    label is dealt with. *)
Lemma query_tasks_stages a log r log' :
  query_tasks a log = (r, log') ->
  (exists resp new,
     r = Ok resp /\ log' = (log ++ new)%list /\
     Forall (fun q => sent_selector q = None) new) \/
  (exists s pre sel0 n,
     get_settings = Ok s /\ has_couchdb (client_of s) = true /\
     label_stage a (client_of s) pre sel0 n /\
     try_except (query_tasks_find a (client_of s) sel0 n)
       (fun e => ret (create_error_response e "CouchDB _find" (debug a)))
       (log ++ pre)%list = (r, log')).
Proof.
  unfold query_tasks. rewrite try_except_bind.
  unfold create_api_client at 1, bind at 1, lift at 1.
  destruct get_settings as [s|e] eqn:Hs.
  2:{ intros [= <- <-]. left. eexists _, []. rewrite app_nil_r.
      split; [reflexivity|]. split; [reflexivity|constructor]. }
  unfold ret at 1. fold (client_of s).
  destruct (has_couchdb (client_of s)) eqn:Hc; simpl negb; cbv iota.
  2:{ intros [= <- <-]. left. eexists _, []. rewrite app_nil_r.
      split; [reflexivity|]. split; [reflexivity|constructor]. }
  destruct (truthy (label a)) eqn:Hl.
  2:{ intros H. right. exists s, [], (selector_base a), 0. rewrite app_nil_r.
      split; [reflexivity|]. split; [exact Hc|].
      split; [now constructor|exact H]. }
  set (lreq := api_request (client_of s) GET "/labels" None).
  assert (Hone : Forall (fun q => sent_selector q = None) [lreq])
    by (constructor; [reflexivity|constructor]).
  rewrite try_except_bind. unfold get_labels.
  destruct (make_request_run (client_of s) GET "/labels" None log) as [x Hx].
  rewrite Hx. fold lreq. destruct x as [labels|e].
  2:{ intros [= <- <-]. left. eexists _, [lreq]. repeat split. exact Hone. }
  rewrite try_except_bind. unfold lift at 1.
  destruct (iter labels) as [lbs|e].
  2:{ intros [= <- <-]. left. eexists _, [lreq]. repeat split. exact Hone. }
  rewrite try_except_bind. unfold lift at 1.
  destruct (next_label lbs (the (label a))) as [label_match|e].
  2:{ intros [= <- <-]. left. eexists _, [lreq]. repeat split. exact Hone. }
  destruct (truthy_json label_match).
  2:{ intros [= <- <-]. left. eexists _, [lreq]. repeat split. exact Hone. }
  rewrite try_except_bind. unfold lift at 1.
  destruct (subscript label_match "_id") as [label_id|e].
  2:{ intros [= <- <-]. left. eexists _, [lreq]. repeat split. exact Hone. }
  intros H. right.
  exists s, [lreq],
    (dict_set (selector_base a) "labelIds"
       (JDict [("$elemMatch", JDict [("$eq", label_id)])])), 1.
  split; [reflexivity|]. split; [exact Hc|].
  split; [exact (LabelResolved a (client_of s) label_id Hl)|exact H].
Qed.

(** The store query whose request fails, is answered with an error status
    or with an object without [docs]. *)
Lemma query_tasks_find_failure a client sel0 n log :
  has_couchdb client = true ->
  let req := find_request client (selector_filters a sel0) (fields a) 500 in
  let run :=
    try_except (query_tasks_find a client sel0 n)
      (fun e => ret (create_error_response e "CouchDB _find" (debug a))) log in
  (upstream log req = Failed ->
   fst run = Ok (create_error_response RequestException "CouchDB _find" (debug a))) /\
  (forall st c,
     upstream log req = Responded (Response st c) -> 400 <= st < 600 ->
     fst run = Ok (create_error_response (HTTPError st) "CouchDB _find" (debug a))) /\
  (forall st o,
     upstream log req = Responded (Response st (JsonContent (JDict o))) ->
     ~ (400 <= st < 600) -> dict_get o "docs" = None ->
     fst run = Ok (create_error_response (KeyError "docs") "CouchDB _find" (debug a))).
Proof.
  intros Hc req run. unfold run, query_tasks_find.
  rewrite try_except_bind, (find_docs_eval _ _ _ _ _ Hc). fold req.
  split; [|split].
  - intros Hu. now rewrite Hu.
  - intros st c Hu Hst. rewrite Hu. simpl status_code.
    rewrite (proj2 (Z.leb_le 400 st)) by lia.
    now rewrite (proj2 (Z.ltb_lt st 600)) by lia.
  - intros st o Hu Hst Hd. rewrite Hu. simpl status_code. simpl resp_content.
    assert (E : (400 <=? st) && (st <? 600) = false).
    { destruct (Z.leb_spec 400 st), (Z.ltb_spec st 600); try reflexivity. lia. }
    rewrite E. cbn [subscript]. now rewrite Hd.
Qed.

(** X18. A failure of the store turns into an error response of
    [query_tasks], with or without a label to resolve first.  On every run
    that ends with a store query, that query is the only one sent; when
    its request fails the response carries the request error, when it is
    answered with an error status the response carries the [HTTPError] of
    that status, and when it is answered with a JSON object without [docs]
    the response carries the error of the missing key.  Without a label
    and with the store configured, the run does end with the store
    query. *)
Theorem query_tasks_store_failure a log r log' :
  query_tasks a log = (r, log') ->
  (forall pre req,
     log' = (log ++ pre ++ [req])%list -> sent_selector req <> None ->
     Forall (fun q => sent_selector q = None) pre /\
     (upstream (log ++ pre)%list req = Failed ->
      r = Ok (create_error_response RequestException "CouchDB _find" (debug a))) /\
     (forall st c,
        upstream (log ++ pre)%list req = Responded (Response st c) -> 400 <= st < 600 ->
        r = Ok (create_error_response (HTTPError st) "CouchDB _find" (debug a))) /\
     (forall st o,
        upstream (log ++ pre)%list req = Responded (Response st (JsonContent (JDict o))) ->
        ~ (400 <= st < 600) -> dict_get o "docs" = None ->
        r = Ok (create_error_response (KeyError "docs") "CouchDB _find" (debug a)))) /\
  (forall s,
     get_settings = Ok s -> has_couchdb (client_of s) = true ->
     truthy (label a) = false ->
     log' = (log ++ [find_request (client_of s)
                       (selector_filters a (selector_base a)) (fields a) 500])%list).
Proof.
  intros H. split.
  - intros pre req Hlog Hsel.
    destruct (query_tasks_stages a log r log' H)
      as [(resp & new & -> & Hnew & Hnone)|(s & pre0 & sel0 & n & Hs & Hc & Hst & Hq)].
    + exfalso. rewrite Hnew in Hlog. apply app_inv_head in Hlog. subst new.
      apply Forall_app in Hnone as [_ Hreq]. inversion Hreq; subst. contradiction.
    + destruct (query_tasks_find_run a s pre0 sel0 n (log ++ pre0)%list Hs Hc Hst)
        as (resp & Hrun & _).
      destruct (query_tasks_find_failure a (client_of s) sel0 n (log ++ pre0)%list Hc)
        as (Hf1 & Hf2 & Hf3).
      rewrite Hq in Hrun, Hf1, Hf2, Hf3. cbn [fst] in Hf1, Hf2, Hf3.
      inversion Hrun as [[Hr Hl']]. rewrite Hlog in Hl'.
      rewrite <- app_assoc in Hl'. apply app_inv_head in Hl'.
      apply app_inj_tail in Hl'. destruct Hl' as [-> ->]. rewrite <- Hr.
      split; [|split; [exact Hf1|split; [exact Hf2|exact Hf3]]].
      apply List.Forall_forall. intros q Hin.
      apply (proj1 (label_stage_inv _ _ _ _ _ q Hst)), Hin.
  - intros s Hs Hc Hl.
    destruct (query_tasks_find_run a s [] (selector_base a) 0 log Hs Hc
                (NoLabelArg a (client_of s) Hl)) as (resp & Hrun & _).
    assert (Hq : query_tasks a log =
                 try_except (query_tasks_find a (client_of s) (selector_base a) 0)
                   (fun e => ret (create_error_response e "CouchDB _find" (debug a))) log).
    { unfold query_tasks. start_tool Hs s. now rewrite Hc, Hl. }
    rewrite Hq, Hrun in H. now inversion H.
Qed.

(** ** Further properties: projection, completed items, the store URI *)

Lemma project_idempotent fs task : project fs (project fs task) = project fs task.
Proof.
  unfold project. induction task as [|[k v] task IH]; [reflexivity|].
  rewrite filter_cons. simpl. destruct (decide (k ∈ fs)) as [Hin|Hin]; [|exact IH].
  rewrite filter_cons. simpl. destruct (decide (k ∈ fs)); [|contradiction].
  now rewrite IH.
Qed.

Lemma project_In fs task k v :
  In (k, v) (project fs task) <-> In (k, v) task /\ k ∈ fs.
Proof.
  unfold project. rewrite <- !list_elem_of_In, list_elem_of_filter. simpl. tauto.
Qed.

(** X19. The projection of a task on a field list keeps exactly the entries
    whose key is in the list or is ["_id"], with their values and in their
    order, and projecting twice is projecting once. *)
Theorem project_spec fl task :
  (forall k, In k fl \/ k = "_id" ->
     dict_get (project (field_set fl) task) k = dict_get task k) /\
  (forall k, ~ (In k fl \/ k = "_id") ->
     dict_get (project (field_set fl) task) k = None) /\
  (forall k v, In (k, v) (project (field_set fl) task) <->
     In (k, v) task /\ (In k fl \/ k = "_id")) /\
  project (field_set fl) (project (field_set fl) task) = project (field_set fl) task.
Proof.
  repeat apply conj.
  - intros k Hk. rewrite project_get.
    destruct (decide (k ∈ field_set fl)) as [|Hn]; [reflexivity|].
    exfalso. apply Hn. now apply field_set_member.
  - intros k Hk. rewrite project_get.
    destruct (decide (k ∈ field_set fl)) as [Hin|]; [|reflexivity].
    exfalso. apply Hk. now apply field_set_member.
  - intros k v. rewrite project_In, field_set_member. tauto.
  - apply project_idempotent.
Qed.

Lemma project_tasks_fail fs tasks :
  (exists x, In x tasks /\ ~ is_dict x) -> project_tasks fs tasks = Raise AttributeError.
Proof.
  induction tasks as [|y tasks IH]; intros (x & Hin & Hx); [destruct Hin|].
  destruct y as [| | | | |d]; try reflexivity. simpl.
  destruct Hin as [<-|Hin]; [exfalso; apply Hx; now exists d|].
  now rewrite IH by eauto.
Qed.

(** X20. With a non-empty field list, [get_all_tasks] replaces the tasks of
    the traversal result by their projections, one per task and in the same
    order, and leaves every other entry of the result as it is, the
    reported number of calls included; if one entry of the task list is not
    a dictionary, the whole call answers with an error response. *)
Theorem get_all_tasks_projection label fl dbg s result log log1 :
  get_settings = Ok s ->
  get_all_tasks_impl (client_of s) label log = (Ok result, log1) ->
  fl <> [] ->
  (forall ts, dict_get result "tasks" = Some (JList (map JDict ts)) ->
     exists data summary,
       get_all_tasks label (Some fl) dbg log =
         (Ok (create_simple_response (JDict data) summary "/categories + /children"
                (dict_get_or result "api_calls_made" (JInt 5)) dbg), log1) /\
       dict_get data "tasks" =
         Some (JList (map (fun t => JDict (project (field_set fl) t)) ts)) /\
       forall k, k <> "tasks" -> k <> "fields_returned" ->
                 dict_get data k = dict_get result k) /\
  (forall l, dict_get result "tasks" = Some (JList l) ->
     (exists x, In x l /\ ~ is_dict x) ->
     get_all_tasks label (Some fl) dbg log =
       (Ok (create_error_response AttributeError "/categories + /children" dbg), log1)).
Proof.
  intros Hs Hi Hne.
  assert (Ht : truthy_list (Some fl) = true) by (destruct fl; [contradiction|reflexivity]).
  split.
  - intros ts Hts. rewrite get_all_tasks_run, Hs, Hi.
    assert (Hp : project_result (Some fl) result =
                 Ok (dict_set
                       (dict_set result "tasks"
                          (JList (map (fun t => JDict (project (field_set fl) t)) ts)))
                       "fields_returned" (JList (map JStr (sorted_fields fl))))).
    { unfold project_result, dict_mem, dict_get_or. rewrite Ht, Hts. cbn [andb iter the_list].
      now rewrite project_tasks_dicts. }
    rewrite Hp. eexists _, _. split.
    + unfold dict_get_or at 2. rewrite dict_get_set_ne by discriminate.
      assert (E : dict_get (dict_set result "tasks"
                    (JList (map (fun t => JDict (project (field_set fl) t)) ts)))
                    "api_calls_made" = dict_get result "api_calls_made")
        by now rewrite dict_get_set_ne by discriminate.
      rewrite E. reflexivity.
    + split.
      * rewrite dict_get_set_ne by discriminate. apply dict_get_set_eq.
      * intros k H1 H2. now rewrite !dict_get_set_ne by congruence.
  - intros l Hl Hx. rewrite get_all_tasks_run, Hs, Hi.
    assert (Hp : project_result (Some fl) result = Raise AttributeError).
    { unfold project_result, dict_mem, dict_get_or. rewrite Ht, Hl. cbn [andb iter the_list].
      now rewrite project_tasks_fail. }
    now rewrite Hp.
Qed.

Lemma make_request_eval self method endpoint data log :
  let req := api_request self method endpoint data in
  _make_request self method endpoint data log =
    match upstream log req with
    | Failed => (Raise RequestException, (log ++ [req])%list)
    | Responded resp =>
        if (400 <=? status_code resp) && (status_code resp <? 600)
        then (Raise (HTTPError (status_code resp)), (log ++ [req])%list)
        else if (status_code resp =? 204)
                || match resp_content resp with NoContent => true | _ => false end
        then (Ok (JDict []), (log ++ [req])%list)
        else match resp_content resp with
             | JsonContent j => (Ok j, (log ++ [req])%list)
             | _ => (Raise JSONDecodeError, (log ++ [req])%list)
             end
    end.
Proof.
  intros req. unfold req, _make_request, api_request, bind, send.
  destruct method; simpl;
    (match goal with |- context [upstream log ?r] => destruct (upstream log r) as [resp|] end;
     [|reflexivity]);
    unfold raise_for_status, raise, ret, response_json;
    destruct ((400 <=? status_code resp) && (status_code resp <? 600));
    try reflexivity;
    destruct (status_code resp =? 204); simpl; try reflexivity;
    now destruct (resp_content resp).
Qed.

(** X21. When the done-items request is answered without content,
    [get_completed_tasks_for_date] answers with a success response that
    reports nothing completed: no group, no unassigned item, every count
    zero. *)
Theorem completed_for_date_empty_reply s date dbg log st :
  get_settings = Ok s ->
  let req := api_request (client_of s) GET
               (if String.eqb date "" then "/doneItems" else "/doneItems?date=" ++ date)
               None in
  upstream log req = Responded (Response st NoContent) ->
  ~ (400 <= st < 600) ->
  get_completed_tasks_for_date date dbg log =
    (Ok (create_simple_response
           {| date := date; total_completed := 0; completed_by_project := [];
              unassigned_completed := []; project_count := 0; unassigned_count := 0;
              all_completed := JDict [];
              source := "Efficiently filtered from /doneItems?date=" ++ date |}
           ("Retrieved " ++ str_json (JInt 0) ++ " completed tasks for " ++ date)
           "/doneItems" (JInt 1) dbg), (log ++ [req])%list).
Proof.
  intros Hs req Hu Hst.
  assert (Hg : get_done_items (client_of s) (Some date) log =
               (Ok (JDict []), (log ++ [req])%list)).
  { unfold get_done_items. cbn [truthy the].
    assert (He : (if negb (String.eqb date "") then "/doneItems" ++ "?date=" ++ date
                  else "/doneItems") =
                 (if String.eqb date "" then "/doneItems" else "/doneItems?date=" ++ date))
      by now destruct (String.eqb date "").
    rewrite He, make_request_eval. fold req. rewrite Hu. cbn [status_code resp_content].
    assert (E : (400 <=? st) && (st <? 600) = false).
    { destruct (Z.leb_spec 400 st), (Z.ltb_spec st 600); try reflexivity. lia. }
    rewrite E. now rewrite orb_true_r. }
  unfold get_completed_tasks_for_date. start_tool Hs s.
  rewrite try_except_bind, Hg. reflexivity.
Qed.

Lemma group_items_app l1 l2 bp un :
  group_items (l1 ++ l2) bp un =
    match group_items l1 bp un with
    | Ok (bp', un') => group_items l2 bp' un'
    | Raise e => Raise e
    end.
Proof.
  revert bp un. induction l1 as [|x l1 IH]; intros bp un; [reflexivity|].
  simpl. destruct (get_or x "parentId" (JStr "unassigned")) as [p|e]; [|reflexivity].
  destruct (eq_str p "unassigned"); [apply IH|].
  destruct (hashable p); [apply IH|reflexivity].
Qed.

(** X22. A completed item whose [parentId] is a list or an object cannot
    be grouped: when such an item follows well-formed items,
    [get_completed_tasks_for_date] answers with the error response of the
    type error, and no items are returned. *)
Theorem completed_for_date_unhashable_parent s date dbg pre d post log log1 :
  get_settings = Ok s ->
  get_done_items (client_of s) (Some date) log =
    (Ok (JList (pre ++ JDict d :: post)), log1) ->
  Forall well_formed_item pre ->
  hashable (parent_of (JDict d)) = false ->
  get_completed_tasks_for_date date dbg log =
    (Ok (create_error_response TypeError "/doneItems" dbg), log1).
Proof.
  intros Hs Hg Hpre Hh.
  assert (Hok0 : groups_ok []) by (split; [exact I|constructor]).
  destruct (group_items_spec pre Hpre [] [] Hok0) as (bp' & H1 & _).
  assert (Hu : eq_str (parent_of (JDict d)) "unassigned" = false).
  { destruct (parent_of (JDict d)); try reflexivity; discriminate Hh. }
  assert (Hgr : group_items (pre ++ JDict d :: post) [] [] = Raise TypeError).
  { rewrite group_items_app, H1. cbn [group_items get_or].
    change (dict_get_or d "parentId" (JStr "unassigned")) with (parent_of (JDict d)).
    now rewrite Hu, Hh. }
  unfold get_completed_tasks_for_date. start_tool Hs s.
  rewrite try_except_bind, Hg, try_except_bind. unfold lift at 1. cbn [iter].
  rewrite try_except_bind. unfold lift at 1. now rewrite Hgr.
Qed.

Lemma rstrip_app c s : rstrip c (s ++ String c "") = rstrip c s.
Proof.
  induction s as [|a s IH]; simpl.
  - now rewrite Ascii.eqb_refl.
  - now rewrite IH.
Qed.

Lemma rstrip_no_trailing c s p : rstrip c s <> p ++ String c "".
Proof.
  revert p. induction s as [|a s IH]; intros p; simpl.
  - destruct p; discriminate.
  - destruct (rstrip c s) as [|b r] eqn:E.
    + destruct (Ascii.eqb_spec a c) as [->|Hne]; [destruct p; discriminate|].
      destruct p as [|a' p]; simpl; [intros [= Hac]; contradiction|].
      destruct p; discriminate.
    + destruct p as [|a' p]; simpl; [discriminate|].
      intros [= -> Hr]. now apply (IH p).
Qed.

(** X23. Trailing slashes of the configured store URI never reach the URL
    of the store query: the URI with one more slash gives the same client,
    the URI kept by the client does not end with a slash, and with the
    store configured [find_docs] posts its one request to the stripped
    URI, a slash, the database name and [/_find]. *)
Theorem db_uri_trailing_slashes k t uri nm usr pw :
  MarvinAPIClient_init k t (uri ++ "/") nm usr pw = MarvinAPIClient_init k t uri nm usr pw /\
  (forall p, _db_uri (MarvinAPIClient_init k t uri nm usr pw) <> p ++ "/") /\
  (forall selector fields limit log,
     has_couchdb (MarvinAPIClient_init k t uri nm usr pw) = true ->
     exists r req,
       find_docs (MarvinAPIClient_init k t uri nm usr pw) selector fields limit log =
         (r, (log ++ [req])%list) /\
       req_url req = rstrip "/"%char uri ++ "/" ++ nm ++ "/_find" /\
       find_docs (MarvinAPIClient_init k t (uri ++ "/") nm usr pw) selector fields limit log =
         (r, (log ++ [req])%list)).
Proof.
  assert (Hu : forall u, (if negb (String.eqb u "") then rstrip "/"%char u else "") =
                         rstrip "/"%char u).
  { intros u. destruct (String.eqb_spec u "") as [->|]; reflexivity. }
  assert (Hsame : MarvinAPIClient_init k t (uri ++ "/") nm usr pw =
                  MarvinAPIClient_init k t uri nm usr pw).
  { unfold MarvinAPIClient_init. rewrite !Hu. now rewrite rstrip_app. }
  repeat apply conj.
  - exact Hsame.
  - intros p. unfold MarvinAPIClient_init. cbn [_db_uri]. rewrite Hu.
    apply rstrip_no_trailing.
  - intros selector fields limit log Hc.
    destruct (find_docs_run _ selector fields limit log Hc) as [r Hr].
    exists r, (find_request (MarvinAPIClient_init k t uri nm usr pw) selector fields limit).
    split; [exact Hr|]. split; [|now rewrite Hsame].
    unfold find_request, MarvinAPIClient_init.
    cbn [req_url _db_uri _db_name]. now rewrite Hu.
Qed.

End World.

(** ** The statements at work in the sample world *)

Lemma query_tasks_date_clauses_witness :
  snd (query_tasks sample_upstream (Ok sample_settings) sample_lower sample_re_escape
         sample_str_json sample_due_query []) =
    [find_request sample_client sample_due_selector None 500] /\
  dict_get sample_due_selector "dueDate" = Some (JStr "2025-06-13") /\
  dict_get sample_due_selector "day" =
    Some (range_clause (Some "2025-07-01") (Some "2025-06-01")).
Proof.
  pose proof (query_tasks_date_clauses sample_upstream (Ok sample_settings)
                sample_lower sample_re_escape sample_str_json sample_due_query [] _ _
                ltac:(vm_compute; reflexivity)) as (new & Hnew & H).
  split; [vm_compute; reflexivity|].
  destruct (H (find_request sample_client sample_due_selector None 500)
              sample_due_selector) as (sel0 & _ & Hdue & _ & _ & Hday).
  - vm_compute in Hnew. inversion Hnew. now left.
  - reflexivity.
  - split.
    + apply (Hdue "2025-06-13"); [reflexivity|discriminate].
    + apply Hday; reflexivity.
Defined.

Lemma query_tasks_unknown_label_witness :
  get_labels sample_upstream sample_client [] =
    (Ok (JList sample_labels), [api_request sample_client GET "/labels" None]) /\
  query_tasks sample_upstream (Ok sample_settings) sample_lower sample_re_escape
    sample_str_json sample_label_query [] =
    (Ok (create_simple_response
           (JDict [("tasks", JList []); ("total_tasks", JInt 0)])
           "No label found matching 'Errands'" "CouchDB _find" (JInt 1) false),
     [api_request sample_client GET "/labels" None]).
Proof.
  assert (Hg : get_labels sample_upstream sample_client [] =
               (Ok (JList sample_labels), [api_request sample_client GET "/labels" None]))
    by (vm_compute; reflexivity).
  split; [exact Hg|].
  refine (proj1 (query_tasks_unknown_label sample_upstream (Ok sample_settings)
                   sample_lower sample_re_escape sample_str_json sample_label_query
                   sample_settings "Errands" (JList sample_labels) sample_labels [] _
                   eq_refl _ eq_refl _ Hg eq_refl _)).
  - reflexivity.
  - discriminate.
  - constructor; [|constructor].
    exists [("_id", JStr "l1"); ("title", JStr "Work")], "Work".
    repeat split. vm_compute. discriminate.
Defined.

Lemma query_tasks_filters_returned_types_example :
  query_tasks sample_upstream (Ok sample_settings) sample_lower sample_re_escape
    sample_str_json no_filter [] =
    (Ok sample_response, [find_request sample_client (selector_base no_filter) None 500]) /\
  exists l,
    JList [sample_task; sample_done_task] = JList l /\
    Forall (fun d => ~ is_container d) l.
Proof.
  assert (Hrun : query_tasks sample_upstream (Ok sample_settings) sample_lower
                   sample_re_escape sample_str_json no_filter [] =
                 (Ok sample_response,
                  [find_request sample_client (selector_base no_filter) None 500]))
    by (vm_compute; reflexivity).
  split; [exact Hrun|].
  destruct (query_tasks_filters_returned_types _ _ _ _ _ _ _ _ _ Hrun)
    as [(resp & [= <-] & H) _].
  apply (H _ _ _ _ _ _ eq_refl eq_refl).
Defined.

(** Asked for the titles only, the store path hands out the project [p1] as
    a task. *)
Lemma query_tasks_keeps_projected_containers_witness :
  In [("_id", JStr "p1"); ("db", JStr "Tasks"); ("title", JStr "Home");
      ("type", JStr "project"); ("done", JBool false)] sample_stored /\
  exists data summary,
    query_tasks sample_upstream3 (Ok sample_settings) sample_lower sample_re_escape
      sample_str_json sample_title_query [] =
      (Ok (create_simple_response (JDict data) summary "CouchDB _find" (JInt 1) false),
       [find_request sample_client (selector_base sample_title_query)
          (Some ["title"]) 500]) /\
    dict_get data "tasks" =
      Some (JList [JDict [("_id", JStr "t1"); ("title", JStr "Pay rent")];
                   JDict [("_id", JStr "p1"); ("title", JStr "Home")]]) /\
    dict_get data "total_tasks" = Some (JInt 2).
Proof.
  split; [right; left; reflexivity|].
  destruct (query_tasks_keeps_projected_containers sample_upstream3 (Ok sample_settings)
              sample_lower sample_re_escape sample_str_json sample_title_query
              sample_settings ["title"] sample_stored []
              eq_refl eq_refl eq_refl eq_refl ltac:(discriminate)
              ltac:(intros [E|[]]; discriminate E)
              ltac:(vm_compute; reflexivity))
    as (data & summary & Hrun & Ht & Hn & _).
  exists data, summary. split; [exact Hrun|]. split; [|exact Hn].
  rewrite Ht. vm_compute. reflexivity.
Defined.

Lemma query_tasks_requires_credentials_witness :
  credential_value sample_settings_no_password DB_PASSWORD = "" /\
  query_tasks sample_upstream (Ok sample_settings_no_password) sample_lower
    sample_re_escape sample_str_json no_filter [] =
    (Ok (create_error_response (ValueError query_tasks_error) "CouchDB _find" false), []) /\
  find_docs sample_upstream (client_of sample_settings_no_password)
    (selector_base no_filter) None 500 [] =
    (Raise (ValueError find_docs_error), []).
Proof.
  split; [reflexivity|].
  destruct (query_tasks_requires_credentials sample_upstream
              (Ok sample_settings_no_password) sample_lower sample_re_escape
              sample_str_json no_filter sample_settings_no_password [] eq_refl
              (ex_intro _ DB_PASSWORD eq_refl)) as (H1 & _ & _ & H2 & _).
  split; [exact H1|apply H2].
Defined.

(** The error text names the store URI although the URI is configured: it
    does not tell which settings are missing. *)
Lemma query_tasks_error_names_configured_settings :
  query_tasks sample_upstream (Ok sample_settings_no_password) sample_lower
    sample_re_escape sample_str_json no_filter [] =
    (Ok (create_error_response (ValueError query_tasks_error) "CouchDB _find" false), []) /\
  ~ (forall c, names_setting query_tasks_error c = true <->
               credential_value sample_settings_no_password c = "").
Proof.
  split; [vm_compute; reflexivity|].
  intros H. specialize (H DB_URI). destruct H as [H _].
  specialize (H eq_refl). discriminate H.
Defined.


Lemma query_tasks_done_clause_witness :
  snd (query_tasks sample_upstream (Ok sample_settings) sample_lower sample_re_escape
         sample_str_json sample_done_query []) =
    [find_request sample_client [("db", JStr "Tasks")] None 500] /\
  dict_get [("db", JStr "Tasks")] "done" = None /\
  In sample_done_task [sample_task; sample_done_task].
Proof.
  pose proof (query_tasks_done_clause sample_upstream (Ok sample_settings)
                sample_lower sample_re_escape sample_str_json sample_done_query [] _ _
                ltac:(vm_compute; reflexivity)) as [(new & Hnew & H) Hkeep].
  split; [vm_compute; reflexivity|]. split.
  - apply (H (find_request sample_client [("db", JStr "Tasks")] None 500)).
    + vm_compute in Hnew. inversion Hnew. now left.
    + reflexivity.
  - apply (Hkeep [sample_task; sample_project; sample_done_task]
             [sample_task; sample_done_task]
             [("_id", JStr "t2"); ("title", JStr "Call bank"); ("done", JBool true);
              ("parentId", JStr "p1")]).
    + reflexivity.
    + right; right; now left.
    + reflexivity.
    + intros (o & [= <-] & [H0|H0]); discriminate H0.
Defined.

Lemma completed_tasks_partition_witness :
  Forall well_formed_item sample_done_items /\
  exists res summary,
    get_completed_tasks_for_date sample_upstream (Ok sample_settings) sample_str_json
      "2025-06-13" false [] =
      (Ok (create_simple_response res summary "/doneItems" (JInt 1) false),
       [api_request sample_client GET "/doneItems?date=2025-06-13" None]) /\
    unassigned_completed res = [sample_inbox_task; sample_unassigned_task] /\
    completed_by_project res =
      [(JStr "p1", [sample_done_task]); (JStr "p2", [sample_other_task])] /\
    total_completed res = 4 /\
    total_completed res =
      unassigned_count res + Z.of_nat (sizes (completed_by_project res)).
Proof.
  assert (Hwf : Forall well_formed_item sample_done_items).
  { repeat constructor; eexists; reflexivity. }
  split; [exact Hwf|].
  destruct (completed_tasks_partition sample_upstream (Ok sample_settings)
              sample_str_json "2025-06-13" false sample_settings sample_done_items []
              [api_request sample_client GET "/doneItems?date=2025-06-13" None]
              eq_refl ltac:(vm_compute; reflexivity) Hwf)
    as (res & summary & Hrun & _ & Hun & _ & _ & Htot & _ & _ & Hsum).
  exists res, summary. split; [exact Hrun|].
  split; [rewrite Hun; reflexivity|].
  split; [|split; [rewrite Htot; reflexivity|exact Hsum]].
  vm_compute in Hrun. inversion Hrun. reflexivity.
Defined.

Lemma get_children_not_found_witness :
  get_children sample_upstream sample_client "cat1" [] =
    (Ok (JList []), [api_request sample_client GET "/children?parentId=cat1" None]) /\
  get_children sample_upstream sample_client "p1" [] =
    (Raise (HTTPError 500), [api_request sample_client GET "/children?parentId=p1" None]).
Proof.
  split.
  - apply (proj1 (get_children_not_found sample_upstream sample_client "cat1" [])
             NoContent).
    reflexivity.
  - apply (proj1 (proj2 (get_children_not_found sample_upstream sample_client "p1" []))
             500 NoContent); [reflexivity|lia|discriminate].
Defined.

Lemma empty_fields_is_no_projection_witness :
  query_tasks sample_upstream (Ok sample_settings) sample_lower sample_re_escape
    sample_str_json (with_fields no_filter (Some [])) [] =
    (Ok sample_response, [find_request sample_client (selector_base no_filter) None 500]).
Proof.
  destruct (empty_fields_is_no_projection sample_upstream (Ok sample_settings)
              sample_lower sample_re_escape sample_str_json sample_impl)
    as (_ & _ & H).
  destruct (H no_filter []) as [-> _].
  vm_compute. reflexivity.
Defined.

Lemma batch_mark_done_attempts_all_witness :
  batch_mark_done sample_upstream (Ok sample_settings) sample_str_exn sample_str_json
    ["t1"; "bad"; "t3"] false [] =
    (Ok sample_batch_response,
     [mark_request sample_client "t1"; mark_request sample_client "bad";
      mark_request sample_client "t3"]).
Proof.
  destruct (batch_mark_done_attempts_all sample_upstream (Ok sample_settings)
              sample_str_exn sample_str_json ["t1"; "bad"; "t3"] false
              sample_settings [] eq_refl) as (H & _).
  rewrite H. vm_compute. reflexivity.
Defined.

(** ** The further statements at work in the sample world *)

Lemma doc_tools_require_token_witness :
  amazing_marvin_full_access_token sample_settings = "" /\
  read_doc_tool sample_upstream2 (Ok sample_settings) "t1" false [] =
    (Ok (create_error_response (ValueError full_access_error) "/doc" false), []) /\
  delete_doc_tool sample_upstream2 (Ok sample_settings) "t1" false [] =
    (Ok (create_error_response (ValueError full_access_error) "/doc/delete" false), []).
Proof.
  split; [reflexivity|].
  destruct (doc_tools_require_token sample_upstream2 (Ok sample_settings)
              sample_settings "t1" [] [] false [] eq_refl eq_refl) as (H1 & _ & _ & H4).
  split; [exact H1|exact H4].
Defined.

Lemma get_projects_spec_witness :
  get_projects sample_upstream2 sample_client [] =
    (Ok [sample_project], [api_request sample_client GET "/categories" None]).
Proof.
  destruct (get_projects_spec sample_upstream2 sample_client
              (JList [sample_project; sample_category]) [sample_project; sample_category]
              [] [api_request sample_client GET "/categories" None]
              ltac:(vm_compute; reflexivity) eq_refl) as (_ & H & _).
  apply H. repeat constructor; eexists; reflexivity.
Defined.

Lemma tracked_item_never_false_witness :
  api_get_currently_tracked_item sample_upstream2 sample_client [] =
    (Ok no_tracked_item, [api_request sample_client GET "/trackedItem" None]) /\
  truthy_json no_tracked_item = true.
Proof.
  assert (H : api_get_currently_tracked_item sample_upstream2 sample_client [] =
              (Ok no_tracked_item, [api_request sample_client GET "/trackedItem" None]))
    by (vm_compute; reflexivity).
  split; [exact H|].
  destruct (tracked_item_never_false _ _ _ _ _ H) as (_ & Ht & _).
  now apply Ht.
Defined.

Lemma tracked_item_summary_witness :
  get_currently_tracked_item sample_upstream2 (Ok sample_settings) false [] =
    (Ok (create_simple_response (JDict [("tracked_item", no_tracked_item)])
           "No task currently being tracked" "/me/currentlyTrackedItem" (JInt 1) false),
     [api_request sample_client GET "/trackedItem" None]).
Proof.
  destruct (tracked_item_summary sample_upstream2 (Ok sample_settings) sample_settings
              (JDict []) [] [api_request sample_client GET "/trackedItem" None] false
              eq_refl ltac:(vm_compute; reflexivity)) as (H & _).
  now apply H.
Defined.

Lemma create_task_fixes_parent_witness :
  create_task sample_upstream2 (Ok sample_settings_full) "Buy milk"
    (Some "p1") (Some "c1") None None false [] =
    (Ok (create_simple_response
           (JDict [("created_task",
                    JDict [("_id", JStr "new1"); ("title", JStr "Buy milk");
                           ("parentId", JStr "p1")])])
           "Created task: Buy milk" "/addTask" (JInt 2) false),
     [api_request sample_client_full POST "/addTask"
        (Some (JDict [("title", JStr "Buy milk"); ("parentId", JStr "p1");
                      ("categoryId", JStr "c1")]));
      fix_parent_request sample_client_full (JStr "new1") "p1"]).
Proof.
  refine (proj1 (create_task_fixes_parent sample_upstream2 (Ok sample_settings_full)
                   "Buy milk" (Some "p1") (Some "c1") None None false
                   sample_settings_full sample_created (JStr "new1") "p1"
                   (JDict [("ok", JBool true)]) [] _ _
                   eq_refl _ eq_refl _ eq_refl eq_refl _ _)).
  - vm_compute. reflexivity.
  - discriminate.
  - discriminate.
  - vm_compute. reflexivity.
Defined.

Lemma create_task_without_fix_witness :
  create_task sample_upstream2 (Ok sample_settings) "Buy milk" None None None None false [] =
    (Ok (create_simple_response (JDict [("created_task", JDict sample_created)])
           "Created task: Buy milk" "/addTask" (JInt 1) false),
     [api_request sample_client POST "/addTask" (Some (JDict [("title", JStr "Buy milk")]))]).
Proof.
  destruct (create_task_without_fix sample_upstream2 (Ok sample_settings)
              "Buy milk" None None None None false sample_settings sample_created []
              [api_request sample_client POST "/addTask"
                 (Some (JDict [("title", JStr "Buy milk")]))]
              eq_refl ltac:(vm_compute; reflexivity)) as (H & _).
  apply H. now left.
Defined.

Lemma create_task_fix_needs_token_witness :
  create_task sample_upstream2 (Ok sample_settings) "Buy milk"
    None (Some "c1") None None false [] =
    (Ok (create_error_response (ValueError full_access_error) "/addTask" false),
     [api_request sample_client POST "/addTask"
        (Some (JDict [("title", JStr "Buy milk"); ("categoryId", JStr "c1")]))]).
Proof.
  refine (create_task_fix_needs_token sample_upstream2 (Ok sample_settings)
            "Buy milk" None (Some "c1") None None false sample_settings sample_created
            (JStr "new1") "c1" [] _ eq_refl eq_refl _ eq_refl _ eq_refl eq_refl _).
  - vm_compute. reflexivity.
  - discriminate.
  - discriminate.
Defined.

Lemma get_child_tasks_partition_witness :
  get_child_tasks sample_upstream2 (Ok sample_settings) sample_str_json sample_recursive
    "root" false false [] =
    (Ok (create_simple_response
           (JDict [("parent_id", JStr "root");
                   ("total_children", JInt 3);
                   ("tasks", JList [sample_task; sample_category]);
                   ("projects", JList [sample_project]);
                   ("task_count", JInt 2);
                   ("project_count", JInt 1);
                   ("all_children", JList [sample_task; sample_project; sample_category]);
                   ("recursive", JBool false)])
           "Retrieved 3 child items for parent root" "/children" (JInt 1) false),
     [api_request sample_client GET "/children?parentId=root" None]).
Proof.
  refine (proj1 (get_child_tasks_partition sample_upstream2 (Ok sample_settings)
                   sample_str_json sample_recursive sample_settings "root" false
                   [sample_task; sample_project; sample_category] [] _ eq_refl _ _)).
  - vm_compute. reflexivity.
  - repeat constructor; eexists; reflexivity.
Defined.

Lemma get_child_tasks_not_found_witness :
  get_child_tasks sample_upstream2 (Ok sample_settings) sample_str_json sample_recursive
    "cat1" false false [] =
    (Ok (create_simple_response
           (JDict [("parent_id", JStr "cat1");
                   ("total_children", JInt 0);
                   ("tasks", JList []);
                   ("projects", JList []);
                   ("task_count", JInt 0);
                   ("project_count", JInt 0);
                   ("all_children", JList []);
                   ("recursive", JBool false)])
           "Retrieved 0 child items for parent cat1" "/children" (JInt 1) false),
     [api_request sample_client GET "/children?parentId=cat1" None]).
Proof.
  apply (get_child_tasks_not_found sample_upstream2 (Ok sample_settings)
           sample_str_json sample_recursive sample_settings "cat1" false [] NoContent
           eq_refl).
  reflexivity.
Defined.

Lemma query_tasks_label_resolved_witness :
  exists resp,
    query_tasks sample_upstream2 (Ok sample_settings) sample_lower sample_re_escape
      sample_str_json sample_work_query [] =
      (Ok resp,
       [api_request sample_client GET "/labels" None;
        find_request sample_client sample_work_selector None 500]) /\
    forall data summary endpoint calls dbg,
      resp = create_simple_response (JDict data) summary endpoint calls dbg ->
      calls = JInt 2 /\ dict_get data "label_filter" = Some (JStr "work").
Proof.
  destruct (query_tasks_label_resolved sample_upstream2 (Ok sample_settings)
              sample_lower sample_re_escape sample_str_json sample_work_query
              sample_settings "work"
              (JList [JDict [("title", JStr "Home")];
                      JDict [("_id", JStr "l1"); ("title", JStr "Work")]])
              [JDict [("title", JStr "Home")]]
              [("_id", JStr "l1"); ("title", JStr "Work")] "Work" (JStr "l1") []
              [] [api_request sample_client GET "/labels" None])
    as (resp & Hrun & _ & _ & Hshape); try reflexivity.
  - discriminate.
  - constructor; [|constructor].
    exists [("title", JStr "Home")], "Home". repeat split. vm_compute. discriminate.
  - exists resp. split; [exact Hrun|exact Hshape].
Defined.

Lemma query_tasks_label_without_id_witness :
  query_tasks sample_upstream2 (Ok sample_settings) sample_lower sample_re_escape
    sample_str_json sample_home_query [] =
    (Ok (create_error_response (KeyError "_id") "CouchDB _find" false),
     [api_request sample_client GET "/labels" None]).
Proof.
  refine (proj1 (query_tasks_label_without_id sample_upstream2 (Ok sample_settings)
                   sample_lower sample_re_escape sample_str_json sample_home_query
                   sample_settings "home"
                   (JList [JDict [("title", JStr "Home")];
                           JDict [("_id", JStr "l1"); ("title", JStr "Work")]])
                   [] [("title", JStr "Home")] "Home"
                   [JDict [("_id", JStr "l1"); ("title", JStr "Work")]]
                   [] [api_request sample_client GET "/labels" None]
                   eq_refl eq_refl eq_refl _ _ eq_refl _ eq_refl eq_refl eq_refl)).
  - discriminate.
  - vm_compute. reflexivity.
  - constructor.
Defined.

Lemma query_tasks_selector_clauses_witness :
  snd (query_tasks sample_upstream2 (Ok sample_settings) sample_lower sample_re_escape
         sample_str_json sample_starred_query []) =
    [find_request sample_client sample_starred_selector None 500] /\
  dict_get sample_starred_selector "db" = Some (JStr "Tasks") /\
  dict_get sample_starred_selector "isStarred" = Some (JInt 1) /\
  dict_get sample_starred_selector "parentId" = Some (JStr "p1").
Proof.
  pose proof (query_tasks_selector_clauses sample_upstream2 (Ok sample_settings)
                sample_lower sample_re_escape sample_str_json sample_starred_query [] _ _
                ltac:(vm_compute; reflexivity)) as (new & Hnew & H).
  split; [vm_compute; reflexivity|].
  destruct (H (find_request sample_client sample_starred_selector None 500)
              sample_starred_selector) as (H1 & H2 & H3 & _).
  - vm_compute in Hnew. inversion Hnew. now left.
  - reflexivity.
  - split; [exact H1|]. split; [exact H2|exact H3].
Defined.

Lemma query_tasks_total_is_length_witness :
  query_tasks sample_upstream (Ok sample_settings) sample_lower sample_re_escape
    sample_str_json no_filter [] =
    (Ok sample_response, [find_request sample_client (selector_base no_filter) None 500]) /\
  exists l,
    JList [sample_task; sample_done_task] = JList l /\ JInt 2 = JInt (Z.of_nat (length l)).
Proof.
  assert (Hrun : query_tasks sample_upstream (Ok sample_settings) sample_lower
                   sample_re_escape sample_str_json no_filter [] =
                 (Ok sample_response,
                  [find_request sample_client (selector_base no_filter) None 500]))
    by (vm_compute; reflexivity).
  split; [exact Hrun|].
  destruct (query_tasks_total_is_length _ _ _ _ _ _ _ _ _ Hrun _ _ _ _ _ eq_refl)
    as (l & Hl1 & Hl2).
  exists l. simpl in Hl1, Hl2. split; congruence.
Defined.

Lemma query_tasks_sends_iff_configured_witness :
  query_tasks sample_upstream (Ok sample_settings_no_password) sample_lower
    sample_re_escape sample_str_json no_filter [] =
    (Ok (create_error_response (ValueError query_tasks_error) "CouchDB _find" false), []) /\
  has_couchdb (client_of sample_settings_no_password) = false.
Proof.
  assert (Hrun : query_tasks sample_upstream (Ok sample_settings_no_password) sample_lower
                   sample_re_escape sample_str_json no_filter [] =
                 (Ok (create_error_response (ValueError query_tasks_error)
                        "CouchDB _find" false), []))
    by (vm_compute; reflexivity).
  split; [exact Hrun|].
  destruct (query_tasks_sends_iff_configured _ _ _ _ _ _ _ _ _ _ eq_refl Hrun) as [H _].
  now apply H.
Defined.

Lemma query_tasks_store_failure_witness :
  query_tasks sample_upstream2 (Ok sample_settings_broken) sample_lower sample_re_escape
    sample_str_json sample_work_query [] =
    (Ok (create_error_response (HTTPError 503) "CouchDB _find" false),
     [api_request (client_of sample_settings_broken) GET "/labels" None;
      find_request (client_of sample_settings_broken) sample_work_selector None 500]).
Proof.
  set (run := query_tasks sample_upstream2 (Ok sample_settings_broken) sample_lower
                sample_re_escape sample_str_json sample_work_query []).
  assert (Hlog : snd run =
                 ([] ++ [api_request (client_of sample_settings_broken) GET "/labels" None] ++
                  [find_request (client_of sample_settings_broken)
                     sample_work_selector None 500])%list)
    by (vm_compute; reflexivity).
  destruct (query_tasks_store_failure sample_upstream2 (Ok sample_settings_broken)
              sample_lower sample_re_escape sample_str_json sample_work_query []
              (fst run) (snd run) (surjective_pairing run)) as [H _].
  destruct (H _ _ Hlog ltac:(discriminate)) as (_ & _ & Hst & _).
  rewrite (surjective_pairing run), Hlog.
  apply (f_equal2 pair); [|reflexivity].
  apply (Hst 503 NoContent); [reflexivity|lia].
Defined.

Lemma get_all_tasks_projection_witness :
  exists data summary,
    get_all_tasks (Ok sample_settings) sample_str_json sample_impl None (Some ["title"])
      false [] =
      (Ok (create_simple_response (JDict data) summary "/categories + /children"
             (JInt 5) false), []) /\
    dict_get data "tasks" =
      Some (JList [JDict [("_id", JStr "t1"); ("title", JStr "Pay rent")];
                   JDict [("_id", JStr "t2"); ("title", JStr "Call bank")]]) /\
    dict_get data "total_tasks" = Some (JInt 2).
Proof.
  destruct (get_all_tasks_projection (Ok sample_settings) sample_str_json sample_impl
              None ["title"] false sample_settings
              [("tasks", JList [sample_task; sample_done_task]); ("total_tasks", JInt 2)]
              [] [] eq_refl eq_refl ltac:(discriminate)) as [H _].
  destruct (H [[("_id", JStr "t1"); ("title", JStr "Pay rent"); ("type", JStr "task");
                ("parentId", JStr "p1"); ("dueDate", JStr "2025-06-13")];
               [("_id", JStr "t2"); ("title", JStr "Call bank"); ("done", JBool true);
                ("parentId", JStr "p1")]] eq_refl) as (data & summary & Hrun & Ht & Hk).
  exists data, summary. split; [exact Hrun|]. split.
  - rewrite Ht. vm_compute. reflexivity.
  - rewrite Hk by discriminate. reflexivity.
Defined.

Lemma completed_for_date_empty_reply_witness :
  get_completed_tasks_for_date sample_upstream2 (Ok sample_settings) sample_str_json
    "2025-06-14" false [] =
    (Ok (create_simple_response
           {| date := "2025-06-14"; total_completed := 0; completed_by_project := [];
              unassigned_completed := []; project_count := 0; unassigned_count := 0;
              all_completed := JDict [];
              source := "Efficiently filtered from /doneItems?date=2025-06-14" |}
           "Retrieved 0 completed tasks for 2025-06-14" "/doneItems" (JInt 1) false),
     [api_request sample_client GET "/doneItems?date=2025-06-14" None]).
Proof.
  apply (completed_for_date_empty_reply sample_upstream2 (Ok sample_settings)
           sample_str_json sample_settings "2025-06-14" false [] 200 eq_refl).
  - reflexivity.
  - lia.
Defined.

Lemma completed_for_date_unhashable_parent_witness :
  get_completed_tasks_for_date sample_upstream2 (Ok sample_settings) sample_str_json
    "2025-06-15" false [] =
    (Ok (create_error_response TypeError "/doneItems" false),
     [api_request sample_client GET "/doneItems?date=2025-06-15" None]).
Proof.
  apply (completed_for_date_unhashable_parent sample_upstream2 (Ok sample_settings)
           sample_str_json sample_settings "2025-06-15" false [sample_done_task]
           [("_id", JStr "t9"); ("parentId", JList [JStr "p1"])] [] []
           [api_request sample_client GET "/doneItems?date=2025-06-15" None] eq_refl).
  - vm_compute. reflexivity.
  - repeat constructor; eexists; reflexivity.
  - reflexivity.
Defined.

Lemma db_uri_trailing_slashes_witness :
  exists r req,
    find_docs sample_upstream
      (MarvinAPIClient_init "key" "" "https://db.example//" "marvin" "user" "secret")
      (selector_base no_filter) None 500 [] = (r, [req]) /\
    req_url req = "https://db.example/marvin/_find".
Proof.
  destruct (db_uri_trailing_slashes sample_upstream
              "key" "" "https://db.example//" "marvin" "user" "secret")
    as (_ & _ & H).
  destruct (H (selector_base no_filter) None 500 [] eq_refl)
    as (r & req & Hrun & Hurl & _).
  exists r, req. split; [exact Hrun|exact Hurl].
Defined.
